(** * Car-rental storefront backend: booking, inventory and invoices

    A shallow embedding of the two server programs of the repository:

    - [PaymentServer]: the server of [src/unnamed/part_000] (Stripe payment
      verification, no input validation, clamping availability update);
    - [ValidatedServer]: the server in the second half of [src/script.js]
      (express-validator chains, admin session gate, [escapeHtml]).

    Both keep the whole inventory in one JSON file that every request loads,
    mutates in memory and writes back.  The file content is the [Inventory]
    value threaded through the handlers below.

    JavaScript numbers are IEEE-754 doubles: money and day counts are modelled
    with Rocq's primitive binary64 floats, so that [subtotal * 0.08] is the
    product the program computes.  The ids, prices and counts of a car are
    [Z]: the inventories of this development are the documents whose counts
    are whole numbers, and [Js.minusOne] is the subtraction of doubles on
    them.

    Outside the model:
    - what a handler's [catch] answers (a corrupt file, a write that
      fails), and the mails, which are sent after the save and change
      neither the file nor the answer;
    - a booking request that leaves a text field out ([BookingRequest]);
    - a count that is no whole number.  Such a count gets into the file in
      two ways: [PUT /api/cars/:id/availability] of [src/unnamed/part_000]
      stores the NaN that [parseInt] gives on a value that is no numeral
      ([PaymentServer.putAvailability] says when), and the same route of
      [src/script.js] stores any JSON number that passes its three tests,
      a fraction or an infinity among them
      ([ValidatedServer.putAvailability] says when, and
      [ValidatedServer.updateAvailability] is the route on whole numbers).
      The theorems below speak of the requests and inventories that the
      definitions hold. *)

From Stdlib Require Import ZArith String Ascii Floats DecimalString.
From stdpp Require Import base option list.

Set Warnings "-inexact-float".
Local Open Scope string_scope.
Local Open Scope Z_scope.

(** ** JavaScript numbers *)

Module Js.

(** The double nearest to an integer (what a numeric literal or a JSON
    number denotes). *)
Definition ofZ (z : Z) : float := SF2Prim (binary_normalize prec emax z 0 false).

(** [Math.ceil]: NaN, the infinities and the zeros are returned unchanged; a
    negative argument above -1 gives -0. *)
Definition Math_ceil (x : float) : float :=
  match Prim2SF x with
  | S754_finite s m e =>
      if 0 <=? e then x
      else
        let q := Z.shiftr (Z.pos m) (- e) in
        let exact := Z.pos m =? Z.shiftl q (- e) in
        if s then PrimFloat.opp (ofZ q)
        else ofZ (if exact then q else q + 1)
  | _ => x
  end.

(** [Math.max] and [Math.min] on integers. *)
Definition Math_max (a b : Z) : Z := Z.max a b.
Definition Math_min (a b : Z) : Z := Z.min a b.

(** [x - 1] on a whole number [x] that a double holds.  The difference is
    exact from [-2^53 + 1] to [2^53].  Beyond, [x - 1] is no double and the
    result is the double nearest to it: between 2^53 and 2^54 in magnitude
    the doubles are the even numbers, [x - 1] lies half way between [x - 2]
    and [x], and the one whose significand is even is taken; from 2^54 on
    the nearest double is [x] itself. *)
Definition minusOne (x : Z) : Z :=
  if (- 2 ^ 53 <? x) && (x <=? 2 ^ 53) then x - 1
  else if 2 ^ 54 <=? Z.abs x then x
  else if Z.even (x / 2) then x else x - 2.

(** Decimal rendering of an integer, as [String(n)] gives it. *)
Definition showZ (z : Z) : string := NilZero.string_of_int (Z.to_int z).

(** The nearest integer to [100 * x] for the exact value of a finite double
    [x], ties going up: the integer [n] that [Number.prototype.toFixed(2)]
    picks ("let n be an integer for which n / 10^2 - x is as close to zero
    as possible; if there are two such n, pick the larger"). *)
Definition hundredths (x : float) : option Z :=
  match Prim2SF x with
  | S754_zero _ => Some 0
  | S754_finite s m e =>
      let mag :=
        if 0 <=? e then Z.shiftl (100 * Z.pos m) e
        else (200 * Z.pos m + Z.shiftl 1 (- e)) / Z.shiftl 1 (- e + 1) in
      Some (if s then - mag else mag)
  | _ => None
  end.

(** The specification's [round(x, 2)]: the double nearest to the multiple of
    0.01 that is nearest to [x]. *)
Definition roundToCents (x : float) : float :=
  match hundredths x with
  | Some n => PrimFloat.div (ofZ n) (ofZ 100)
  | None => x
  end.

Definition twoDigits (n : Z) : string :=
  if n <? 10 then "0" ++ showZ n else showZ n.

(** What the program takes from the JavaScript runtime and its locale: the
    parsers and printers of the standard library.  A time value is the
    number of milliseconds since the epoch, NaN for an invalid date. *)
Record Runtime := {
  (** [parseInt(s)]: [None] stands for NaN, [Some z] for the whole number
      [z] (the double nearest to a numeral beyond 2^53); a numeral too long
      for a double, read as Infinity, is outside this development *)
  parseInt : string -> option Z;
  (** [new Date(s)], as its time value *)
  newDate : string -> float;
  (** [d.toLocaleDateString()] in the server's locale *)
  toLocaleDateString : float -> string;
  (** [d.toLocaleDateString('en-US', {year: 'numeric', month: 'long', day: 'numeric'})] *)
  toLongDateString : float -> string;
  (** [String(x)] of a number, as a template literal interpolates it *)
  numberToString : float -> string
}.

(** [x.toFixed(2)]: a value that is not finite, or of magnitude 1e21 and
    more, is printed as [String(x)]; any other one as the nearest multiple
    of 0.01 with two decimals. *)
Definition toFixed2 (rt : Runtime) (x : float) : string :=
  match hundredths x with
  | Some n =>
      if Z.abs n <? 10 ^ 23 then
        (if PrimFloat.ltb x 0 then "-" else "")
          ++ showZ (Z.abs n / 100) ++ "." ++ twoDigits (Z.abs n mod 100)
      else numberToString rt x
  | None => numberToString rt x
  end.

(** Truthiness of a string value: only the empty string is falsy. *)
Definition truthy (s : string) : bool := negb (String.eqb s "").

(** [s.includes(t)]: [t] occurs in [s]. *)
Fixpoint includes (s t : string) : bool :=
  String.prefix t s ||
  match s with
  | EmptyString => false
  | String _ rest => includes rest t
  end.

(** The literal text of a template.  A backtick cannot occur in the text of
    a JavaScript template literal; below it is written where the source has
    a quotation mark (character 34). *)
Fixpoint text (s : string) : string :=
  match s with
  | EmptyString => EmptyString
  | String c rest => String (if Ascii.eqb c "`" then "034"%char else c) (text rest)
  end.

(** A template literal: the concatenation of its text and interpolations. *)
Definition template (pieces : list string) : string := String.concat EmptyString pieces.

(** The integer a double holds, when it holds one. *)
Definition toZ (x : float) : option Z :=
  match Prim2SF x with
  | S754_zero _ => Some 0
  | S754_finite s m e =>
      let mag :=
        if 0 <=? e then Some (Z.shiftl (Z.pos m) e)
        else
          let q := Z.shiftr (Z.pos m) (- e) in
          if Z.pos m =? Z.shiftl q (- e) then Some q else None in
      (fun v => if s then - v else v) <$> mag
  | _ => None
  end.

(** [mag] is the magnitude [m * 2^e] of a double with significand [m] and
    exponent [e], when that is a whole number. *)
Definition magnitude (m : positive) (e mag : Z) : Prop :=
  if 0 <=? e then mag = Z.pos m * 2 ^ e else mag * 2 ^ (- e) = Z.pos m.

(** [Math.round]: the nearest integer, a tie going up; NaN, the infinities
    and the zeros are returned unchanged, and a negative argument from -0.5
    up gives -0. *)
Definition Math_round (x : float) : float :=
  match Prim2SF x with
  | S754_finite s m e =>
      if 0 <=? e then x
      else if s then
        PrimFloat.opp (ofZ (- ((Z.shiftl 1 (- e) - 2 * Z.pos m) / Z.shiftl 1 (- e + 1))))
      else ofZ ((2 * Z.pos m + Z.shiftl 1 (- e)) / Z.shiftl 1 (- e + 1))
  | _ => x
  end.

(** An amount of cents as [toFixed(2)] prints it. *)
Definition cents (n : Z) : string :=
  showZ (n / 100) ++ "." ++ twoDigits (n mod 100).

End Js.

(** ** The inventory file *)

(** A car record of [inventory.json].  [quantity] and [available] are whole
    numbers: such is every count that the seed documents hold and that
    [parseInt] reads.  [carTrim] (the key [trim]) and [color] are written by
    the admin routes of [src/script.js] only; [None] is a record without the
    key, as the seed documents have it. *)
Record Car := {
  id : Z;
  name : string;
  model : string;
  carTrim : option string;
  price : Z;
  year : string;
  seats : string;
  transmission : string;
  fuel : string;
  mileage : string;
  features : string;
  color : option string;
  quantity : Z;
  available : Z;
  images : list string
}.

(** A booking record.  [days], [subtotal], [tax] and [total] are the priced
    snapshot taken at creation.  [paymentIntentId] is [None] for JavaScript's
    null, and for the bookings of [ValidatedServer], which have no such key. *)
Record Booking := {
  bookingId : string;
  carId : Z;
  carName : string;
  firstName : string;
  lastName : string;
  email : string;
  phone : string;
  pickupDate : string;
  returnDate : string;
  pickupLocation : string;
  additionalInfo : string;
  pricePerDay : Z;
  days : float;
  subtotal : float;
  tax : float;
  total : float;
  paymentIntentId : option string;
  paymentStatus : string;
  bookingDate : string
}.

(** A booking with another priced snapshot. *)
Definition setSnapshot (d s t tt : float) (b : Booking) : Booking :=
  {| bookingId := bookingId b; carId := carId b; carName := carName b;
     firstName := firstName b; lastName := lastName b; email := email b;
     phone := phone b; pickupDate := pickupDate b; returnDate := returnDate b;
     pickupLocation := pickupLocation b; additionalInfo := additionalInfo b;
     pricePerDay := pricePerDay b;
     days := d; subtotal := s; tax := t; total := tt;
     paymentIntentId := paymentIntentId b; paymentStatus := paymentStatus b;
     bookingDate := bookingDate b |}.

(** The persisted document [{cars: [...], bookings: [...]}]. *)
Record Inventory := {
  cars : list Car;
  bookings : list Booking
}.

(** In-place assignments to the fields of a car object. *)
Definition setAvailable (v : Z) (c : Car) : Car :=
  {| id := id c; name := name c; model := model c; carTrim := carTrim c;
     price := price c; year := year c; seats := seats c;
     transmission := transmission c; fuel := fuel c; mileage := mileage c;
     features := features c; color := color c;
     quantity := quantity c; available := v; images := images c |}.

Definition setQuantity (v : Z) (c : Car) : Car :=
  {| id := id c; name := name c; model := model c; carTrim := carTrim c;
     price := price c; year := year c; seats := seats c;
     transmission := transmission c; fuel := fuel c; mileage := mileage c;
     features := features c; color := color c;
     quantity := v; available := available c; images := images c |}.

Definition setImages (v : list string) (c : Car) : Car :=
  {| id := id c; name := name c; model := model c; carTrim := carTrim c;
     price := price c; year := year c; seats := seats c;
     transmission := transmission c; fuel := fuel c; mileage := mileage c;
     features := features c; color := color c;
     quantity := quantity c; available := available c; images := v |}.

(** [inventory.cars.find(c => c.id === parseInt(key))]: the first car with
    that id, with its position in the array.  Nothing equals NaN. *)
Definition findCar (key : option Z) (inv : Inventory) : option (nat * Car) :=
  list_find (fun c => Some (id c) = key) (cars inv).

(** The invariant of the data model, car by car and for a whole document. *)
Definition carOk (c : Car) : Prop := 0 <= available c <= quantity c.
Definition inventoryOk (inv : Inventory) : Prop := Forall carOk (cars inv).

(** The seed document that [initializeInventory] writes on first run
    ([src/unnamed/part_000], lines 93-132). *)
Definition camry : Car :=
  {| id := 1; name := "Toyota Camry"; model := "Camry"; carTrim := None;
     price := 60; year := "2024"; seats := "5"; transmission := "Automatic";
     fuel := "Gasoline"; mileage := "Unlimited";
     features := "Bluetooth, Navigation, Backup Camera, Apple CarPlay";
     color := None; quantity := 1; available := 1; images := [] |}.

Definition rav4 : Car :=
  {| id := 2; name := "Toyota RAV4"; model := "RAV4"; carTrim := None;
     price := 70; year := "2024"; seats := "5"; transmission := "Automatic";
     fuel := "Gasoline"; mileage := "Unlimited";
     features := "All-Wheel Drive, Apple CarPlay, Safety Sense, Panoramic Roof";
     color := None; quantity := 3; available := 3; images := [] |}.

Definition initialInventory : Inventory :=
  {| cars := [camry; rav4]; bookings := [] |}.

(** A car as a later state of the file may show it: the same id, texts and
    price, and the images it had followed by any others. *)
Definition laterCar (c c' : Car) : Prop :=
  id c' = id c /\ name c' = name c /\ model c' = model c /\ carTrim c' = carTrim c
  /\ price c' = price c /\ year c' = year c /\ seats c' = seats c
  /\ transmission c' = transmission c /\ fuel c' = fuel c /\ mileage c' = mileage c
  /\ features c' = features c /\ color c' = color c
  /\ images c `prefix_of` images c'.

(** The ids of the cars are all different. *)
Definition uniqueIds (inv : Inventory) : Prop := NoDup (id <$> cars inv).

(** ** Requests, errors and collaborators *)

(** The body of [POST /api/bookings] when it gives every text field;
    [additionalInfo] and [paymentIntentId] may be undefined.  A body that
    leaves a text field out (the handler of [src/unnamed/part_000] then
    stores a booking without the key) is outside this development. *)
Record BookingRequest := {
  r_carId : string;
  r_firstName : string;
  r_lastName : string;
  r_email : string;
  r_phone : string;
  r_pickupDate : string;
  r_returnDate : string;
  r_pickupLocation : string;
  r_additionalInfo : option string;
  r_paymentIntentId : option string
}.

(** The rejections of the handlers, named as in the specification. *)
Inductive Error :=
| ValidationFailed
| CarNotFound
| CarUnavailable
| InvalidDateRange
| PaymentNotCompleted
| PaymentVerificationFailed
| NoImagesUploaded.

(** The HTTP status and message each rejection is sent with. *)
Definition httpStatus (e : Error) : Z :=
  match e with
  | CarNotFound => 404
  | _ => 400
  end.

Definition errorMessage (e : Error) : string :=
  match e with
  | ValidationFailed => "Validation failed"
  | CarNotFound => "Car not found"
  | CarUnavailable => "Car is not available"
  | InvalidDateRange => "Return date must be after pickup date"
  | PaymentNotCompleted =>
      "Payment not completed. Please complete the payment to confirm your booking."
  | PaymentVerificationFailed => "Payment verification failed. Please try again."
  | NoImagesUploaded => "No images uploaded"
  end.

(** The answer of a handler. *)
Inductive Response (A : Type) :=
| Ok (a : A)
| Rejected (e : Error).
Arguments Ok {A} a.
Arguments Rejected {A} e.

(** The two clock readings of a booking: [Date.now()] for the booking id and
    [new Date().toISOString()] for the booking date. *)
Record Clock := {
  dateNow : Z;
  isoNow : string
}.

(** The payment collaborator: what [stripe.paymentIntents.retrieve] gives
    for a reference, a status or an exception. *)
Inductive PaymentResult :=
| Retrieved (status : string)
| Threw.

Record Gateway := {
  (** [process.env.STRIPE_SECRET_KEY] is set *)
  configured : bool;
  retrieve : string -> PaymentResult
}.

(** ** The server of [src/unnamed/part_000] *)

Module PaymentServer.

(** *** Pricing (lines 444-455 of the booking handler) *)

Record Pricing := {
  p_days : float;
  p_subtotal : float;
  p_tax : float;
  p_total : float
}.

(** [1000 * 60 * 60 * 24] *)
Definition MS_PER_DAY : float := Js.ofZ (1000 * 60 * 60 * 24).

(** [Math.ceil((returnD - pickup) / (1000 * 60 * 60 * 24))] on the time
    values of the two dates. *)
Definition rentalDays (pickup returnD : float) : float :=
  Js.Math_ceil (PrimFloat.div (PrimFloat.sub returnD pickup) MS_PER_DAY).

(** [subtotal = days * car.price; tax = subtotal * 0.08;
    total = subtotal + tax]. *)
Definition priceRental (pickup returnD : float) (dailyRate : Z) : Pricing :=
  let days := rentalDays pickup returnD in
  let subtotal := PrimFloat.mul days (Js.ofZ dailyRate) in
  let tax := PrimFloat.mul subtotal 0.08%float in
  let total := PrimFloat.add subtotal tax in
  {| p_days := days; p_subtotal := subtotal; p_tax := tax; p_total := total |}.

(** *** [POST /api/bookings] *)

(** What the handler holds in memory once its checks have passed: the
    document it loaded, the car it found there and the priced request.  When a
    payment has to be verified the handler is suspended in this state at
    [await stripe.paymentIntents.retrieve(...)]. *)
Record Pending := {
  heldInventory : Inventory;
  heldIndex : nat;
  heldCar : Car;
  heldRequest : BookingRequest;
  heldId : string;
  heldPricing : Pricing
}.

(** Lines 431-455: load, find the car, check availability and dates, price. *)
Definition bookingPrepare (rt : Js.Runtime) (now : Z) (file : Inventory)
    (req : BookingRequest) : Response Pending :=
  match findCar (Js.parseInt rt (r_carId req)) file with
  | None => Rejected CarNotFound
  | Some (i, car) =>
      if available car <=? 0 then Rejected CarUnavailable
      else
        let pickup := Js.newDate rt (r_pickupDate req) in
        let returnD := Js.newDate rt (r_returnDate req) in
        if PrimFloat.leb returnD pickup then Rejected InvalidDateRange
        else
          Ok {| heldInventory := file; heldIndex := i; heldCar := car;
                heldRequest := req; heldId := "BK" ++ Js.showZ now;
                heldPricing := priceRental pickup returnD (price car) |}
  end.

(** Line 459: [paymentIntentId && stripe && process.env.STRIPE_SECRET_KEY].
    The reference to verify, if the guard holds. *)
Definition referenceToVerify (gw : Gateway) (req : BookingRequest) : option string :=
  match r_paymentIntentId req with
  | Some ref => if Js.truthy ref && configured gw then Some ref else None
  | None => None
  end.

(** Lines 472-492: the booking object. *)
Definition makeBooking (p : Pending) (status isoDate : string) : Booking :=
  let req := heldRequest p in
  let car := heldCar p in
  {| bookingId := heldId p;
     carId := id car;
     carName := name car;
     firstName := r_firstName req;
     lastName := r_lastName req;
     email := r_email req;
     phone := r_phone req;
     pickupDate := r_pickupDate req;
     returnDate := r_returnDate req;
     pickupLocation := r_pickupLocation req;
     additionalInfo := default "" (r_additionalInfo req);
     pricePerDay := price car;
     days := p_days (heldPricing p);
     subtotal := p_subtotal (heldPricing p);
     tax := p_tax (heldPricing p);
     total := p_total (heldPricing p);
     paymentIntentId :=
       match r_paymentIntentId req with
       | Some ref => if Js.truthy ref then Some ref else None
       | None => None
       end;
     paymentStatus := status;
     bookingDate := isoDate |}.

(** Lines 494-497: [car.available -= 1; inventory.bookings.push(booking);
    saveInventory(inventory)].  The document written is the one this handler
    loaded, with its car object and its bookings array mutated. *)
Definition bookingCommit (p : Pending) (status isoDate : string) : Inventory * Booking :=
  let b := makeBooking p status isoDate in
  let car := heldCar p in
  let inv := heldInventory p in
  ({| cars := <[heldIndex p := setAvailable (Js.minusOne (available car)) car]> (cars inv);
      bookings := (bookings inv ++ [b])%list |}, b).

(** Lines 460-469: the handler resumed with the collaborator's answer. *)
Definition bookingSettle (p : Pending) (r : PaymentResult) (isoDate : string)
    : Response (Inventory * Booking) :=
  match r with
  | Retrieved status =>
      if String.eqb status "succeeded" then Ok (bookingCommit p status isoDate)
      else Rejected PaymentNotCompleted
  | Threw => Rejected PaymentVerificationFailed
  end.

(** What one call leaves behind: the content of the inventory file, the
    answer, and the references the payment collaborator was asked about. *)
Record Outcome := {
  saved : Inventory;
  answer : Response Booking;
  queried : list string
}.

(** The whole handler, run without another request in between.  The mails
    are sent after the save, inside a [try] whose [catch] only logs: they
    change neither the file nor the answer. *)
Definition createBooking (rt : Js.Runtime) (gw : Gateway) (clk : Clock)
    (file : Inventory) (req : BookingRequest) : Outcome :=
  match bookingPrepare rt (dateNow clk) file req with
  | Rejected e => {| saved := file; answer := Rejected e; queried := [] |}
  | Ok p =>
      match referenceToVerify gw req with
      | Some ref =>
          match bookingSettle p (retrieve gw ref) (isoNow clk) with
          | Ok (inv, b) => {| saved := inv; answer := Ok b; queried := [ref] |}
          | Rejected e => {| saved := file; answer := Rejected e; queried := [ref] |}
          end
      | None =>
          let '(inv, b) := bookingCommit p "pending" (isoNow clk) in
          {| saved := inv; answer := Ok b; queried := [] |}
      end
  end.

(** *** Requests in flight

    Node runs a handler until it returns or reaches an [await]; other
    requests run in between.  A booking request is therefore one turn of the
    event loop when no payment is verified, and two turns around
    [await stripe.paymentIntents.retrieve] when one is. *)
Inductive Task :=
| Arrived (req : BookingRequest) (clk : Clock)
| Awaiting (p : Pending) (ref : string) (clk : Clock)
| Finished (r : Response Booking).

Record Server := {
  file : Inventory;
  tasks : list Task
}.

(** One turn of a task against the current content of the file. *)
Definition stepTask (rt : Js.Runtime) (gw : Gateway) (f : Inventory) (t : Task)
    : Inventory * Task :=
  match t with
  | Arrived req clk =>
      match bookingPrepare rt (dateNow clk) f req with
      | Rejected e => (f, Finished (Rejected e))
      | Ok p =>
          match referenceToVerify gw req with
          | Some ref => (f, Awaiting p ref clk)
          | None =>
              let '(inv, b) := bookingCommit p "pending" (isoNow clk) in
              (inv, Finished (Ok b))
          end
      end
  | Awaiting p ref clk =>
      match bookingSettle p (retrieve gw ref) (isoNow clk) with
      | Ok (inv, b) => (inv, Finished (Ok b))
      | Rejected e => (f, Finished (Rejected e))
      end
  | Finished r => (f, t)
  end.

(** The event loop gives the next turn to task [k]. *)
Definition turn (rt : Js.Runtime) (gw : Gateway) (s : Server) (k : nat) : Server :=
  match tasks s !! k with
  | Some t =>
      let '(f, t') := stepTask rt gw (file s) t in
      {| file := f; tasks := <[k := t']> (tasks s) |}
  | None => s
  end.

Definition run (rt : Js.Runtime) (gw : Gateway) (schedule : list nat) (s : Server)
    : Server :=
  foldl (turn rt gw) s schedule.

(** The requests that were answered with a booking. *)
Definition succeeded (t : Task) : bool :=
  match t with
  | Finished (Ok _) => true
  | _ => false
  end.

Definition successes (s : Server) : nat := length (filter (fun t => succeeded t = true) (tasks s)).

(** *** [PUT /api/cars/:id/availability] (lines 656-686) *)

(** The fields of the body as [parseInt] reads them, when it reads whole
    numbers: [None] for a field that is undefined.  [putAvailability] below
    takes the body as it is sent and says which bodies these are. *)
Record AvailabilityUpdate := {
  u_available : option Z;
  u_quantity : option Z
}.

Definition applyAvailability (u : AvailabilityUpdate) (car : Car) : Car :=
  let car1 :=
    match u_available u with
    | Some a => setAvailable (Js.Math_max 0 (Js.Math_min (quantity car) a)) car
    | None => car
    end in
  match u_quantity u with
  | Some newQuantity =>
      let car2 := setQuantity newQuantity car1 in
      setAvailable (Js.Math_min (available car2) newQuantity) car2
  | None => car1
  end.

Definition updateAvailability (rt : Js.Runtime) (idParam : string)
    (u : AvailabilityUpdate) (f : Inventory) : Inventory * Response Car :=
  match findCar (Js.parseInt rt idParam) f with
  | None => (f, Rejected CarNotFound)
  | Some (i, car) =>
      let car' := applyAvailability u car in
      ({| cars := <[i := car']> (cars f); bookings := bookings f |}, Ok car')
  end.

(** The body as it is sent: [None] for a field that is undefined, else the
    value as [parseInt] is given it (for a JSON number, its [String]). *)
Record AvailabilityBody := {
  sent_available : option string;
  sent_quantity : option string
}.

(** A field as [parseInt] reads it: [None] when it is given and reads as
    NaN. *)
Definition readField (rt : Js.Runtime) (field : option string) : option (option Z) :=
  match field with
  | None => Some None
  | Some value => Some <$> Js.parseInt rt value
  end.

Definition readAvailability (rt : Js.Runtime) (body : AvailabilityBody)
    : option AvailabilityUpdate :=
  match readField rt (sent_available body), readField rt (sent_quantity body) with
  | Some a, Some q => Some {| u_available := a; u_quantity := q |}
  | _, _ => None
  end.

(** The route on the body as it is sent.  The car is looked up before the
    body is read.  [None] is the case this development does not follow:
    the car is found and a field that is given reads as NaN, which the
    handler stores in the car ([JSON.stringify] writes it as null). *)
Definition putAvailability (rt : Js.Runtime) (idParam : string)
    (body : AvailabilityBody) (f : Inventory) : option (Inventory * Response Car) :=
  match findCar (Js.parseInt rt idParam) f with
  | None => Some (f, Rejected CarNotFound)
  | Some _ => (fun u => updateAvailability rt idParam u f) <$> readAvailability rt body
  end.

(** *** [POST /api/cars/:id/images] (lines 352-374) *)

Definition attachImages (rt : Js.Runtime) (idParam : string)
    (uploadedFiles : list string) (f : Inventory) : Inventory * Response Car :=
  match findCar (Js.parseInt rt idParam) f with
  | None => (f, Rejected CarNotFound)
  | Some (i, car) =>
      match uploadedFiles with
      | [] => (f, Rejected NoImagesUploaded)
      | _ =>
          let car' := setImages (images car ++ uploadedFiles)%list car in
          ({| cars := <[i := car']> (cars f); bookings := bookings f |}, Ok car')
      end
  end.

(** *** [generateInvoiceHTML] (lines 159-277)

    The renderer computes the stay and the amounts again from the dates and
    the daily rate of the booking, and interpolates every text field as it
    is. *)
Definition invoicePricing (rt : Js.Runtime) (booking : Booking) : Pricing :=
  priceRental (Js.newDate rt (pickupDate booking)) (Js.newDate rt (returnDate booking))
    (pricePerDay booking).

Definition invoicePieces (rt : Js.Runtime) (booking : Booking) : list string :=
  let days := p_days (invoicePricing rt booking) in
  let subtotal := p_subtotal (invoicePricing rt booking) in
  let tax := p_tax (invoicePricing rt booking) in
  let total := p_total (invoicePricing rt booking) in
  [ Js.text "
    <!DOCTYPE html>
    <html>
    <head>
        <style>
            body { font-family: Arial, sans-serif; line-height: 1.6; color: #333; }
            .container { max-width: 600px; margin: 0 auto; padding: 20px; }
            .header { background: linear-gradient(135deg, #667eea 0%, #764ba2 100%); color: white; padding: 30px; text-align: center; border-radius: 10px 10px 0 0; }
            .content { background: #f9f9f9; padding: 30px; border-radius: 0 0 10px 10px; }
            .invoice-details { background: white; padding: 20px; border-radius: 8px; margin: 20px 0; }
            .detail-row { display: flex; justify-content: space-between; padding: 10px 0; border-bottom: 1px solid #eee; }
            .detail-row:last-child { border-bottom: none; }
            .total { font-size: 1.5em; font-weight: bold; color: #667eea; margin-top: 20px; }
            .footer { text-align: center; margin-top: 30px; color: #666; font-size: 0.9em; }
        </style>
    </head>
    <body>
        <div class=`container`>
            <div class=`header`>
                <h1>ES Dynamic Rentals</h1>
                <p>Booking Confirmation & Invoice</p>
            </div>
            <div class=`content`>
                <h2>Thank you for your booking, ";
    firstName booking;
    Js.text "!</h2>
                <p>Your reservation has been confirmed. Below are your booking details:</p>
                
                <div class=`invoice-details`>
                    <h3>Booking Information</h3>
                    <div class=`detail-row`>
                        <span><strong>Booking ID:</strong></span>
                        <span>#";
    bookingId booking;
    Js.text "</span>
                    </div>
                    <div class=`detail-row`>
                        <span><strong>Vehicle:</strong></span>
                        <span>";
    carName booking;
    Js.text "</span>
                    </div>
                    <div class=`detail-row`>
                        <span><strong>Pickup Date:</strong></span>
                        <span>";
    Js.toLocaleDateString rt (Js.newDate rt (pickupDate booking));
    Js.text "</span>
                    </div>
                    <div class=`detail-row`>
                        <span><strong>Return Date:</strong></span>
                        <span>";
    Js.toLocaleDateString rt (Js.newDate rt (returnDate booking));
    Js.text "</span>
                    </div>
                    <div class=`detail-row`>
                        <span><strong>Rental Period:</strong></span>
                        <span>";
    Js.numberToString rt days;
    Js.text " day(s)</span>
                    </div>
                    <div class=`detail-row`>
                        <span><strong>Pickup Location:</strong></span>
                        <span>";
    pickupLocation booking;
    Js.text "</span>
                    </div>
                </div>

                <div class=`invoice-details`>
                    <h3>Customer Information</h3>
                    <div class=`detail-row`>
                        <span><strong>Name:</strong></span>
                        <span>";
    firstName booking;
    Js.text " ";
    lastName booking;
    Js.text "</span>
                    </div>
                    <div class=`detail-row`>
                        <span><strong>Email:</strong></span>
                        <span>";
    email booking;
    Js.text "</span>
                    </div>
                    <div class=`detail-row`>
                        <span><strong>Phone:</strong></span>
                        <span>";
    phone booking;
    Js.text "</span>
                    </div>
                </div>

                <div class=`invoice-details`>
                    <h3>Pricing</h3>
                    <div class=`detail-row`>
                        <span>Daily Rate:</span>
                        <span>$";
    Js.showZ (pricePerDay booking);
    Js.text "/day</span>
                    </div>
                    <div class=`detail-row`>
                        <span>Rental Days:</span>
                        <span>";
    Js.numberToString rt days;
    Js.text " day(s)</span>
                    </div>
                    <div class=`detail-row`>
                        <span>Subtotal:</span>
                        <span>$";
    Js.toFixed2 rt subtotal;
    Js.text "</span>
                    </div>
                    <div class=`detail-row`>
                        <span>Tax (8%):</span>
                        <span>$";
    Js.toFixed2 rt tax;
    Js.text "</span>
                    </div>
                    <div class=`detail-row total`>
                        <span>Total:</span>
                        <span>$";
    Js.toFixed2 rt total;
    Js.text "</span>
                    </div>
                </div>

                ";
    (if Js.truthy (additionalInfo booking) then
       Js.text "
                <div class=`invoice-details`>
                    <h3>Additional Information</h3>
                    <p>" ++ additionalInfo booking ++ Js.text "</p>
                </div>
                "
     else EmptyString);
    Js.text "

                <div class=`footer`>
                    <p><strong>ES Dynamic Rentals</strong></p>
                    <p>1460 South Canton Avenue, Tulsa, Oklahoma 74137</p>
                    <p>Phone: 918-204-8691 | Email: esdyamicrental@gmail.com</p>
                    <p>Please arrive 15 minutes before your scheduled pickup time.</p>
                </div>
            </div>
        </div>
    </body>
    </html>
    " ].

Definition generateInvoiceHTML (rt : Js.Runtime) (booking : Booking) : string :=
  Js.template (invoicePieces rt booking).

(** *** [GET /api/cars] and [GET /api/cars/:id] (lines 282-315) *)

(** [car.available > 0 ? (car.available < car.quantity ? 'limited' :
    'available') : 'unavailable'] *)
Definition availabilityOf (car : Car) : string :=
  if 0 <? available car then
    if available car <? quantity car then "limited" else "available"
  else "unavailable".

Definition priceLabel (car : Car) : string := "$" ++ Js.showZ (price car) ++ "/day".

(** An entry of the list: the car, with [price] and [availability] written
    over and [image] added ([None] for null). *)
Record CarSummary := {
  s_car : Car;
  s_price : string;
  s_availability : string;
  s_image : option string
}.

Definition summaryOf (car : Car) : CarSummary :=
  {| s_car := car;
     s_price := priceLabel car;
     s_availability := availabilityOf car;
     s_image := (fun img => "/images/" ++ img) <$> head (images car) |}.

Definition listCars (f : Inventory) : list CarSummary := summaryOf <$> cars f.

(** The single car: [images] are written over with their URLs. *)
Record CarDetail := {
  d_car : Car;
  d_price : string;
  d_availability : string;
  d_images : list string
}.

Definition detailOf (car : Car) : CarDetail :=
  {| d_car := car;
     d_price := priceLabel car;
     d_availability := availabilityOf car;
     d_images := (fun img => "/images/" ++ img) <$> images car |}.

Definition getCar (rt : Js.Runtime) (idParam : string) (f : Inventory) : Response CarDetail :=
  match findCar (Js.parseInt rt idParam) f with
  | None => Rejected CarNotFound
  | Some (_, car) => Ok (detailOf car)
  end.

(** *** [POST /api/create-payment-intent] (lines 383-426) *)

(** The answer: the amount in cents that Stripe is asked for, 404, or the
    500 of a server without the Stripe key. *)
Inductive IntentAnswer :=
| IntentFor (amount : float)
| IntentCarNotFound
| IntentNotConfigured.

(** [Math.round((subtotal + tax) * 100)] *)
Definition amountInCents (q : Pricing) : float :=
  Js.Math_round (PrimFloat.mul (PrimFloat.add (p_subtotal q) (p_tax q)) 100).

Definition createPaymentIntent (rt : Js.Runtime) (gw : Gateway)
    (carIdField pickupField returnField : string) (f : Inventory) : IntentAnswer :=
  match findCar (Js.parseInt rt carIdField) f with
  | None => IntentCarNotFound
  | Some (_, car) =>
      let q := priceRental (Js.newDate rt pickupField) (Js.newDate rt returnField)
                 (price car) in
      if configured gw then IntentFor (amountInCents q) else IntentNotConfigured
  end.

(** The amounts of a subtotal of [k] whole dollars, as the handlers compute
    them: the cents asked of Stripe are [108 * k], and the subtotal, the tax
    and the total are printed as [100 * k], [8 * k] and [108 * k] cents. *)
Definition centExact (k : Z) : bool :=
  let subtotal := Js.ofZ k in
  let tax := PrimFloat.mul subtotal 0.08 in
  let total := PrimFloat.add subtotal tax in
  bool_decide (Js.toZ (Js.Math_round (PrimFloat.mul total 100)) = Some (108 * k))
  && bool_decide (Js.hundredths subtotal = Some (100 * k))
  && bool_decide (Js.hundredths tax = Some (8 * k))
  && bool_decide (Js.hundredths total = Some (108 * k))
  && negb (PrimFloat.ltb subtotal 0) && negb (PrimFloat.ltb tax 0)
  && negb (PrimFloat.ltb total 0).

(** [centExact] for [n] subtotals in a row, from [k] on. *)
Fixpoint centExactFrom (n : nat) (k : Z) : bool :=
  match n with
  | O => true
  | S n' => centExact k && centExactFrom n' (k + 1)
  end.

(** *** The routes, one request after the other *)

Inductive Request :=
| GetCars
| GetCar (idParam : string)
| PostImages (idParam : string) (uploadedFiles : list string)
| PostPaymentIntent (carIdField pickupField returnField : string)
| PostBooking (req : BookingRequest) (clk : Clock)
| GetBookings
| PutAvailability (idParam : string) (u : AvailabilityUpdate).

(** The content of the inventory file after a request. *)
Definition serve (rt : Js.Runtime) (gw : Gateway) (f : Inventory) (r : Request) : Inventory :=
  match r with
  | PostImages idParam uploadedFiles => (attachImages rt idParam uploadedFiles f).1
  | PostBooking req clk => saved (createBooking rt gw clk f req)
  | PutAvailability idParam u => (updateAvailability rt idParam u f).1
  | GetCars | GetCar _ | PostPaymentIntent _ _ _ | GetBookings => f
  end.

Definition serveAll (rt : Js.Runtime) (gw : Gateway) (f : Inventory) (rs : list Request)
    : Inventory :=
  foldl (serve rt gw) f rs.

(** An availability update that is what [parseInt] reads of a body (its
    values are whole numbers, none is NaN) and whose quantity, if it has
    one, is not negative; or any other request. *)
Definition saneRequest (rt : Js.Runtime) (r : Request) : Prop :=
  match r with
  | PutAvailability _ u =>
      (exists body, readAvailability rt body = Some u)
      /\ forall q, u_quantity u = Some q -> 0 <= q
  | _ => True
  end.

(** What a request that awaits its payment holds: a document that satisfies
    the invariant, and in it the car it found, with a unit available. *)
Definition taskOk (t : Task) : Prop :=
  match t with
  | Awaiting p _ _ =>
      inventoryOk (heldInventory p)
      /\ cars (heldInventory p) !! heldIndex p = Some (heldCar p)
      /\ 0 < available (heldCar p)
  | _ => True
  end.

Definition serverOk (s : Server) : Prop :=
  inventoryOk (file s) /\ Forall taskOk (tasks s).

End PaymentServer.

(** ** The server of [src/script.js] *)

Module ValidatedServer.

(** *** The validation chains of [POST /api/bookings] (lines 1535-1545)

    The validators and sanitizers of express-validator are a library of
    their own; the chains below say which of them each field goes through,
    and in which order. *)
Record Validators := {
  trim : string -> string;
  escape : string -> string;
  normalizeEmail : string -> string;
  (** [isInt({ min: 1 })] *)
  isIntFrom1 : string -> bool;
  (** [isLength({ min, max })]; [None] for no bound *)
  isLength : option Z -> option Z -> string -> bool;
  isEmail : string -> bool;
  (** [matches(/^[\d\s\-\+\(\)]+$/)] *)
  matchesPhone : string -> bool;
  isISO8601 : string -> bool
}.

(** No chain reports an error: [validationResult(req).isEmpty()].  A
    validator sees its field as the sanitizers before it left it. *)
Definition validationPasses (v : Validators) (req : BookingRequest) : bool :=
  isIntFrom1 v (r_carId req)
  && isLength v (Some 1) (Some 50) (trim v (r_firstName req))
  && isLength v (Some 1) (Some 50) (trim v (r_lastName req))
  && isEmail v (r_email req)
  && (matchesPhone v (trim v (r_phone req))
      && isLength v (Some 10) (Some 20) (trim v (r_phone req)))
  && isISO8601 v (r_pickupDate req)
  && isISO8601 v (r_returnDate req)
  && isLength v (Some 1) (Some 100) (trim v (r_pickupLocation req))
  && match r_additionalInfo req with
     | Some info => isLength v None (Some 500) (trim v info)
     | None => true
     end.

(** The body as the chains leave it for the handler. *)
Definition sanitize (v : Validators) (req : BookingRequest) : BookingRequest :=
  {| r_carId := r_carId req;
     r_firstName := escape v (trim v (r_firstName req));
     r_lastName := escape v (trim v (r_lastName req));
     r_email := normalizeEmail v (r_email req);
     r_phone := trim v (r_phone req);
     r_pickupDate := r_pickupDate req;
     r_returnDate := r_returnDate req;
     r_pickupLocation := escape v (trim v (r_pickupLocation req));
     r_additionalInfo := (fun info => escape v (trim v info)) <$> r_additionalInfo req;
     r_paymentIntentId := r_paymentIntentId req |}.

(** *** The booking handler (lines 1545-1661) *)

(** Lines 1568-1580.  Zero days and fewer are refused. *)
Definition priceRental (pickup returnD : float) (pricePerDay : Z)
    : option PaymentServer.Pricing :=
  let days := PaymentServer.rentalDays pickup returnD in
  if PrimFloat.leb days 0 then None
  else
    let subtotal := PrimFloat.mul (Js.ofZ pricePerDay) days in
    let tax := PrimFloat.mul subtotal 0.08%float in
    let total := PrimFloat.add subtotal tax in
    Some {| PaymentServer.p_days := days; PaymentServer.p_subtotal := subtotal;
            PaymentServer.p_tax := tax; PaymentServer.p_total := total |}.

Definition createBooking (v : Validators) (rt : Js.Runtime) (clk : Clock)
    (file : Inventory) (raw : BookingRequest) : Inventory * Response Booking :=
  if negb (validationPasses v raw) then (file, Rejected ValidationFailed)
  else
    let req := sanitize v raw in
    match findCar (Js.parseInt rt (r_carId req)) file with
    | None => (file, Rejected CarNotFound)
    | Some (i, car) =>
        if available car <=? 0 then (file, Rejected CarUnavailable)
        else
          match priceRental (Js.newDate rt (r_pickupDate req))
                  (Js.newDate rt (r_returnDate req)) (price car) with
          | None => (file, Rejected InvalidDateRange)
          | Some quote =>
              let booking :=
                {| bookingId := "BK" ++ Js.showZ (dateNow clk);
                   carId := default (id car) (Js.parseInt rt (r_carId req));
                   carName := name car;
                   firstName := r_firstName req;
                   lastName := r_lastName req;
                   email := r_email req;
                   phone := r_phone req;
                   pickupDate := r_pickupDate req;
                   returnDate := r_returnDate req;
                   pickupLocation := r_pickupLocation req;
                   additionalInfo := default EmptyString (r_additionalInfo req);
                   pricePerDay := price car;
                   days := PaymentServer.p_days quote;
                   subtotal := PaymentServer.p_subtotal quote;
                   tax := PaymentServer.p_tax quote;
                   total := PaymentServer.p_total quote;
                   paymentIntentId := None;
                   paymentStatus := "pending";
                   bookingDate := isoNow clk |} in
              ({| cars :=
                    <[i := setAvailable (Js.Math_max 0 (Js.minusOne (available car))) car]>
                      (cars file);
                  bookings := (bookings file ++ [booking])%list |},
               Ok booking)
          end
    end.

(** *** [PUT /api/cars/:id/availability] (lines 1375-1411)

    The route is behind the admin session gate.  The body fields are given
    as they pass the [typeof ... !== 'number'] test: [None] for a value that
    is not a number, [Some z] for the whole number [z].  [putAvailability]
    below takes the numbers as the doubles they are, and is this function
    on those that hold whole numbers. *)
Definition updateAvailability (rt : Js.Runtime) (idParam : string)
    (newAvailable newQuantity : option Z) (file : Inventory)
    : Inventory * Response Car :=
  match newAvailable, newQuantity with
  | Some a, Some q =>
      if (a <? 0) || (q <? 0) then (file, Rejected ValidationFailed)
      else if q <? a then (file, Rejected ValidationFailed)
      else
        match findCar (Js.parseInt rt idParam) file with
        | None => (file, Rejected CarNotFound)
        | Some (i, car) =>
            let car' := setQuantity q (setAvailable a car) in
            ({| cars := <[i := car']> (cars file); bookings := bookings file |}, Ok car')
        end
  | _, _ => (file, Rejected ValidationFailed)
  end.

(** The route on the body as it is sent: [None] for a value whose [typeof]
    is not 'number', else the double.  The three tests are the handler's,
    on doubles.  [None] is the case this development does not follow: the
    tests pass, the car is found and one of the two numbers is no whole
    number (a fraction, or the Infinity that [1e999] denotes), which the
    handler stores in the car. *)
Definition putAvailability (rt : Js.Runtime) (idParam : string)
    (sentAvailable sentQuantity : option float) (file : Inventory)
    : option (Inventory * Response Car) :=
  match sentAvailable, sentQuantity with
  | Some a, Some q =>
      if PrimFloat.ltb a 0 || PrimFloat.ltb q 0
      then Some (file, Rejected ValidationFailed)
      else if PrimFloat.ltb q a then Some (file, Rejected ValidationFailed)
      else
        match findCar (Js.parseInt rt idParam) file with
        | None => Some (file, Rejected CarNotFound)
        | Some (i, car) =>
            match Js.toZ a, Js.toZ q with
            | Some za, Some zq =>
                let car' := setQuantity zq (setAvailable za car) in
                Some ({| cars := <[i := car']> (cars file); bookings := bookings file |},
                      Ok car')
            | _, _ => None
            end
        end
  | _, _ => Some (file, Rejected ValidationFailed)
  end.

(** *** [escapeHtml] (lines 1414-1424) *)

Definition escapeChar (c : ascii) : string :=
  if Ascii.eqb c "&" then "&amp;"
  else if Ascii.eqb c "<" then "&lt;"
  else if Ascii.eqb c ">" then "&gt;"
  else if Ascii.eqb c "034" then "&quot;"
  else if Ascii.eqb c "'" then "&#039;"
  else String c EmptyString.

Fixpoint escapeHtml (text : string) : string :=
  match text with
  | EmptyString => EmptyString
  | String c rest => escapeChar c ++ escapeHtml rest
  end.

(** *** [generateInvoiceHTML] (lines 1427-1532)

    The renderer prints the priced snapshot of the booking. *)
Definition invoicePieces (rt : Js.Runtime) (booking : Booking) : list string :=
  [ Js.text "
<!DOCTYPE html>
<html>
<head>
    <meta charset=`UTF-8`>
    <style>
        body { font-family: Arial, sans-serif; line-height: 1.6; color: #333; }
        .container { max-width: 600px; margin: 0 auto; padding: 20px; }
        .header { background: linear-gradient(135deg, #667eea 0%, #764ba2 100%); color: white; padding: 30px; text-align: center; border-radius: 10px 10px 0 0; }
        .content { background: #f8f9fa; padding: 30px; border-radius: 0 0 10px 10px; }
        .invoice-details { background: white; padding: 20px; border-radius: 8px; margin: 20px 0; }
        .detail-row { display: flex; justify-content: space-between; padding: 10px 0; border-bottom: 1px solid #e0e0e0; }
        .detail-row:last-child { border-bottom: none; }
        .label { font-weight: 600; color: #667eea; }
        .total { font-size: 1.3em; font-weight: 700; color: #667eea; margin-top: 20px; padding-top: 20px; border-top: 2px solid #667eea; }
        .footer { text-align: center; margin-top: 30px; color: #666; font-size: 0.9em; }
    </style>
</head>
<body>
    <div class=`container`>
        <div class=`header`>
            <h1>ES Dynamic Rentals</h1>
            <h2>Booking Invoice</h2>
        </div>
        <div class=`content`>
            <div class=`invoice-details`>
                <div class=`detail-row`>
                    <span class=`label`>Booking ID:</span>
                    <span>";
    bookingId booking;
    Js.text "</span>
                </div>
                <div class=`detail-row`>
                    <span class=`label`>Customer Name:</span>
                    <span>";
    firstName booking;
    Js.text " ";
    lastName booking;
    Js.text "</span>
                </div>
                <div class=`detail-row`>
                    <span class=`label`>Email:</span>
                    <span>";
    email booking;
    Js.text "</span>
                </div>
                <div class=`detail-row`>
                    <span class=`label`>Phone:</span>
                    <span>";
    phone booking;
    Js.text "</span>
                </div>
                <div class=`detail-row`>
                    <span class=`label`>Car:</span>
                    <span>";
    carName booking;
    Js.text "</span>
                </div>
                <div class=`detail-row`>
                    <span class=`label`>Pickup Date:</span>
                    <span>";
    Js.toLongDateString rt (Js.newDate rt (pickupDate booking));
    Js.text "</span>
                </div>
                <div class=`detail-row`>
                    <span class=`label`>Return Date:</span>
                    <span>";
    Js.toLongDateString rt (Js.newDate rt (returnDate booking));
    Js.text "</span>
                </div>
                <div class=`detail-row`>
                    <span class=`label`>Rental Period:</span>
                    <span>";
    Js.numberToString rt (days booking);
    Js.text " day(s)</span>
                </div>
                <div class=`detail-row`>
                    <span class=`label`>Pickup Location:</span>
                    <span>1460 South Canton Avenue, Tulsa, Oklahoma 74137</span>
                </div>
                ";
    (if Js.truthy (additionalInfo booking) then
       Js.text "
                <div class=`detail-row`>
                    <span class=`label`>Additional Info:</span>
                    <span>" ++ escapeHtml (additionalInfo booking) ++ Js.text "</span>
                </div>
                "
     else EmptyString);
    Js.text "
                <div class=`detail-row`>
                    <span class=`label`>Price per Day:</span>
                    <span>$";
    Js.toFixed2 rt (Js.ofZ (pricePerDay booking));
    Js.text "</span>
                </div>
                <div class=`detail-row`>
                    <span class=`label`>Subtotal (";
    Js.numberToString rt (days booking);
    Js.text " days):</span>
                    <span>$";
    Js.toFixed2 rt (subtotal booking);
    Js.text "</span>
                </div>
                <div class=`detail-row`>
                    <span class=`label`>Tax (8%):</span>
                    <span>$";
    Js.toFixed2 rt (tax booking);
    Js.text "</span>
                </div>
                <div class=`total detail-row`>
                    <span>Total Amount:</span>
                    <span>$";
    Js.toFixed2 rt (total booking);
    Js.text "</span>
                </div>
            </div>
            <div style=`background: #fff3cd; border: 2px solid #ffc107; border-radius: 8px; padding: 15px; margin: 20px 0;`>
                <p style=`margin: 0; color: #856404; font-weight: 600; font-size: 1rem;`>
                    ⚠️ Payment Required at Pickup
                </p>
                <p style=`margin: 8px 0 0 0; color: #856404; font-size: 0.95rem;`>
                    This is a reservation confirmation. Payment must be completed at our location when you pick up the vehicle. Please bring a valid ID and payment method.
                </p>
            </div>
            <div class=`footer`>
                <p>Thank you for choosing ES Dynamic Rentals!</p>
                <p>For any questions, contact us at:<br>
                Phone: 918-204-8691<br>
                Email: esdynamicrental@gmail.com</p>
            </div>
        </div>
    </div>
</body>
</html>
    " ].

Definition generateInvoiceHTML (rt : Js.Runtime) (booking : Booking) : string :=
  Js.template (invoicePieces rt booking).

(** *** Admin sessions (lines 999-1066)

    The session store is express-session's; of a client's session the
    handlers use [isAdmin] alone.  A site is the inventory file and the ids
    of the sessions that have [isAdmin] set. *)
Record Site := {
  inventory : Inventory;
  admins : list string
}.

Definition ADMIN_USERNAME : string := "Admin".

Inductive LoginAnswer :=
| LoginInvalid
| LoginOk
| LoginRefused.

(** [POST /api/admin/login].  [passwordOk] is
    [bcrypt.compareSync(password, ADMIN_PASSWORD_HASH)]. *)
Definition login (v : Validators) (passwordOk : string -> bool)
    (usernameField passwordField : string) : LoginAnswer :=
  if String.eqb (trim v usernameField) EmptyString || String.eqb passwordField EmptyString
  then LoginInvalid
  else if String.eqb (trim v usernameField) ADMIN_USERNAME && passwordOk passwordField
  then LoginOk
  else LoginRefused.

(** [authenticateAdmin]: [req.session && req.session.isAdmin]. *)
Definition authenticateAdmin (sid : string) (s : Site) : bool :=
  existsb (String.eqb sid) (admins s).

(** What a route behind [authenticateAdmin] answers: 401, or what its
    handler answers. *)
Inductive Guarded (A : Type) :=
| Unauthorized
| Allowed (r : A).
Arguments Unauthorized {A}.
Arguments Allowed {A} r.

(** *** [POST /api/cars/:id/images] (lines 964-977 and 1196-1213)

    [uploadedFiles] are the names the files are stored under.  Naming a
    file fails, and the upload with it (400), when the id of the route is
    no integer above 0. *)
Definition validCarId (rt : Js.Runtime) (idParam : string) : bool :=
  match Js.parseInt rt idParam with
  | Some k => 0 <? k
  | None => false
  end.

Definition attachImages (rt : Js.Runtime) (idParam : string)
    (uploadedFiles : list string) (file : Inventory) : Inventory * Response Car :=
  if negb (validCarId rt idParam) && negb (bool_decide (uploadedFiles = []))
  then (file, Rejected ValidationFailed)
  else
    match findCar (Js.parseInt rt idParam) file with
    | None => (file, Rejected CarNotFound)
    | Some (i, car) =>
        let car' := setImages (images car ++ uploadedFiles)%list car in
        ({| cars := <[i := car']> (cars file); bookings := bookings file |}, Ok car')
    end.

(** *** [POST /api/cars] and [PUT /api/cars/:id] (lines 1216-1346)

    The body of both routes.  [None] is a field that is undefined.  Of a
    numeric field, [Some None] is a value that [isInt] refuses (it is no
    integer numeral) and [Some (Some z)] an integer numeral, [z] being the
    whole number that [isInt] compares with its bound and that [parseInt]
    stores: the number the numeral denotes up to 2^53, and the double
    nearest to it beyond.  A numeral too long for a double, which both read
    as Infinity, is outside this development. *)
Record CarBody := {
  c_name : option string;
  c_model : option string;
  c_trim : option string;
  c_price : option (option Z);
  c_year : option string;
  c_seats : option string;
  c_transmission : option string;
  c_fuel : option string;
  c_mileage : option string;
  c_features : option string;
  c_color : option string;
  c_quantity : option (option Z);
  c_available : option (option Z)
}.

(** [optional().trim().isLength({ max })] *)
Definition optionalText (v : Validators) (max : Z) (t : option string) : bool :=
  match t with
  | Some s => isLength v None (Some max) (trim v s)
  | None => true
  end.

(** [isInt({ min })] on a field that must be there *)
Definition requiredInt (min : Z) (n : option (option Z)) : bool :=
  match n with
  | Some (Some z) => min <=? z
  | _ => false
  end.

(** [optional().isInt({ min })] *)
Definition optionalInt (min : Z) (n : option (option Z)) : bool :=
  match n with
  | Some (Some z) => min <=? z
  | Some None => false
  | None => true
  end.

Definition otherTextsPass (v : Validators) (b : CarBody) : bool :=
  optionalText v 100 (c_model b) && optionalText v 200 (c_trim b)
  && optionalText v 10 (c_year b) && optionalText v 10 (c_seats b)
  && optionalText v 50 (c_transmission b) && optionalText v 50 (c_fuel b)
  && optionalText v 100 (c_mileage b) && optionalText v 500 (c_features b)
  && optionalText v 100 (c_color b).

(** The chains of [POST /api/cars] (lines 1216-1230). *)
Definition addCarPasses (v : Validators) (b : CarBody) : bool :=
  isLength v (Some 1) (Some 100) (trim v (default EmptyString (c_name b)))
  && otherTextsPass v b
  && requiredInt 1 (c_price b) && requiredInt 1 (c_quantity b)
  && requiredInt 0 (c_available b).

(** The chains of [PUT /api/cars/:id] (lines 1282-1296). *)
Definition updateCarPasses (v : Validators) (b : CarBody) : bool :=
  match c_name b with
  | Some s => isLength v (Some 1) (Some 100) (trim v s)
  | None => true
  end
  && otherTextsPass v b
  && optionalInt 1 (c_price b) && optionalInt 1 (c_quantity b)
  && optionalInt 0 (c_available b).

(** A text field as its chain leaves it: [trim().escape()]. *)
Definition cleaned (v : Validators) (t : option string) : option string :=
  (fun s => escape v (trim v s)) <$> t.

(** [parseInt] of a numeric field, once validation has passed. *)
Definition intOf (n : option (option Z)) : option Z := mjoin n.

(** Lines 1239-1243: one more than the highest id, 1 for an empty list. *)
Definition nextId (l : list Car) : Z :=
  match l with
  | [] => 0
  | c :: rest => foldl Z.max (id c) (id <$> rest)
  end + 1.

Definition addCar (v : Validators) (b : CarBody) (file : Inventory)
    : Inventory * Response Car :=
  if negb (addCarPasses v b) then (file, Rejected ValidationFailed)
  else
    let newCar :=
      {| id := nextId (cars file);
         name := default EmptyString (cleaned v (c_name b));
         model := default EmptyString (cleaned v (c_model b));
         carTrim := Some (default EmptyString (cleaned v (c_trim b)));
         price := default 0 (intOf (c_price b));
         year := default EmptyString (cleaned v (c_year b));
         seats := default EmptyString (cleaned v (c_seats b));
         transmission := default EmptyString (cleaned v (c_transmission b));
         fuel := default EmptyString (cleaned v (c_fuel b));
         mileage := default EmptyString (cleaned v (c_mileage b));
         features := default EmptyString (cleaned v (c_features b));
         color := Some (default EmptyString (cleaned v (c_color b)));
         quantity := default 0 (intOf (c_quantity b));
         available := default 0 (intOf (c_available b));
         images := [] |} in
    ({| cars := (cars file ++ [newCar])%list; bookings := bookings file |}, Ok newCar).

(** Lines 1311-1329: the fields that are given are written over, then
    [available] is cut down to [quantity]. *)
Definition updateFields (v : Validators) (b : CarBody) (car : Car) : Car :=
  let quantity' := default (quantity car) (intOf (c_quantity b)) in
  let available' := default (available car) (intOf (c_available b)) in
  {| id := id car;
     name := default (name car) (cleaned v (c_name b));
     model := default (model car) (cleaned v (c_model b));
     carTrim := from_option Some (carTrim car) (cleaned v (c_trim b));
     price := default (price car) (intOf (c_price b));
     year := default (year car) (cleaned v (c_year b));
     seats := default (seats car) (cleaned v (c_seats b));
     transmission := default (transmission car) (cleaned v (c_transmission b));
     fuel := default (fuel car) (cleaned v (c_fuel b));
     mileage := default (mileage car) (cleaned v (c_mileage b));
     features := default (features car) (cleaned v (c_features b));
     color := from_option Some (color car) (cleaned v (c_color b));
     quantity := quantity';
     available := if quantity' <? available' then quantity' else available';
     images := images car |}.

Definition updateCar (v : Validators) (rt : Js.Runtime) (idParam : string)
    (b : CarBody) (file : Inventory) : Inventory * Response Car :=
  if negb (updateCarPasses v b) then (file, Rejected ValidationFailed)
  else
    match findCar (Js.parseInt rt idParam) file with
    | None => (file, Rejected CarNotFound)
    | Some (i, car) =>
        let car' := updateFields v b car in
        ({| cars := <[i := car']> (cars file); bookings := bookings file |}, Ok car')
    end.

(** *** [DELETE /api/cars/:id] (lines 1349-1372)

    [inventory.cars.splice(carIndex, 1)]; the bookings of the car stay. *)
Definition deleteCar (rt : Js.Runtime) (idParam : string) (file : Inventory)
    : Inventory * Response unit :=
  match findCar (Js.parseInt rt idParam) file with
  | None => (file, Rejected CarNotFound)
  | Some (i, _) =>
      ({| cars := delete i (cars file); bookings := bookings file |}, Ok tt)
  end.

(** *** The routes, one request after the other

    [sid] is the session of the client that sends the request. *)
Inductive Request :=
| Login (sid usernameField passwordField : string)
| Logout (sid : string)
| PostImages (sid idParam : string) (uploadedFiles : list string)
| PostCar (sid : string) (b : CarBody)
| PutCar (sid idParam : string) (b : CarBody)
| DeleteCar (sid idParam : string)
| PutAvailability (sid idParam : string) (newAvailable newQuantity : option Z)
| PostBooking (raw : BookingRequest) (clk : Clock)
| Read.

(** A route behind the gate: the file is the handler's only for an admin
    session. *)
Definition guarded (sid : string) (s : Site) (after : Inventory) : Site :=
  if authenticateAdmin sid s
  then {| inventory := after; admins := admins s |}
  else s.

Definition serve (v : Validators) (rt : Js.Runtime) (passwordOk : string -> bool)
    (s : Site) (r : Request) : Site :=
  match r with
  | Login sid usernameField passwordField =>
      match login v passwordOk usernameField passwordField with
      | LoginOk => {| inventory := inventory s; admins := sid :: admins s |}
      | _ => s
      end
  | Logout sid =>
      {| inventory := inventory s; admins := filter (fun a => String.eqb a sid = false) (admins s) |}
  | PostImages sid idParam uploadedFiles =>
      guarded sid s (attachImages rt idParam uploadedFiles (inventory s)).1
  | PostCar sid b => guarded sid s (addCar v b (inventory s)).1
  | PutCar sid idParam b => guarded sid s (updateCar v rt idParam b (inventory s)).1
  | DeleteCar sid idParam => guarded sid s (deleteCar rt idParam (inventory s)).1
  | PutAvailability sid idParam a q =>
      guarded sid s (updateAvailability rt idParam a q (inventory s)).1
  | PostBooking raw clk =>
      {| inventory := (createBooking v rt clk (inventory s) raw).1; admins := admins s |}
  | Read => s
  end.

Definition serveAll (v : Validators) (rt : Js.Runtime) (passwordOk : string -> bool)
    (s : Site) (rs : list Request) : Site :=
  foldl (serve v rt passwordOk) s rs.

(** A login that does not succeed, or any other request. *)
Definition noLogin (v : Validators) (passwordOk : string -> bool) (r : Request) : Prop :=
  match r with
  | Login _ usernameField passwordField =>
      login v passwordOk usernameField passwordField <> LoginOk
  | _ => True
  end.

(** A car after bookings of it: the same car, with no more units
    available than before. *)
Definition bookedCar (c c' : Car) : Prop :=
  c' = setAvailable (available c') c /\ available c' <= available c.

(** A request to add a car whose [available] does not exceed its
    [quantity]; an availability update whose numbers are doubles that hold
    whole numbers (no fraction, no infinity); or any other request. *)
Definition saneRequest (r : Request) : Prop :=
  match r with
  | PostCar _ b =>
      forall a q, intOf (c_available b) = Some a -> intOf (c_quantity b) = Some q -> a <= q
  | PutAvailability _ _ a q =>
      forall z, a = Some z \/ q = Some z -> exists x : float, Js.toZ x = Some z
  | _ => True
  end.

(** A booking with the given additional information, to render. *)
Definition invoiceSample (info : string) : Booking :=
  {| bookingId := "BK1716200000000"; carId := 2; carName := "Toyota RAV4";
     firstName := "Ada"; lastName := "Lovelace"; email := "ada@example.com";
     phone := "918-204-8691"; pickupDate := "2024-06-01";
     returnDate := "2024-06-04"; pickupLocation := "Tulsa";
     additionalInfo := info; pricePerDay := 70;
     days := 3; subtotal := 210; tax := 16.8; total := 226.8;
     paymentIntentId := None; paymentStatus := "pending";
     bookingDate := "2024-05-20T10:00:00.000Z" |}.

End ValidatedServer.

(** ** The slideshow of the page script ([src/script.js], lines 27-32 and 414-448,
    691-741)

    The page keeps the list of cars it loaded and the index of the slide
    shown; the functions below are what [goToSlide], [nextSlide] and
    [prevSlide] do to [currentSlide], and [nextGalleryImage] and
    [prevGalleryImage] to [currentGalleryImage], for a list of the given
    length.  [%] is JavaScript's remainder. *)

Module Client.

Definition goToSlide (length index currentSlide : Z) : Z :=
  if (index <? 0) || (length <=? index) then currentSlide else index.

Definition nextSlide (length currentSlide : Z) : Z :=
  if length =? 0 then currentSlide else Z.rem (currentSlide + 1) length.

Definition prevSlide (length currentSlide : Z) : Z :=
  if length =? 0 then currentSlide else Z.rem (currentSlide - 1 + length) length.

(** [changeGalleryImage(index)], for the images of the car shown. *)
Definition changeGalleryImage (length index currentGalleryImage : Z) : Z :=
  if (index <? 0) || (length <=? index) then currentGalleryImage else index.

Definition nextGalleryImage (length currentGalleryImage : Z) : Z :=
  changeGalleryImage length (Z.rem (currentGalleryImage + 1) length) currentGalleryImage.

Definition prevGalleryImage (length currentGalleryImage : Z) : Z :=
  changeGalleryImage length (Z.rem (currentGalleryImage - 1 + length) length)
    currentGalleryImage.

End Client.

(** ** A runtime for the worked examples

    A server in the en-US locale and the UTC time zone.  Each function gives
    what Node gives on the inputs its comment names, which are the ones the
    examples below use; it is not a model of Node elsewhere. *)

Module NodeSample.

Definition digit (c : ascii) : option Z :=
  let n := Z.of_nat (nat_of_ascii c) in
  if (48 <=? n) && (n <=? 57) then Some (n - 48) else None.

(** The value of the longest prefix of decimal digits, after [acc]. *)
Fixpoint digits (s : string) (acc : option Z) : option Z :=
  match s with
  | EmptyString => acc
  | String c rest =>
      match digit c with
      | Some d => digits rest (Some (10 * default 0 acc + d))
      | None => acc
      end
  end.

Fixpoint skipBlanks (s : string) : string :=
  match s with
  | String c rest => if Ascii.eqb c " " then skipBlanks rest else s
  | EmptyString => s
  end.

(** [parseInt] on decimal numerals: blanks, an optional sign, digits, then
    anything; NaN when there is no digit. *)
Definition parseInt (s : string) : option Z :=
  match skipBlanks s with
  | String "-" rest => Z.opp <$> digits rest None
  | String "+" rest => digits rest None
  | rest => digits rest None
  end.

(** Days from 1970-01-01 to a date of the proleptic Gregorian calendar. *)
Definition daysFromCivil (y m d : Z) : Z :=
  let y' := if m <=? 2 then y - 1 else y in
  let era := y' / 400 in
  let yoe := y' - era * 400 in
  let doy := (153 * (if 2 <? m then m - 3 else m + 9) + 2) / 5 + d - 1 in
  let doe := yoe * 365 + yoe / 4 - yoe / 100 + doy in
  era * 146097 + doe - 719468.

(** The inverse: year, month and day of a day number. *)
Definition civilFromDays (z : Z) : Z * Z * Z :=
  let z' := z + 719468 in
  let era := z' / 146097 in
  let doe := z' - era * 146097 in
  let yoe := (doe - doe / 1460 + doe / 36524 - doe / 146096) / 365 in
  let doy := doe - (365 * yoe + yoe / 4 - yoe / 100) in
  let mp := (5 * doy + 2) / 153 in
  let d := doy - (153 * mp + 2) / 5 + 1 in
  let m := if mp <? 10 then mp + 3 else mp - 9 in
  (if m <=? 2 then yoe + era * 400 + 1 else yoe + era * 400, m, d).

Definition msPerDay : Z := 86400000.

Definition pad (width : nat) (n : Z) : string :=
  let body := Js.showZ n in
  String.concat EmptyString (replicate (width - String.length body) "0") ++ body.

Definition isoDay (y m d : Z) : string :=
  pad 4 y ++ "-" ++ pad 2 m ++ "-" ++ pad 2 d.

(** [new Date(s)] on a date-only string [YYYY-MM-DD] of an existing day:
    midnight UTC of that day.  NaN on any other string. *)
Definition newDate (s : string) : float :=
  match digits (substring 0 4 s) None, digits (substring 5 2 s) None,
        digits (substring 8 2 s) None with
  | Some y, Some m, Some d =>
      if String.eqb s (isoDay y m d)
         && bool_decide (civilFromDays (daysFromCivil y m d) = (y, m, d))
      then Js.ofZ (daysFromCivil y m d * msPerDay)
      else nan
  | _, _, _ => nan
  end.

Definition monthName (m : Z) : string :=
  nth (Z.to_nat (m - 1))
    [ "January"; "February"; "March"; "April"; "May"; "June"; "July";
      "August"; "September"; "October"; "November"; "December" ] EmptyString.

(** The calendar day of a time value, in UTC. *)
Definition dayOf (t : float) : option (Z * Z * Z) :=
  (fun ms => civilFromDays (ms / msPerDay)) <$> Js.toZ t.

(** [d.toLocaleDateString()]: [6/1/2024]. *)
Definition toLocaleDateString (t : float) : string :=
  match dayOf t with
  | Some (y, m, d) => Js.showZ m ++ "/" ++ Js.showZ d ++ "/" ++ Js.showZ y
  | None => "Invalid Date"
  end.

(** The long form: [June 1, 2024]. *)
Definition toLongDateString (t : float) : string :=
  match dayOf t with
  | Some (y, m, d) => monthName m ++ " " ++ Js.showZ d ++ ", " ++ Js.showZ y
  | None => "Invalid Date"
  end.

(** [String(x)] on NaN, the infinities and the integers up to 2^53 in
    magnitude. *)
Definition numberToString (x : float) : string :=
  match Js.toZ x with
  | Some n => Js.showZ n
  | None =>
      if PrimFloat.is_nan x then "NaN"
      else if PrimFloat.ltb x 0 then "-Infinity" else "Infinity"
  end.

Definition runtime : Js.Runtime :=
  {| Js.parseInt := parseInt;
     Js.newDate := newDate;
     Js.toLocaleDateString := toLocaleDateString;
     Js.toLongDateString := toLongDateString;
     Js.numberToString := numberToString |}.

(** A gateway with the Stripe key set, where every payment has succeeded,
    and one without the key. *)
Definition stripePaid : Gateway :=
  {| configured := true; retrieve := fun _ => Retrieved "succeeded" |}.

Definition stripeAbsent : Gateway :=
  {| configured := false; retrieve := fun _ => Threw |}.

Definition clock (now : Z) : Clock :=
  {| dateNow := now; isoNow := "2024-05-20T10:00:00.000Z" |}.

(** Validators for the examples, on ASCII text: [trim] strips blanks,
    [escape] writes the characters of validator.js's [escape] as entities,
    [isLength] counts characters, [isIntFrom1] takes a decimal numeral from
    1 up, [matchesPhone] is the pattern of the chain and [isISO8601] takes
    the date-only form.  [isEmail] is a rough test (a name, an at sign, a
    dotted domain) and [normalizeEmail] leaves an address as it is. *)
Definition isBlank (c : ascii) : bool :=
  Ascii.eqb c " " || Ascii.eqb c "009" || Ascii.eqb c "010" || Ascii.eqb c "013".

Fixpoint trimLeft (s : string) : string :=
  match s with
  | String c rest => if isBlank c then trimLeft rest else s
  | EmptyString => s
  end.

Definition reverse (s : string) : string :=
  string_of_list_ascii (rev (list_ascii_of_string s)).

Definition trim (s : string) : string := reverse (trimLeft (reverse (trimLeft s))).

Definition escapeChar (c : ascii) : string :=
  if Ascii.eqb c "&" then "&amp;"
  else if Ascii.eqb c "034" then "&quot;"
  else if Ascii.eqb c "'" then "&#x27;"
  else if Ascii.eqb c "<" then "&lt;"
  else if Ascii.eqb c ">" then "&gt;"
  else if Ascii.eqb c "/" then "&#x2F;"
  else if Ascii.eqb c "092" then "&#x5C;"
  else if Ascii.eqb c "`" then "&#96;"
  else String c EmptyString.

Fixpoint escape (s : string) : string :=
  match s with
  | EmptyString => EmptyString
  | String c rest => escapeChar c ++ escape rest
  end.

Definition isLength (lo hi : option Z) (s : string) : bool :=
  let n := Z.of_nat (String.length s) in
  (default 0 lo <=? n) && from_option (fun h => n <=? h) true hi.

Definition isIntFrom1 (s : string) : bool :=
  match digits s None with
  | Some n => String.eqb s (Js.showZ n) && (1 <=? n)
  | None => false
  end.

Definition phoneChar (c : ascii) : bool :=
  bool_decide (is_Some (digit c)) || isBlank c || Ascii.eqb c "-" || Ascii.eqb c "+"
  || Ascii.eqb c "(" || Ascii.eqb c ")".

Definition matchesPhone (s : string) : bool :=
  negb (String.eqb s EmptyString) && forallb phoneChar (list_ascii_of_string s).

Definition isEmail (s : string) : bool :=
  match index 0 "@" s with
  | Some at_ =>
      (0 <? at_)%nat
      && Js.includes (substring (S at_) (String.length s) s) "."
      && negb (Js.includes (substring (S at_) (String.length s) s) "@")
      && negb (Js.includes s " ")
  | None => false
  end.

Definition isISO8601 (s : string) : bool := negb (PrimFloat.is_nan (newDate s)).

Definition validators : ValidatedServer.Validators :=
  {| ValidatedServer.trim := trim;
     ValidatedServer.escape := escape;
     ValidatedServer.normalizeEmail := fun s => s;
     ValidatedServer.isIntFrom1 := isIntFrom1;
     ValidatedServer.isLength := isLength;
     ValidatedServer.isEmail := isEmail;
     ValidatedServer.matchesPhone := matchesPhone;
     ValidatedServer.isISO8601 := isISO8601 |}.

(** [bcrypt.compareSync(password, ADMIN_PASSWORD_HASH)], on passwords
    shorter than the 72 bytes bcrypt reads: the hash is the one of the
    password written at line 1001. *)
Definition passwordOk (password : string) : bool := String.eqb password "Adekunle0987".

End NodeSample.

(** ** Inputs of the worked examples *)

Module Examples.

(** A three-day rental of the Toyota RAV4 (car 2, 70 a day). *)
Definition rav4Request : BookingRequest :=
  {| r_carId := "2"; r_firstName := "Ada"; r_lastName := "Lovelace";
     r_email := "ada@example.com"; r_phone := "918-204-8691";
     r_pickupDate := "2024-06-01"; r_returnDate := "2024-06-04";
     r_pickupLocation := "Tulsa"; r_additionalInfo := None;
     r_paymentIntentId := None |}.

(** The same request with other dates. *)
Definition withDates (pickup returnD : string) (req : BookingRequest) : BookingRequest :=
  {| r_carId := r_carId req; r_firstName := r_firstName req;
     r_lastName := r_lastName req; r_email := r_email req; r_phone := r_phone req;
     r_pickupDate := pickup; r_returnDate := returnD;
     r_pickupLocation := r_pickupLocation req;
     r_additionalInfo := r_additionalInfo req;
     r_paymentIntentId := r_paymentIntentId req |}.

(** A request for the Toyota Camry (car 1, one unit) that names a payment. *)
Definition camryRequest (who ref : string) : BookingRequest :=
  {| r_carId := "1"; r_firstName := who; r_lastName := "Doe";
     r_email := "doe@example.com"; r_phone := "918-204-8691";
     r_pickupDate := "2024-06-01"; r_returnDate := "2024-06-04";
     r_pickupLocation := "Tulsa"; r_additionalInfo := None;
     r_paymentIntentId := Some ref |}.

(** A request whose customer fields are all malformed. *)
Definition blankRequest : BookingRequest :=
  {| r_carId := "2"; r_firstName := EmptyString; r_lastName := EmptyString;
     r_email := "not-an-email"; r_phone := "call me";
     r_pickupDate := "2024-06-01"; r_returnDate := "2024-06-04";
     r_pickupLocation := EmptyString; r_additionalInfo := None;
     r_paymentIntentId := None |}.

(** The booking the server of [src/unnamed/part_000] makes of it. *)
Definition blankBooking : Booking :=
  {| bookingId := "BK1716200000000"; carId := 2; carName := "Toyota RAV4";
     firstName := EmptyString; lastName := EmptyString;
     email := "not-an-email"; phone := "call me";
     pickupDate := "2024-06-01"; returnDate := "2024-06-04";
     pickupLocation := EmptyString;
     additionalInfo := EmptyString; pricePerDay := 70;
     days := 3; subtotal := 210; tax := 16.8; total := 226.8;
     paymentIntentId := None; paymentStatus := "pending";
     bookingDate := "2024-05-20T10:00:00.000Z" |}.

(** A request whose free text is markup. *)
Definition markupRequest : BookingRequest :=
  {| r_carId := "2"; r_firstName := "<script>alert(1)</script>";
     r_lastName := "<b>Lovelace</b>";
     r_email := "ada@example.com"; r_phone := "918-204-8691";
     r_pickupDate := "2024-06-01"; r_returnDate := "2024-06-04";
     r_pickupLocation := "Tulsa";
     r_additionalInfo := Some "<img src=x onerror=alert(2)>";
     r_paymentIntentId := None |}.

(** The booking the server of [src/unnamed/part_000] makes of it. *)
Definition markupBooking : Booking :=
  {| bookingId := "BK1716200000000"; carId := 2; carName := "Toyota RAV4";
     firstName := "<script>alert(1)</script>"; lastName := "<b>Lovelace</b>";
     email := "ada@example.com"; phone := "918-204-8691";
     pickupDate := "2024-06-01"; returnDate := "2024-06-04";
     pickupLocation := "Tulsa";
     additionalInfo := "<img src=x onerror=alert(2)>"; pricePerDay := 70;
     days := 3; subtotal := 210; tax := 16.8; total := 226.8;
     paymentIntentId := None; paymentStatus := "pending";
     bookingDate := "2024-05-20T10:00:00.000Z" |}.

(** The inventory with no unit of the Toyota RAV4 left. *)
Definition soldOut : Inventory :=
  {| cars := [camry; setAvailable 0 rav4]; bookings := [] |}.

(** The booking of [rav4Request] as the server creates it, and the same
    record with a priced snapshot that its dates and rate do not give
    (five days instead of three). *)
Definition rav4Booking : Booking :=
  {| bookingId := "BK1716200000000"; carId := 2; carName := "Toyota RAV4";
     firstName := "Ada"; lastName := "Lovelace"; email := "ada@example.com";
     phone := "918-204-8691"; pickupDate := "2024-06-01";
     returnDate := "2024-06-04"; pickupLocation := "Tulsa";
     additionalInfo := EmptyString; pricePerDay := 70;
     days := 3; subtotal := 210; tax := 16.8; total := 226.8;
     paymentIntentId := None; paymentStatus := "pending";
     bookingDate := "2024-05-20T10:00:00.000Z" |}.

Definition fiveDaySnapshot : Booking := setSnapshot 5 350 28 378 rav4Booking.

(** Two requests for the only Toyota Camry, each naming a payment. *)
Definition lastUnitRace : PaymentServer.Server :=
  {| PaymentServer.file := initialInventory;
     PaymentServer.tasks :=
       [ PaymentServer.Arrived (camryRequest "Ann" "pi_1") (NodeSample.clock 1716200000001);
         PaymentServer.Arrived (camryRequest "Bob" "pi_2") (NodeSample.clock 1716200000002) ] |}.

(** A gateway without the Stripe key, whose collaborator knows the payment
    as not made. *)
Definition stripeIgnored : Gateway :=
  {| configured := false; retrieve := fun _ => Retrieved "requires_payment_method" |}.

(** A gateway with the key, whose collaborator knows the payment as not
    made. *)
Definition stripeUnpaid : Gateway :=
  {| configured := true; retrieve := fun _ => Retrieved "requires_payment_method" |}.

(** The booking made of Ann's request for the Toyota Camry when no payment
    is verified. *)
Definition annBooking : Booking :=
  {| bookingId := "BK1716200000001"; carId := 1; carName := "Toyota Camry";
     firstName := "Ann"; lastName := "Doe"; email := "doe@example.com";
     phone := "918-204-8691"; pickupDate := "2024-06-01";
     returnDate := "2024-06-04"; pickupLocation := "Tulsa";
     additionalInfo := EmptyString; pricePerDay := 60;
     days := 3; subtotal := 180; tax := 14.4; total := 194.4;
     paymentIntentId := Some "pi_1"; paymentStatus := "pending";
     bookingDate := "2024-05-20T10:00:00.000Z" |}.

(** The seed document after two availability updates of car 2, the first
    with the body [{quantity: 1e20}] and the second with [{available: 1e20}]. *)
Definition overstocked : Inventory :=
  PaymentServer.serveAll NodeSample.runtime NodeSample.stripeAbsent initialInventory
    [ PaymentServer.PutAvailability "2"
        {| PaymentServer.u_available := None;
           PaymentServer.u_quantity := Some 100000000000000000000 |};
      PaymentServer.PutAvailability "2"
        {| PaymentServer.u_available := Some 100000000000000000000;
           PaymentServer.u_quantity := None |} ].

(** A day of requests to the server of [src/unnamed/part_000]. *)
Definition dayOfRequests : list PaymentServer.Request :=
  [ PaymentServer.GetCars;
    PaymentServer.PostPaymentIntent "2" "2024-06-01" "2024-06-04";
    PaymentServer.PostBooking rav4Request (NodeSample.clock 1716200000000);
    PaymentServer.PostImages "1" ["1-images-1716200000000-1.png"];
    PaymentServer.PutAvailability "1"
      {| PaymentServer.u_available := Some 5; PaymentServer.u_quantity := Some 2 |};
    PaymentServer.GetCar "1" ].

(** The two arrivals of [lastUnitRace]. *)
Definition lastUnitArrivals : list (BookingRequest * Clock) :=
  [ (camryRequest "Ann" "pi_1", NodeSample.clock 1716200000001);
    (camryRequest "Bob" "pi_2", NodeSample.clock 1716200000002) ].

(** A site of [src/script.js] that has the seed document for its inventory
    file (its own seed, lines 1071-1090, has the same two cars with their
    ids, names, prices and counts, and no other field), nobody logged in. *)
Definition seedSite : ValidatedServer.Site :=
  {| ValidatedServer.inventory := initialInventory; ValidatedServer.admins := [] |}.

(** The body of a car to add: a name, a price and the two counts. *)
Definition carBody (name : string) (price quantity available : Z) : ValidatedServer.CarBody :=
  {| ValidatedServer.c_name := Some name;
     ValidatedServer.c_model := None;
     ValidatedServer.c_trim := None;
     ValidatedServer.c_price := Some (Some price);
     ValidatedServer.c_year := None;
     ValidatedServer.c_seats := None;
     ValidatedServer.c_transmission := None;
     ValidatedServer.c_fuel := None;
     ValidatedServer.c_mileage := None;
     ValidatedServer.c_features := None;
     ValidatedServer.c_color := None;
     ValidatedServer.c_quantity := Some (Some quantity);
     ValidatedServer.c_available := Some (Some available) |}.

(** An admin at work: a login, a car added, one edited, one deleted, the
    counts of another set, and a customer's booking. *)
Definition adminRequests : list ValidatedServer.Request :=
  [ ValidatedServer.Login "s1" "Admin" "Adekunle0987";
    ValidatedServer.PostCar "s1" (carBody "Honda Civic" 55 2 2);
    ValidatedServer.PutCar "s1" "3" (carBody "Honda Civic" 50 1 2);
    ValidatedServer.DeleteCar "s1" "1";
    ValidatedServer.PutAvailability "s1" "2" (Some 2) (Some 4);
    ValidatedServer.PostBooking rav4Request (NodeSample.clock 1716200000000);
    ValidatedServer.Logout "s1" ].

(** The same requests from a client whose login fails. *)
Definition intruderRequests : list ValidatedServer.Request :=
  [ ValidatedServer.Login "s2" "Admin" "guess";
    ValidatedServer.PostCar "s2" (carBody "Honda Civic" 55 2 2);
    ValidatedServer.PutCar "s2" "2" (carBody "Honda Civic" 50 1 2);
    ValidatedServer.DeleteCar "s2" "1";
    ValidatedServer.PutAvailability "s2" "2" (Some 2) (Some 4);
    ValidatedServer.PostImages "s2" "1" ["1-images-1716200000000-1.png"];
    ValidatedServer.PostBooking rav4Request (NodeSample.clock 1716200000000);
    ValidatedServer.Logout "s2" ].

End Examples.

(** * Properties *)

(** ** Finding and replacing a car *)

Section FindCar.

Context (key : option Z) (inv : Inventory).

Lemma findCar_lookup i car :
  findCar key inv = Some (i, car) -> cars inv !! i = Some car /\ Some (id car) = key.
Proof. unfold findCar. rewrite list_find_Some. tauto. Qed.

(** A car replaced by one of the same id is found at the same place. *)
Lemma findCar_replaced i car car' other :
  findCar key inv = Some (i, car) -> id car' = id car ->
  findCar key {| cars := <[i := car']> (cars inv); bookings := other |} = Some (i, car').
Proof.
  unfold findCar. cbn [cars]. rewrite !list_find_Some.
  intros (at_i & is_key & first) same. split_and!.
  - apply list_lookup_insert_eq. eauto using lookup_lt_Some.
  - by rewrite same.
  - intros j y at_j before. rewrite list_lookup_insert_ne in at_j by lia. eauto.
Qed.

End FindCar.

Lemma carOk_replaced (inv : Inventory) i car' other :
  inventoryOk inv -> carOk car' ->
  inventoryOk {| cars := <[i := car']> (cars inv); bookings := other |}.
Proof. unfold inventoryOk. cbn [cars]. apply Forall_insert. Qed.

Lemma carOk_found (inv : Inventory) key i car :
  inventoryOk inv -> findCar key inv = Some (i, car) -> carOk car.
Proof.
  intros ok found. apply findCar_lookup in found as [at_i _].
  unfold inventoryOk in ok. rewrite Forall_lookup in ok. eauto.
Qed.

(** ** Whole numbers as doubles *)

Section WholeNumbers.

Lemma digits2_pos_bounds (m : positive) :
  2 ^ (Z.pos (digits2_pos m) - 1) <= Z.pos m < 2 ^ Z.pos (digits2_pos m).
Proof.
  induction m as [m IH|m IH|]; cbn [digits2_pos]; [| |by compute].
  - rewrite Pos2Z.inj_succ. change (Z.pos m~1) with (2 * Z.pos m + 1).
    replace (Z.succ (Z.pos (digits2_pos m)) - 1) with (Z.succ (Z.pos (digits2_pos m) - 1)) by lia.
    rewrite !Z.pow_succ_r by lia.
    generalize dependent (2 ^ (Z.pos (digits2_pos m) - 1)).
    generalize (2 ^ Z.pos (digits2_pos m)). intros. lia.
  - rewrite Pos2Z.inj_succ. change (Z.pos m~0) with (2 * Z.pos m).
    replace (Z.succ (Z.pos (digits2_pos m)) - 1) with (Z.succ (Z.pos (digits2_pos m) - 1)) by lia.
    rewrite !Z.pow_succ_r by lia.
    generalize dependent (2 ^ (Z.pos (digits2_pos m) - 1)).
    generalize (2 ^ Z.pos (digits2_pos m)). intros. lia.
Qed.

Lemma toZ_finite x s m e z :
  Prim2SF x = S754_finite s m e -> Js.toZ x = Some z ->
  exists mag, 0 < mag /\ Js.magnitude m e mag /\ z = if s then - mag else mag.
Proof.
  unfold Js.toZ, Js.magnitude. intros ->.
  destruct (Z.leb_spec 0 e).
  - cbn. intros [= <-]. exists (Z.shiftl (Z.pos m) e).
    rewrite Z.shiftl_mul_pow2 by done. split_and!; [|done..].
    pose proof (Z.pow_pos_nonneg 2 e). lia.
  - destruct (Z.eqb_spec (Z.pos m) (Z.shiftl (Z.shiftr (Z.pos m) (- e)) (- e))) as [exact|];
      [|done].
    cbn. intros [= <-]. exists (Z.shiftr (Z.pos m) (- e)).
    rewrite Z.shiftl_mul_pow2 in exact by lia.
    pose proof (Z.pow_pos_nonneg 2 (- e)).
    split_and!; [nia|lia|done].
Qed.

(** A double that holds a whole number other than zero is a normal one. *)
Lemma whole_is_normal s m e mag :
  valid_binary (S754_finite s m e) = true ->
  0 < mag -> Js.magnitude m e mag ->
  2 ^ 52 <= Z.pos m < 2 ^ 53.
Proof.
  unfold valid_binary, SpecFloat.valid_binary, bounded, canonical_mantissa, fexp, emin,
    Js.magnitude.
  intros [canonical _]%andb_true_iff positive value.
  apply Z.eqb_eq in canonical.
  pose proof (digits2_pos_bounds m) as [low high].
  change prec with 53 in *. change emax with 1024 in *.
  destruct (Z.max_spec (Z.pos (digits2_pos m) + e - 53) (3 - 1024 - 53))
    as [[small is_e]|[large is_e]]; rewrite is_e in canonical.
  - subst e.
    assert (mag * 2 ^ 1074 = Z.pos m) as below_one by exact value.
    assert (Z.pos m < 2 ^ 53) as below.
    { eapply Z.lt_le_trans; [exact high|]. apply Z.pow_le_mono_r; lia. }
    assert (2 ^ 53 <= 2 ^ 1074) as wide by (apply Z.pow_le_mono_r; lia).
    revert below_one below wide. generalize (2 ^ 1074), (2 ^ 53). intros. nia.
  - assert (Z.pos (digits2_pos m) = 53) as is_53 by lia.
    rewrite is_53 in low, high. done.
Qed.

Lemma scaled_compare m1 m2 E1 E2 :
  2 ^ 52 <= m1 < 2 ^ 53 -> 2 ^ 52 <= m2 < 2 ^ 53 -> 0 <= E1 -> 0 <= E2 ->
  (m1 * 2 ^ E1 ?= m2 * 2 ^ E2)
  = match E1 ?= E2 with Lt => Lt | Gt => Gt | Eq => m1 ?= m2 end.
Proof.
  intros range1 range2 pos1 pos2.
  assert (forall m m' E E', 2 ^ 52 <= m' -> m < 2 ^ 53 -> 0 <= E < E' ->
            m * 2 ^ E < m' * 2 ^ E') as steps.
  { intros m m' E E' low high order.
    replace E' with (E + 1 + (E' - E - 1)) by lia.
    rewrite !Z.pow_add_r by lia.
    assert (0 < 2 ^ E) as pos_E by (apply Z.pow_pos_nonneg; lia).
    assert (0 < 2 ^ (E' - E - 1)) as pos_rest by (apply Z.pow_pos_nonneg; lia).
    change (2 ^ 1) with 2. change (2 ^ 53) with (2 ^ 52 * 2) in high.
    assert (0 < 2 ^ 52) as pos_C by done.
    revert low high pos_E pos_rest pos_C.
    generalize (2 ^ 52), (2 ^ E), (2 ^ (E' - E - 1)). intros C P R ? ? ? ? ?.
    assert (0 < m' * 2 * P) by nia.
    assert (m * P < C * 2 * P) by nia.
    assert (C * 2 * P <= m' * 2 * P) by nia.
    assert (m' * 2 * P * 1 <= m' * 2 * P * R) by nia.
    nia. }
  destruct (Z.compare_spec E1 E2) as [->|less|more].
  - symmetry. apply Zmult_compare_compat_r. pose proof (Z.pow_pos_nonneg 2 E2). lia.
  - apply Z.compare_lt_iff. apply steps; lia.
  - apply Z.compare_gt_iff. apply steps; lia.
Qed.

Lemma magnitude_scaled m e mag a :
  Js.magnitude m e mag -> 0 <= a -> 0 <= a + e -> mag * 2 ^ a = Z.pos m * 2 ^ (a + e).
Proof.
  unfold Js.magnitude. intros value pos_a pos_sum.
  destruct (Z.leb_spec 0 e).
  - subst mag. rewrite Z.pow_add_r by lia. lia.
  - rewrite <- value. replace a with (- e + (a + e)) at 1 by lia.
    rewrite Z.pow_add_r by lia. lia.
Qed.

(** The order of two doubles that hold whole numbers, neither negative, is
    the order of these numbers. *)
Lemma ltb_of_whole x y zx zy :
  Js.toZ x = Some zx -> Js.toZ y = Some zy -> 0 <= zx -> 0 <= zy ->
  PrimFloat.ltb x y = (zx <? zy).
Proof.
  intros whole_x whole_y pos_x pos_y.
  rewrite ltb_spec. unfold SFltb.
  pose proof (Prim2SF_valid x) as valid_x. pose proof (Prim2SF_valid y) as valid_y.
  destruct (Prim2SF x) as [sx| | |sx mx ex] eqn:is_x;
    try (unfold Js.toZ in whole_x; by rewrite is_x in whole_x);
    destruct (Prim2SF y) as [sy| | |sy my ey] eqn:is_y;
    try (unfold Js.toZ in whole_y; by rewrite is_y in whole_y).
  - unfold Js.toZ in *. rewrite is_x in whole_x. rewrite is_y in whole_y.
    injection whole_x as <-. injection whole_y as <-. done.
  - unfold Js.toZ in whole_x. rewrite is_x in whole_x. injection whole_x as <-.
    destruct (toZ_finite y sy my ey zy is_y whole_y) as (mag & positive & _ & ->).
    cbn. destruct sy; [lia|]. symmetry. by apply Z.ltb_lt.
  - unfold Js.toZ in whole_y. rewrite is_y in whole_y. injection whole_y as <-.
    destruct (toZ_finite x sx mx ex zx is_x whole_x) as (mag & positive & _ & ->).
    cbn. destruct sx; [lia|]. symmetry. apply Z.ltb_ge. lia.
  - destruct (toZ_finite x sx mx ex zx is_x whole_x) as (magx & positive_x & value_x & ->).
    destruct (toZ_finite y sy my ey zy is_y whole_y) as (magy & positive_y & value_y & ->).
    destruct sx; [lia|]. destruct sy; [lia|].
    pose proof (whole_is_normal _ _ _ _ valid_x positive_x value_x) as normal_x.
    pose proof (whole_is_normal _ _ _ _ valid_y positive_y value_y) as normal_y.
    set (a := Z.max 0 (Z.max (- ex) (- ey))).
    assert (0 <= a /\ 0 <= a + ex /\ 0 <= a + ey) as (pos_a & pos_ex & pos_ey) by lia.
    pose proof (magnitude_scaled _ _ _ a value_x pos_a pos_ex) as scaled_x.
    pose proof (magnitude_scaled _ _ _ a value_y pos_a pos_ey) as scaled_y.
    pose proof (scaled_compare (Z.pos mx) (Z.pos my) (a + ex) (a + ey)
                  normal_x normal_y pos_ex pos_ey) as order.
    rewrite <- scaled_x, <- scaled_y in order.
    rewrite <- Zmult_compare_compat_r in order
      by (pose proof (Z.pow_pos_nonneg 2 a); lia).
    rewrite Z.add_compare_mono_l in order.
    cbn [SFcompare]. unfold Z.ltb. rewrite order.
    by destruct (ex ?= ey).
Qed.

(** A double that holds a whole number is below zero when the number is. *)
Lemma ltb_zero_of_whole x zx :
  Js.toZ x = Some zx -> PrimFloat.ltb x 0 = (zx <? 0).
Proof.
  intros whole_x. rewrite ltb_spec. unfold SFltb.
  change (Prim2SF 0) with (S754_zero false).
  destruct (Prim2SF x) as [sx| | |sx mx ex] eqn:is_x;
    try (unfold Js.toZ in whole_x; by rewrite is_x in whole_x).
  - unfold Js.toZ in whole_x. rewrite is_x in whole_x. by injection whole_x as <-.
  - destruct (toZ_finite x sx mx ex zx is_x whole_x) as (mag & positive & _ & ->).
    cbn. destruct sx; symmetry; [apply Z.ltb_lt|apply Z.ltb_ge]; lia.
Qed.

End WholeNumbers.

(** ** One unit less *)

Lemma minusOne_exact x : - 2 ^ 53 < x <= 2 ^ 53 -> Js.minusOne x = x - 1.
Proof.
  unfold Js.minusOne. change (2 ^ 53) with 9007199254740992. intros range.
  by rewrite (proj2 (Z.ltb_lt _ _)), (proj2 (Z.leb_le _ _)) by lia.
Qed.

(** Taking a unit from a count above zero never goes below zero, nor above
    the count. *)
Lemma minusOne_bounds x : 0 < x -> 0 <= Js.minusOne x <= x.
Proof.
  intros positive. unfold Js.minusOne. change (2 ^ 53) with 9007199254740992.
  rewrite (proj2 (Z.ltb_lt _ x)) by lia. cbn [andb].
  destruct (Z.leb_spec x 9007199254740992); [lia|].
  destruct (2 ^ 54 <=? Z.abs x); [lia|].
  destruct (Z.even (x / 2)); lia.
Qed.

(** [Js.minusOne] is the subtraction of doubles: on whole numbers around
    zero, around 2^53 and 2^54 on both sides, and far beyond. *)
Lemma minusOne_of_doubles :
  Forall (fun x => Js.toZ (Js.ofZ x) = Some x
                   /\ Js.toZ (PrimFloat.sub (Js.ofZ x) 1) = Some (Js.minusOne x))
    [ 0; 1; 2; 3; 70; -1; -5;
      2 ^ 53 - 1; 2 ^ 53; 2 ^ 53 + 2; 2 ^ 53 + 4; 2 ^ 53 + 6; 2 ^ 54 - 2; 2 ^ 54;
      2 ^ 54 + 4; 2 ^ 54 + 8; 2 ^ 55; 100000000000000000000; 2 ^ 1023;
      - 2 ^ 53 + 1; - 2 ^ 53; - 2 ^ 53 - 2; - 2 ^ 53 - 4; - 2 ^ 54 + 2; - 2 ^ 54;
      - 2 ^ 54 - 4; - 2 ^ 60 ].
Proof. repeat constructor; vm_compute; reflexivity. Qed.

(** ** The booking handler of [src/unnamed/part_000] *)

Section Booking.

Import PaymentServer.

Context (rt : Js.Runtime) (gw : Gateway) (clk : Clock).

(** The checks of the handler, read off its result. *)
Lemma bookingPrepare_Ok file req p :
  bookingPrepare rt (dateNow clk) file req = Ok p ->
  findCar (Js.parseInt rt (r_carId req)) file = Some (heldIndex p, heldCar p)
  /\ 0 < available (heldCar p)
  /\ PrimFloat.leb (Js.newDate rt (r_returnDate req)) (Js.newDate rt (r_pickupDate req)) = false
  /\ heldInventory p = file
  /\ heldRequest p = req.
Proof.
  unfold bookingPrepare. intros prepared.
  destruct (findCar _ file) as [[i car]|]; [|done].
  destruct (Z.leb_spec (available car) 0); [done|].
  destruct (PrimFloat.leb _ _); [done|].
  injection prepared as <-. cbn. split_and!; [done|lia|done..].
Qed.

(** Every booking that is answered positively went through [bookingCommit]. *)
Lemma createBooking_Ok file req b :
  answer (createBooking rt gw clk file req) = Ok b ->
  exists p status,
    bookingPrepare rt (dateNow clk) file req = Ok p
    /\ (saved (createBooking rt gw clk file req), b) = bookingCommit p status (isoNow clk).
Proof.
  unfold createBooking.
  destruct (bookingPrepare rt (dateNow clk) file req) as [p|e] eqn:prepared; [|done].
  destruct (referenceToVerify gw req) as [ref|].
  - unfold bookingSettle. destruct (retrieve gw ref) as [status|]; [|done].
    destruct (String.eqb status "succeeded"); [|done].
    cbn. intros [= <-]. by exists p, status.
  - cbn. intros [= <-]. by exists p, "pending".
Qed.

(** C4.  A request whose return date is not after its pickup date, for a car
    that exists and has a unit available, is rejected with
    [InvalidDateRange]; the inventory file is left as it was, no booking is
    added and the payment collaborator is not asked. *)
Theorem createBooking_rejects_return_before_pickup file req i car :
  findCar (Js.parseInt rt (r_carId req)) file = Some (i, car) ->
  0 < available car ->
  PrimFloat.leb (Js.newDate rt (r_returnDate req)) (Js.newDate rt (r_pickupDate req)) = true ->
  createBooking rt gw clk file req
  = {| saved := file; answer := Rejected InvalidDateRange; queried := [] |}.
Proof.
  intros found free inverted. unfold createBooking, bookingPrepare.
  rewrite found.
  destruct (Z.leb_spec (available car) 0); [lia|].
  by rewrite inverted.
Qed.

(** No unit available: the request is rejected before anything is priced
    or written. *)
Lemma createBooking_unavailable file req i car :
  findCar (Js.parseInt rt (r_carId req)) file = Some (i, car) ->
  available car <= 0 ->
  createBooking rt gw clk file req
  = {| saved := file; answer := Rejected CarUnavailable; queried := [] |}.
Proof.
  intros found none. unfold createBooking, bookingPrepare. rewrite found.
  destruct (Z.leb_spec (available car) 0); [done|lia].
Qed.

(** C5.  A request for a car with no unit available is rejected with
    [CarUnavailable] and the inventory file is left as it was; and whenever
    a booking is created, the car found in the document just loaded had
    [available > 0]. *)
Theorem createBooking_needs_an_available_unit file req :
  (forall i car,
      findCar (Js.parseInt rt (r_carId req)) file = Some (i, car) ->
      available car = 0 ->
      createBooking rt gw clk file req
      = {| saved := file; answer := Rejected CarUnavailable; queried := [] |})
  /\ (forall b,
      answer (createBooking rt gw clk file req) = Ok b ->
      exists i car,
        findCar (Js.parseInt rt (r_carId req)) file = Some (i, car)
        /\ 0 < available car).
Proof.
  split.
  - intros i car found none. apply (createBooking_unavailable file req i car found). lia.
  - intros b created.
    apply createBooking_Ok in created as (p & status & prepared & _).
    apply bookingPrepare_Ok in prepared as (found & free & _).
    eauto.
Qed.

(** X24.  A booking request during which no other request is served (in
    particular every request that has no payment to verify) and that is
    answered with a booking changes the inventory in two places only.  The
    car that was found, with at most 2^53 units available, has [available]
    lower by exactly one and every other field as before; every other car
    is as it was, at its position; and the bookings are the former ones
    followed by the new booking. *)
Theorem createBooking_alone_frame file req b i car :
  answer (createBooking rt gw clk file req) = Ok b ->
  findCar (Js.parseInt rt (r_carId req)) file = Some (i, car) ->
  available car <= 2 ^ 53 ->
  (exists car',
      cars (saved (createBooking rt gw clk file req)) !! i = Some car'
      /\ available car' = available car - 1
      /\ quantity car' = quantity car /\ price car' = price car
      /\ images car' = images car /\ id car' = id car /\ name car' = name car
      /\ model car' = model car /\ carTrim car' = carTrim car /\ year car' = year car
      /\ seats car' = seats car /\ transmission car' = transmission car
      /\ fuel car' = fuel car /\ mileage car' = mileage car
      /\ features car' = features car /\ color car' = color car)
  /\ (forall j, j <> i ->
        cars (saved (createBooking rt gw clk file req)) !! j = cars file !! j)
  /\ length (cars (saved (createBooking rt gw clk file req))) = length (cars file)
  /\ bookings (saved (createBooking rt gw clk file req)) = (bookings file ++ [b])%list.
Proof.
  intros created found safe.
  apply createBooking_Ok in created as (p & status & prepared & committed).
  apply bookingPrepare_Ok in prepared as (found' & free & _ & held & _).
  rewrite found in found'. injection found' as Hi Hcar.
  unfold bookingCommit in committed. rewrite held, <- Hi, <- Hcar in committed.
  injection committed as -> ->. cbn [cars bookings].
  apply findCar_lookup in found as [at_i _]. rewrite <- Hcar in free.
  split_and!.
  - exists (setAvailable (Js.minusOne (available car)) car). split_and!.
    + apply list_lookup_insert_eq. eauto using lookup_lt_Some.
    + cbn. apply minusOne_exact. lia.
    + done.
    + done.
    + done.
    + done.
    + done.
    + done.
    + done.
    + done.
    + done.
    + done.
    + done.
    + done.
    + done.
    + done.
  - intros j other. by apply list_lookup_insert_ne.
  - apply length_insert.
  - done.
Qed.

(** The fields of the car that a booking leaves alone: all but
    [available]. *)
Lemma setAvailable_fields v car :
  available (setAvailable v car) = v
  /\ id (setAvailable v car) = id car
  /\ name (setAvailable v car) = name car
  /\ model (setAvailable v car) = model car
  /\ carTrim (setAvailable v car) = carTrim car
  /\ price (setAvailable v car) = price car
  /\ year (setAvailable v car) = year car
  /\ seats (setAvailable v car) = seats car
  /\ transmission (setAvailable v car) = transmission car
  /\ fuel (setAvailable v car) = fuel car
  /\ mileage (setAvailable v car) = mileage car
  /\ features (setAvailable v car) = features car
  /\ color (setAvailable v car) = color car
  /\ quantity (setAvailable v car) = quantity car
  /\ images (setAvailable v car) = images car.
Proof. by destruct car. Qed.

(** X1.  A booking keeps [0 <= available <= quantity] in every car. *)
Lemma createBooking_keeps_invariant file req :
  inventoryOk file -> inventoryOk (saved (createBooking rt gw clk file req)).
Proof.
  intros ok.
  destruct (answer (createBooking rt gw clk file req)) as [b|e] eqn:result.
  - apply createBooking_Ok in result as (p & status & prepared & committed).
    apply bookingPrepare_Ok in prepared as (found & free & _ & held & _).
    unfold bookingCommit in committed. rewrite held in committed.
    injection committed as -> _.
    apply carOk_replaced; [done|].
    pose proof (carOk_found _ _ _ _ ok found) as [_ bounded].
    pose proof (minusOne_bounds _ free).
    unfold carOk. destruct (heldCar p). cbn in *. lia.
  - revert result. unfold createBooking.
    destruct (bookingPrepare _ _ _ _); [|done].
    destruct (referenceToVerify _ _).
    + by destruct (bookingSettle _ _ _) as [[]|].
    + done.
Qed.

End Booking.

(** The witnesses of C4, C5 and C10: the theorems at the seed inventory. *)
Lemma createBooking_rejects_return_before_pickup_witness :
  PaymentServer.createBooking NodeSample.runtime NodeSample.stripeAbsent
    (NodeSample.clock 1716200000000) initialInventory
    (Examples.withDates "2024-06-04" "2024-06-01" Examples.rav4Request)
  = {| PaymentServer.saved := initialInventory;
       PaymentServer.answer := Rejected InvalidDateRange;
       PaymentServer.queried := [] |}.
Proof.
  apply (createBooking_rejects_return_before_pickup _ _ _ _ _ 1%nat rav4);
    reflexivity.
Defined.

Lemma createBooking_needs_an_available_unit_witness :
  PaymentServer.createBooking NodeSample.runtime NodeSample.stripeAbsent
    (NodeSample.clock 1716200000000) Examples.soldOut Examples.rav4Request
  = {| PaymentServer.saved := Examples.soldOut;
       PaymentServer.answer := Rejected CarUnavailable;
       PaymentServer.queried := [] |}.
Proof.
  apply (proj1 (createBooking_needs_an_available_unit _ _ _ _ _)
           1%nat (setAvailable 0 rav4)); reflexivity.
Defined.

Lemma createBooking_alone_frame_witness :
  (exists car',
      cars (PaymentServer.saved
              (PaymentServer.createBooking NodeSample.runtime NodeSample.stripeAbsent
                 (NodeSample.clock 1716200000000) initialInventory Examples.rav4Request))
      !! 1%nat = Some car'
      /\ available car' = available rav4 - 1
      /\ quantity car' = quantity rav4 /\ price car' = price rav4
      /\ images car' = images rav4 /\ id car' = id rav4 /\ name car' = name rav4
      /\ model car' = model rav4 /\ carTrim car' = carTrim rav4 /\ year car' = year rav4
      /\ seats car' = seats rav4 /\ transmission car' = transmission rav4
      /\ fuel car' = fuel rav4 /\ mileage car' = mileage rav4
      /\ features car' = features rav4 /\ color car' = color rav4)
  /\ (forall j, j <> 1%nat ->
        cars (PaymentServer.saved
                (PaymentServer.createBooking NodeSample.runtime NodeSample.stripeAbsent
                   (NodeSample.clock 1716200000000) initialInventory Examples.rav4Request))
        !! j = cars initialInventory !! j)
  /\ length (cars (PaymentServer.saved
                (PaymentServer.createBooking NodeSample.runtime NodeSample.stripeAbsent
                   (NodeSample.clock 1716200000000) initialInventory Examples.rav4Request)))
     = length (cars initialInventory)
  /\ bookings (PaymentServer.saved
                (PaymentServer.createBooking NodeSample.runtime NodeSample.stripeAbsent
                   (NodeSample.clock 1716200000000) initialInventory Examples.rav4Request))
     = (bookings initialInventory ++ [Examples.rav4Booking])%list.
Proof.
  apply (createBooking_alone_frame NodeSample.runtime NodeSample.stripeAbsent
           (NodeSample.clock 1716200000000) initialInventory Examples.rav4Request
           Examples.rav4Booking 1%nat rav4); [reflexivity|reflexivity|].
  vm_compute. discriminate.
Defined.

(** ** The admin operations of [src/unnamed/part_000] *)

Section Admin.

Import PaymentServer.

Context (rt : Js.Runtime).

(** On a car that satisfies the invariant, the update clamps [available]
    into [0, quantity] as long as the quantity it is given is not negative. *)
Lemma applyAvailability_clamps u car :
  carOk car ->
  (forall q, u_quantity u = Some q -> 0 <= q) ->
  carOk (applyAvailability u car).
Proof.
  unfold applyAvailability, carOk, Js.Math_max, Js.Math_min.
  intros bounds sane.
  destruct car, u as [[a|] [q|]]; cbn in *;
    try (specialize (sane q eq_refl)); lia.
Qed.





(** The upload writes to the images only. *)
Lemma setImages_fields more car :
  images (setImages more car) = more
  /\ available (setImages more car) = available car
  /\ quantity (setImages more car) = quantity car
  /\ id (setImages more car) = id car
  /\ name (setImages more car) = name car
  /\ model (setImages more car) = model car
  /\ carTrim (setImages more car) = carTrim car
  /\ price (setImages more car) = price car
  /\ year (setImages more car) = year car
  /\ seats (setImages more car) = seats car
  /\ transmission (setImages more car) = transmission car
  /\ fuel (setImages more car) = fuel car
  /\ mileage (setImages more car) = mileage car
  /\ features (setImages more car) = features car
  /\ color (setImages more car) = color car.
Proof. by destruct car. Qed.

(** X3.  Attaching images to a car keeps [0 <= available <= quantity] in
    every car, and changes the images of the car found and nothing else:
    the names of the files uploaded are added after the images the car
    had, its counts and every other field are as before, and so are the
    other cars and the bookings.  With no car of that id, or no file
    uploaded, the document is left as it is. *)
Theorem attachImages_changes_images_only idParam uploadedFiles file :
  inventoryOk file ->
  inventoryOk (attachImages rt idParam uploadedFiles file).1
  /\ bookings (attachImages rt idParam uploadedFiles file).1 = bookings file
  /\ length (cars (attachImages rt idParam uploadedFiles file).1) = length (cars file)
  /\ match findCar (Js.parseInt rt idParam) file with
     | None => attachImages rt idParam uploadedFiles file = (file, Rejected CarNotFound)
     | Some (i, car) =>
         if bool_decide (uploadedFiles = [])
         then attachImages rt idParam uploadedFiles file = (file, Rejected NoImagesUploaded)
         else
           exists car',
             (attachImages rt idParam uploadedFiles file).2 = Ok car'
             /\ cars (attachImages rt idParam uploadedFiles file).1 !! i = Some car'
             /\ images car' = (images car ++ uploadedFiles)%list
             /\ available car' = available car /\ quantity car' = quantity car
             /\ id car' = id car /\ name car' = name car /\ model car' = model car
             /\ carTrim car' = carTrim car /\ price car' = price car
             /\ year car' = year car /\ seats car' = seats car
             /\ transmission car' = transmission car /\ fuel car' = fuel car
             /\ mileage car' = mileage car /\ features car' = features car
             /\ color car' = color car
             /\ (forall j, j <> i ->
                   cars (attachImages rt idParam uploadedFiles file).1 !! j
                   = cars file !! j)
     end.
Proof.
  intros ok. unfold attachImages.
  destruct (findCar _ file) as [[i car]|] eqn:found; [|done].
  destruct uploadedFiles as [|f fs]; [done|].
  rewrite bool_decide_eq_false_2 by done. cbn [fst snd cars bookings].
  pose proof (carOk_found _ _ _ _ ok found) as bounds.
  apply findCar_lookup in found as [at_i _].
  split_and!.
  - apply carOk_replaced; [done|]. by destruct car.
  - done.
  - apply length_insert.
  - exists (setImages (images car ++ f :: fs) car).
    destruct (setImages_fields (images car ++ f :: fs) car)
      as (? & ? & ? & ? & ? & ? & ? & ? & ? & ? & ? & ? & ? & ? & ?).
    split_and!; try done.
    + apply list_lookup_insert_eq. eauto using lookup_lt_Some.
    + intros j other. by apply list_lookup_insert_ne.
Qed.

End Admin.

(** C1.  The invariant [0 <= available <= quantity] does not survive every
    availability update: on the seed inventory, the body [{quantity: -1}]
    for car 1 is accepted and leaves that car with [quantity = -1] and
    [available = -1].  (It is kept by bookings, by image uploads and by
    updates whose quantity is not negative: X1, X2 and X3.) *)
Theorem updateAvailability_negative_quantity :
  inventoryOk initialInventory
  /\ PaymentServer.updateAvailability NodeSample.runtime "1"
       {| PaymentServer.u_available := None; PaymentServer.u_quantity := Some (-1) |}
       initialInventory
     = ({| cars := [setAvailable (-1) (setQuantity (-1) camry); rav4]; bookings := [] |},
        Ok (setAvailable (-1) (setQuantity (-1) camry)))
  /\ available (setAvailable (-1) (setQuantity (-1) camry)) = -1
  /\ ~ inventoryOk
       (PaymentServer.updateAvailability NodeSample.runtime "1"
          {| PaymentServer.u_available := None; PaymentServer.u_quantity := Some (-1) |}
          initialInventory).1.
Proof.
  split_and!.
  - repeat constructor; cbn; lia.
  - reflexivity.
  - reflexivity.
  - intros broken. apply Forall_inv in broken. unfold carOk in broken. cbn in broken. lia.
Qed.

(** ** Requests in flight *)

(** X4.  One unit left: after a booking of it, every later request for the
    same car is rejected with [CarUnavailable], whatever else it asks for. *)
Lemma createBooking_last_unit rt gw clk file req b i car gw' clk' req' :
  findCar (Js.parseInt rt (r_carId req)) file = Some (i, car) ->
  available car = 1 ->
  PaymentServer.answer (PaymentServer.createBooking rt gw clk file req) = Ok b ->
  Js.parseInt rt (r_carId req') = Js.parseInt rt (r_carId req) ->
  PaymentServer.createBooking rt gw' clk'
    (PaymentServer.saved (PaymentServer.createBooking rt gw clk file req)) req'
  = {| PaymentServer.saved := PaymentServer.saved (PaymentServer.createBooking rt gw clk file req);
       PaymentServer.answer := Rejected CarUnavailable;
       PaymentServer.queried := [] |}.
Proof.
  intros found last created same.
  apply createBooking_Ok in created as (p & status & prepared & committed).
  apply bookingPrepare_Ok in prepared as (found' & _ & _ & held & _).
  rewrite found in found'. injection found' as Hi Hcar.
  unfold PaymentServer.bookingCommit in committed.
  rewrite held, <- Hi, <- Hcar, last in committed.
  injection committed as -> _.
  eapply createBooking_unavailable.
  - rewrite same. apply (findCar_replaced _ _ _ _ _ _ found). by destruct car.
  - by destruct car.
Qed.

(** C2.  Two requests for the last unit, each with a payment to verify: both
    pass the availability check before either one is resumed, both are
    answered with a booking, and the file written last holds one booking
    and [available = 0].  Run one after the other, the second request is
    rejected with [CarUnavailable]. *)
Theorem two_bookings_of_the_last_unit :
  PaymentServer.successes
    (PaymentServer.run NodeSample.runtime NodeSample.stripePaid [0; 1; 0; 1]%nat
       Examples.lastUnitRace) = 2%nat
  /\ cars (PaymentServer.file
       (PaymentServer.run NodeSample.runtime NodeSample.stripePaid [0; 1; 0; 1]%nat
          Examples.lastUnitRace)) = [setAvailable 0 camry; rav4]
  /\ firstName <$> bookings (PaymentServer.file
       (PaymentServer.run NodeSample.runtime NodeSample.stripePaid [0; 1; 0; 1]%nat
          Examples.lastUnitRace)) = ["Bob"]
  /\ PaymentServer.tasks
       (PaymentServer.run NodeSample.runtime NodeSample.stripePaid [0; 0; 1; 1]%nat
          Examples.lastUnitRace) !! 1%nat
     = Some (PaymentServer.Finished (Rejected CarUnavailable)).
Proof. repeat apply conj; vm_compute; reflexivity. Qed.

(** C10.  Not every successful call changes the store by one unit and one
    booking.  In the race of C2, when Ann's request has been answered the
    file holds her booking and no unit of the car; Bob's request, resumed
    after its payment check, is then answered with a booking too, and
    writes the document it had loaded before: the file now holds Bob's
    booking alone, Ann's is gone, and [available] is 0 as it was.  (A call
    during which no other request is served makes the two changes and no
    other: X24.) *)
Theorem resumed_booking_overwrites_the_store :
  PaymentServer.succeeded
    <$> PaymentServer.tasks
          (PaymentServer.run NodeSample.runtime NodeSample.stripePaid [0; 1; 0]%nat
             Examples.lastUnitRace) = [true; false]
  /\ firstName
      <$> bookings
            (PaymentServer.file
               (PaymentServer.run NodeSample.runtime NodeSample.stripePaid [0; 1; 0]%nat
                  Examples.lastUnitRace)) = ["Ann"]
  /\ available
      <$> cars
            (PaymentServer.file
               (PaymentServer.run NodeSample.runtime NodeSample.stripePaid [0; 1; 0]%nat
                  Examples.lastUnitRace)) = [0; 3]
  /\ PaymentServer.succeeded
      <$> PaymentServer.tasks
            (PaymentServer.turn NodeSample.runtime NodeSample.stripePaid
               (PaymentServer.run NodeSample.runtime NodeSample.stripePaid [0; 1; 0]%nat
                  Examples.lastUnitRace) 1) = [true; true]
  /\ firstName
      <$> bookings
            (PaymentServer.file
               (PaymentServer.turn NodeSample.runtime NodeSample.stripePaid
                  (PaymentServer.run NodeSample.runtime NodeSample.stripePaid
                     [0; 1; 0]%nat Examples.lastUnitRace) 1)) = ["Bob"]
  /\ available
      <$> cars
            (PaymentServer.file
               (PaymentServer.turn NodeSample.runtime NodeSample.stripePaid
                  (PaymentServer.run NodeSample.runtime NodeSample.stripePaid
                     [0; 1; 0]%nat Examples.lastUnitRace) 1)) = [0; 3].
Proof. repeat apply conj; vm_compute; reflexivity. Qed.

(** C3.  The handler of [src/unnamed/part_000] has no validation step: a
    request with empty names, no pickup location and malformed email and
    phone is answered with a booking, and the file is written with that
    booking and one unit less. *)
Theorem createBooking_accepts_malformed_customer :
  PaymentServer.createBooking NodeSample.runtime NodeSample.stripeAbsent
    (NodeSample.clock 1716200000000) initialInventory Examples.blankRequest
  = {| PaymentServer.saved :=
         {| cars := [camry; setAvailable 2 rav4]; bookings := [Examples.blankBooking] |};
       PaymentServer.answer := Ok Examples.blankBooking;
       PaymentServer.queried := [] |}
  /\ firstName Examples.blankBooking = EmptyString
  /\ lastName Examples.blankBooking = EmptyString
  /\ pickupLocation Examples.blankBooking = EmptyString
  /\ email Examples.blankBooking = "not-an-email"
  /\ phone Examples.blankBooking = "call me".
Proof. repeat apply conj; vm_compute; reflexivity. Qed.

(** ** Pricing *)

(** The priced snapshot of a booking is what [priceRental] gives for the
    dates and the daily rate the booking records. *)
Lemma createBooking_snapshot rt gw clk file req b :
  PaymentServer.answer (PaymentServer.createBooking rt gw clk file req) = Ok b ->
  PaymentServer.invoicePricing rt b
  = {| PaymentServer.p_days := days b; PaymentServer.p_subtotal := subtotal b;
       PaymentServer.p_tax := tax b; PaymentServer.p_total := total b |}.
Proof.
  intros created.
  apply createBooking_Ok in created as (p & status & prepared & committed).
  injection committed as _ ->.
  revert prepared. unfold PaymentServer.bookingPrepare.
  destruct (findCar _ file) as [[i car]|]; [|done].
  destruct (available car <=? 0); [done|].
  destruct (PrimFloat.leb _ _); [done|].
  by intros [= <-].
Qed.

(** C6, as stated, fails: for one day at 70 a day the tax is the double
    5.6000000000000005, which is not the amount in cents nearest to it
    (5.6, printed 5.60). *)
Lemma tax_of_one_day_at_70_is_not_rounded :
  PrimFloat.ltb (NodeSample.newDate "2024-06-01") (NodeSample.newDate "2024-06-02") = true
  /\ PaymentServer.priceRental
       (NodeSample.newDate "2024-06-01") (NodeSample.newDate "2024-06-02") 70
     = {| PaymentServer.p_days := 1; PaymentServer.p_subtotal := 70;
          PaymentServer.p_tax := 5.6000000000000005;
          PaymentServer.p_total := 75.6 |}
  /\ Js.roundToCents (PrimFloat.mul 70 0.08) = 5.6%float
  /\ PrimFloat.eqb 5.6000000000000005 (Js.roundToCents (PrimFloat.mul 70 0.08)) = false.
Proof. repeat apply conj; vm_compute; reflexivity. Qed.

(** C6, amended.  Pricing is a function of the two dates and the daily
    rate: [days] is the ceiling of the difference of the time values over one
    day, [subtotal = days * dailyRate], [tax] is the product
    [subtotal * 0.08] of doubles, not rounded, and [total = subtotal + tax].
    At 70 a day from 2024-06-01 to 2024-06-04 this gives 3 days, 210, 16.8
    and 226.8 (where the tax does equal its rounding to cents), printed 16.80
    and 226.80; the booking is recorded with these values and leaves the car
    with [available = 2] of 3. *)
Theorem pricing_is_the_unrounded_product :
  (forall pickup returnD rate,
      PaymentServer.p_days (PaymentServer.priceRental pickup returnD rate)
      = Js.Math_ceil (PrimFloat.div (PrimFloat.sub returnD pickup) (Js.ofZ 86400000))
      /\ PaymentServer.p_subtotal (PaymentServer.priceRental pickup returnD rate)
         = PrimFloat.mul (PaymentServer.p_days (PaymentServer.priceRental pickup returnD rate))
             (Js.ofZ rate)
      /\ PaymentServer.p_tax (PaymentServer.priceRental pickup returnD rate)
         = PrimFloat.mul (PaymentServer.p_subtotal (PaymentServer.priceRental pickup returnD rate))
             0.08
      /\ PaymentServer.p_total (PaymentServer.priceRental pickup returnD rate)
         = PrimFloat.add (PaymentServer.p_subtotal (PaymentServer.priceRental pickup returnD rate))
             (PaymentServer.p_tax (PaymentServer.priceRental pickup returnD rate)))
  /\ PaymentServer.priceRental
       (NodeSample.newDate "2024-06-01") (NodeSample.newDate "2024-06-04") 70
     = {| PaymentServer.p_days := 3; PaymentServer.p_subtotal := 210;
          PaymentServer.p_tax := 16.8; PaymentServer.p_total := 226.8 |}
  /\ PrimFloat.eqb 16.8 (Js.roundToCents (PrimFloat.mul 210 0.08)) = true
  /\ Js.toFixed2 NodeSample.runtime 16.8 = "16.80"
  /\ Js.toFixed2 NodeSample.runtime 226.8 = "226.80"
  /\ PaymentServer.createBooking NodeSample.runtime NodeSample.stripeAbsent
       (NodeSample.clock 1716200000000) initialInventory Examples.rav4Request
     = {| PaymentServer.saved :=
            {| cars := [camry; setAvailable 2 rav4]; bookings := [Examples.rav4Booking] |};
          PaymentServer.answer := Ok Examples.rav4Booking;
          PaymentServer.queried := [] |}
  /\ quantity rav4 = 3 /\ available rav4 = 3.
Proof.
  split; [intros; repeat apply conj; reflexivity|].
  repeat apply conj; vm_compute; reflexivity.
Qed.

(** ** Invoices *)

Section Includes.

Lemma append_empty_r (s : string) : s ++ EmptyString = s.
Proof. induction s as [|c s IH]; cbn; [done|by rewrite IH]. Qed.

Lemma prefix_append_r (t s q : string) :
  String.prefix t s = true -> String.prefix t (s ++ q) = true.
Proof.
  revert s. induction t as [|c t IH]; intros s.
  - intros _. by destruct (s ++ q).
  - destruct s as [|d s]; cbn; [done|].
    destruct (ascii_dec c d); [apply IH|done].
Qed.

Lemma prefix_self (t : string) : String.prefix t t = true.
Proof. induction t as [|c t IH]; cbn; [done|]. by destruct (ascii_dec c c). Qed.

Lemma includes_here (s t : string) : String.prefix t s = true -> Js.includes s t = true.
Proof. intros here. destruct s; cbn [Js.includes]; by rewrite here. Qed.

Lemma includes_append_l (p s t : string) :
  Js.includes s t = true -> Js.includes (p ++ s) t = true.
Proof.
  intros inside. induction p as [|c p IH]; cbn; [done|].
  rewrite IH. apply orb_true_r.
Qed.

Lemma includes_append_r (s q t : string) :
  Js.includes s t = true -> Js.includes (s ++ q) t = true.
Proof.
  induction s as [|c s IH]; cbn.
  - rewrite orb_false_r. intros here. apply includes_here.
    by apply (prefix_append_r t EmptyString q).
  - intros [here|later]%orb_true_iff.
    + apply orb_true_iff. left. by apply (prefix_append_r t (String c s) q).
    + apply orb_true_iff. right. by apply IH.
Qed.

(** What a piece of a template includes, the whole text includes. *)
Lemma template_includes (pieces : list string) (piece t : string) :
  In piece pieces -> Js.includes piece t = true ->
  Js.includes (Js.template pieces) t = true.
Proof.
  unfold Js.template. intros member inside.
  induction pieces as [|x rest IH]; [done|].
  assert (String.concat EmptyString (x :: rest) = x ++ String.concat EmptyString rest) as ->.
  { destruct rest; cbn; [by rewrite append_empty_r|done]. }
  destruct member as [->|member].
  - by apply includes_append_r.
  - apply includes_append_l. by apply IH.
Qed.

Lemma includes_self (t : string) : Js.includes t t = true.
Proof. apply includes_here, prefix_self. Qed.

End Includes.

(** The renderer of [src/unnamed/part_000] puts the first name and the
    last name of the booking into the document as they are, and so the
    additional information when there is some. *)
Lemma invoice_includes_names rt b :
  Js.includes (PaymentServer.generateInvoiceHTML rt b) (firstName b) = true
  /\ Js.includes (PaymentServer.generateInvoiceHTML rt b) (lastName b) = true.
Proof.
  split; (eapply template_includes; [|apply includes_self]).
  - apply (nth_error_In _ 1). reflexivity.
  - apply (nth_error_In _ 17). reflexivity.
Qed.

Lemma invoice_includes_additionalInfo rt b :
  Js.truthy (additionalInfo b) = true ->
  Js.includes (PaymentServer.generateInvoiceHTML rt b) (additionalInfo b) = true.
Proof.
  intros given. eapply template_includes.
  - apply (nth_error_In _ 33). reflexivity.
  - cbv beta. rewrite given.
    apply includes_append_l, includes_append_r, includes_self.
Qed.

(** C7, as stated, fails.  The renderer of [src/unnamed/part_000] does not
    read the priced snapshot: the document is the same whatever [days],
    [subtotal], [tax] and [total] the booking records.  For a record of
    five days and 350.00 over three calendar days at 70 a day, it prints
    "3 day(s)" and "$210.00", and nowhere "5 day(s)" or "$350.00". *)
Theorem invoice_ignores_the_snapshot :
  (forall rt b d s t tt,
      PaymentServer.generateInvoiceHTML rt (setSnapshot d s t tt b)
      = PaymentServer.generateInvoiceHTML rt b)
  /\ days Examples.fiveDaySnapshot = 5%float
  /\ subtotal Examples.fiveDaySnapshot = 350%float
  /\ Js.includes (PaymentServer.generateInvoiceHTML NodeSample.runtime
                    Examples.fiveDaySnapshot) "3 day(s)" = true
  /\ Js.includes (PaymentServer.generateInvoiceHTML NodeSample.runtime
                    Examples.fiveDaySnapshot) "$210.00" = true
  /\ Js.includes (PaymentServer.generateInvoiceHTML NodeSample.runtime
                    Examples.fiveDaySnapshot) "5 day(s)" = false
  /\ Js.includes (PaymentServer.generateInvoiceHTML NodeSample.runtime
                    Examples.fiveDaySnapshot) "$350.00" = false.
Proof.
  split; [intros; reflexivity|].
  repeat apply conj; vm_compute; reflexivity.
Qed.

(** The renderer of [src/script.js] prints the snapshot of the same
    booking. *)
Lemma validated_invoice_prints_the_snapshot :
  Js.includes (ValidatedServer.generateInvoiceHTML NodeSample.runtime
                 Examples.fiveDaySnapshot) "5 day(s)" = true
  /\ Js.includes (ValidatedServer.generateInvoiceHTML NodeSample.runtime
                    Examples.fiveDaySnapshot) "$350.00" = true
  /\ Js.includes (ValidatedServer.generateInvoiceHTML NodeSample.runtime
                    Examples.fiveDaySnapshot) "$378.00" = true
  /\ Js.includes (ValidatedServer.generateInvoiceHTML NodeSample.runtime
                    Examples.fiveDaySnapshot) "3 day(s)" = false.
Proof. repeat apply conj; vm_compute; reflexivity. Qed.

(** On the bookings the server creates, what the renderer of
    [src/unnamed/part_000] computes again is what the booking records. *)
Lemma invoice_of_created_booking rt gw clk file req b :
  PaymentServer.answer (PaymentServer.createBooking rt gw clk file req) = Ok b ->
  PaymentServer.p_days (PaymentServer.invoicePricing rt b) = days b
  /\ PaymentServer.p_subtotal (PaymentServer.invoicePricing rt b) = subtotal b
  /\ PaymentServer.p_tax (PaymentServer.invoicePricing rt b) = tax b
  /\ PaymentServer.p_total (PaymentServer.invoicePricing rt b) = total b.
Proof. intros created. by rewrite (createBooking_snapshot _ _ _ _ _ _ created). Qed.

(** C7, amended.  The renderer is a function of the booking record that
    reads its dates and its daily rate and not its snapshot: the document
    is the same whatever snapshot the record carries.  For every booking
    that [createBooking] creates, which are the bookings the server
    renders (line 509), the values it computes again are the snapshot
    stored at creation: the two places of the document that show the days
    hold [days], and the places of the subtotal, the tax and the total
    hold [subtotal], [tax] and [total], printed with two decimals. *)
Theorem invoice_shows_the_snapshot_of_a_created_booking rt gw clk file req b :
  PaymentServer.answer (PaymentServer.createBooking rt gw clk file req) = Ok b ->
  (forall d s t tt,
      PaymentServer.generateInvoiceHTML rt (setSnapshot d s t tt b)
      = PaymentServer.generateInvoiceHTML rt b)
  /\ PaymentServer.generateInvoiceHTML rt b = Js.template (PaymentServer.invoicePieces rt b)
  /\ PaymentServer.invoicePieces rt b !! 11%nat = Some (Js.numberToString rt (days b))
  /\ PaymentServer.invoicePieces rt b !! 25%nat = Some (Js.numberToString rt (days b))
  /\ PaymentServer.invoicePieces rt b !! 27%nat = Some (Js.toFixed2 rt (subtotal b))
  /\ PaymentServer.invoicePieces rt b !! 29%nat = Some (Js.toFixed2 rt (tax b))
  /\ PaymentServer.invoicePieces rt b !! 31%nat = Some (Js.toFixed2 rt (total b)).
Proof.
  intros created.
  destruct (invoice_of_created_booking rt gw clk file req b created)
    as (same_days & same_subtotal & same_tax & same_total).
  split_and!; [done|done|..]; cbn [PaymentServer.invoicePieces lookup list_lookup];
    by rewrite ?same_days, ?same_subtotal, ?same_tax, ?same_total.
Qed.

(** C8.  The renderer of [src/unnamed/part_000] escapes nothing: for every
    booking the first name, the last name and the additional information
    (when there is some) stand in the document as given, and the handler
    passes the text of the request on unchanged, so that a request whose
    names and additional information are markup gets an invoice with that
    markup in it. *)
Theorem invoice_embeds_markup :
  (forall rt b,
      Js.includes (PaymentServer.generateInvoiceHTML rt b) (firstName b) = true
      /\ Js.includes (PaymentServer.generateInvoiceHTML rt b) (lastName b) = true
      /\ (Js.truthy (additionalInfo b) = true ->
          Js.includes (PaymentServer.generateInvoiceHTML rt b) (additionalInfo b) = true))
  /\ PaymentServer.answer
       (PaymentServer.createBooking NodeSample.runtime NodeSample.stripeAbsent
          (NodeSample.clock 1716200000000) initialInventory Examples.markupRequest)
     = Ok Examples.markupBooking
  /\ Js.includes (PaymentServer.generateInvoiceHTML NodeSample.runtime Examples.markupBooking)
       "<h2>Thank you for your booking, <script>alert(1)</script>!</h2>" = true
  /\ Js.includes (PaymentServer.generateInvoiceHTML NodeSample.runtime Examples.markupBooking)
       "<span><script>alert(1)</script> <b>Lovelace</b></span>" = true
  /\ Js.includes (PaymentServer.generateInvoiceHTML NodeSample.runtime Examples.markupBooking)
       "<p><img src=x onerror=alert(2)></p>" = true.
Proof.
  split.
  - intros rt b. destruct (invoice_includes_names rt b) as [first last].
    eauto using invoice_includes_additionalInfo.
  - repeat apply conj; vm_compute; reflexivity.
Qed.

(** X6.  [escapeHtml] of [src/script.js] leaves none of the characters that
    open or close a tag or an attribute value. *)
Lemma escapeHtml_no_markup (text : string) (c : ascii) :
  In c (list_ascii_of_string (ValidatedServer.escapeHtml text)) ->
  c <> "<"%char /\ c <> ">"%char /\ c <> "034"%char /\ c <> "'"%char.
Proof.
  induction text as [|d text IH]; cbn [ValidatedServer.escapeHtml]; [done|].
  intros member.
  assert (In c (list_ascii_of_string (ValidatedServer.escapeChar d))
          \/ In c (list_ascii_of_string (ValidatedServer.escapeHtml text))) as [here|later].
  { revert member. generalize (ValidatedServer.escapeChar d) as s.
    induction s as [|e s IHs]; cbn; [auto|]. intros [->|rest]; [auto|].
    destruct (IHs rest); auto. }
  - revert here. unfold ValidatedServer.escapeChar.
    repeat (case_match; [cbn; intros here; split_and!; intros ->;
                           repeat (destruct here as [here|here]; [done|]); done|]).
    cbn. intros [<-|[]].
    repeat match goal with H : Ascii.eqb _ _ = false |- _ => apply Ascii.eqb_neq in H end.
    done.
  - by apply IH.
Qed.

(** The additional information is escaped in the invoice of
    [src/script.js]. *)
Lemma validated_invoice_escapes_additionalInfo :
  Js.includes
    (ValidatedServer.generateInvoiceHTML NodeSample.runtime
       (ValidatedServer.invoiceSample "<img src=x onerror=alert(2)>"))
    "<img" = false
  /\ Js.includes
    (ValidatedServer.generateInvoiceHTML NodeSample.runtime
       (ValidatedServer.invoiceSample "<img src=x onerror=alert(2)>"))
    "<span>&lt;img src=x onerror=alert(2)&gt;</span>" = true.
Proof. split; vm_compute; reflexivity. Qed.

(** ** Payment verification *)

Section Payment.

Import PaymentServer.

Context (rt : Js.Runtime) (gw : Gateway) (clk : Clock).

(** A request that passes the car, availability and date checks is held
    with the document and the car it was checked against. *)
Lemma bookingPrepare_passes file req i car :
  findCar (Js.parseInt rt (r_carId req)) file = Some (i, car) ->
  0 < available car ->
  PrimFloat.leb (Js.newDate rt (r_returnDate req)) (Js.newDate rt (r_pickupDate req)) = false ->
  exists p, bookingPrepare rt (dateNow clk) file req = Ok p.
Proof.
  intros found free ordered. unfold bookingPrepare. rewrite found, ordered.
  destruct (Z.leb_spec (available car) 0); [lia|]. eauto.
Qed.

(** C9, amended.  For a request that passes the car, availability and date
    checks: if it names a payment reference (not the empty string) and the
    Stripe key is configured, the collaborator is asked about that
    reference, and the request is rejected with [PaymentNotCompleted] when
    the status is not "succeeded", rejected with [PaymentVerificationFailed]
    when the query throws (the file being left as it was in both cases), and
    answered with a booking of status "succeeded" otherwise; if it names no
    reference, or the empty one, or the key is not configured, the
    collaborator is not asked and the booking is created with status
    "pending". *)
Theorem createBooking_payment file req i car :
  findCar (Js.parseInt rt (r_carId req)) file = Some (i, car) ->
  0 < available car ->
  PrimFloat.leb (Js.newDate rt (r_returnDate req)) (Js.newDate rt (r_pickupDate req)) = false ->
  (forall ref,
      r_paymentIntentId req = Some ref -> Js.truthy ref = true -> configured gw = true ->
      queried (createBooking rt gw clk file req) = [ref]
      /\ (forall status,
            retrieve gw ref = Retrieved status -> status <> "succeeded" ->
            answer (createBooking rt gw clk file req) = Rejected PaymentNotCompleted
            /\ saved (createBooking rt gw clk file req) = file)
      /\ (retrieve gw ref = Threw ->
            answer (createBooking rt gw clk file req) = Rejected PaymentVerificationFailed
            /\ saved (createBooking rt gw clk file req) = file)
      /\ (retrieve gw ref = Retrieved "succeeded" ->
            exists b,
              answer (createBooking rt gw clk file req) = Ok b
              /\ paymentStatus b = "succeeded"))
  /\ (r_paymentIntentId req = None \/ r_paymentIntentId req = Some EmptyString
      \/ configured gw = false ->
      queried (createBooking rt gw clk file req) = []
      /\ exists b,
          answer (createBooking rt gw clk file req) = Ok b
          /\ paymentStatus b = "pending").
Proof.
  intros found free ordered.
  destruct (bookingPrepare_passes file req i car found free ordered) as [p prepared].
  unfold createBooking. rewrite prepared. split.
  - intros ref named nonempty keyed. unfold referenceToVerify.
    rewrite named, nonempty, keyed. cbn [andb]. unfold bookingSettle.
    destruct (retrieve gw ref) as [status|].
    + destruct (String.eqb_spec status "succeeded") as [->|unpaid].
      * repeat apply conj; [done|by intros ? [= <-] ?|done|]. intros _. by eexists.
      * repeat apply conj; [done| |done|by intros [= ->]].
        by intros ? [= <-] _.
    + repeat apply conj; try done.
  - intros unverified.
    assert (referenceToVerify gw req = None) as ->.
    { unfold referenceToVerify.
      destruct unverified as [->|[->|unkeyed]]; [done..|].
      rewrite unkeyed. destruct (r_paymentIntentId req); [|done].
      by rewrite andb_false_r. }
    cbn. split; [done|]. by eexists.
Qed.

End Payment.

(** C9, as stated, fails: without the Stripe key, a request that names a
    payment which the collaborator knows as not made is answered with a
    booking of status "pending", and the collaborator is never asked. *)
Lemma createBooking_ignores_reference_without_key :
  r_paymentIntentId (Examples.camryRequest "Ann" "pi_1") = Some "pi_1"
  /\ retrieve Examples.stripeIgnored "pi_1" = Retrieved "requires_payment_method"
  /\ PaymentServer.createBooking NodeSample.runtime Examples.stripeIgnored
       (NodeSample.clock 1716200000001) initialInventory
       (Examples.camryRequest "Ann" "pi_1")
     = {| PaymentServer.saved :=
            {| cars := [setAvailable 0 camry; rav4]; bookings := [Examples.annBooking] |};
          PaymentServer.answer := Ok Examples.annBooking;
          PaymentServer.queried := [] |}
  /\ paymentStatus Examples.annBooking = "pending"
  /\ paymentIntentId Examples.annBooking = Some "pi_1".
Proof. repeat apply conj; vm_compute; reflexivity. Qed.

(** The witness of C9: with the key configured and a payment that is not
    completed, the same request is rejected after the collaborator was
    asked. *)
Lemma createBooking_payment_witness :
  PaymentServer.queried
    (PaymentServer.createBooking NodeSample.runtime Examples.stripeUnpaid
       (NodeSample.clock 1716200000001) initialInventory
       (Examples.camryRequest "Ann" "pi_1")) = ["pi_1"]
  /\ PaymentServer.answer
       (PaymentServer.createBooking NodeSample.runtime Examples.stripeUnpaid
          (NodeSample.clock 1716200000001) initialInventory
          (Examples.camryRequest "Ann" "pi_1")) = Rejected PaymentNotCompleted
  /\ PaymentServer.saved
       (PaymentServer.createBooking NodeSample.runtime Examples.stripeUnpaid
          (NodeSample.clock 1716200000001) initialInventory
          (Examples.camryRequest "Ann" "pi_1")) = initialInventory.
Proof.
  pose proof (createBooking_payment NodeSample.runtime Examples.stripeUnpaid
                (NodeSample.clock 1716200000001) initialInventory
                (Examples.camryRequest "Ann" "pi_1") 0%nat camry
                eq_refl eq_refl eq_refl) as [verified _].
  destruct (verified "pi_1" eq_refl eq_refl eq_refl) as (asked & unpaid & _).
  destruct (unpaid "requires_payment_method" eq_refl) as [rejected kept]; [done|].
  exact (conj asked (conj rejected kept)).
Defined.

(** ** The server of [src/script.js] *)

Section Validated.

Import ValidatedServer.

Context (v : Validators) (rt : Js.Runtime) (clk : Clock).

(** A request that passes validation passes each chain. *)
Lemma validationPasses_fields req :
  validationPasses v req = true ->
  isLength v (Some 1) (Some 50) (trim v (r_firstName req)) = true
  /\ isLength v (Some 1) (Some 50) (trim v (r_lastName req)) = true
  /\ isEmail v (r_email req) = true
  /\ matchesPhone v (trim v (r_phone req)) = true
  /\ isLength v (Some 10) (Some 20) (trim v (r_phone req)) = true
  /\ isLength v (Some 1) (Some 100) (trim v (r_pickupLocation req)) = true.
Proof.
  unfold validationPasses. rewrite !andb_true_iff. tauto.
Qed.

(** Validation comes first: a request that fails a chain is answered 400
    and the inventory is not loaded, let alone written. *)
Lemma validated_createBooking_validates_first file raw :
  validationPasses v raw = false ->
  createBooking v rt clk file raw = (file, Rejected ValidationFailed).
Proof. intros invalid. unfold createBooking. by rewrite invalid. Qed.

(** X5.  A request with a malformed first name, last name, email, phone or
    pickup location is answered with [ValidationFailed], and the inventory is
    neither loaded nor written. *)
Lemma validated_createBooking_rejects_malformed file raw :
  isLength v (Some 1) (Some 50) (trim v (r_firstName raw)) = false
  \/ isLength v (Some 1) (Some 50) (trim v (r_lastName raw)) = false
  \/ isEmail v (r_email raw) = false
  \/ matchesPhone v (trim v (r_phone raw)) = false
  \/ isLength v (Some 10) (Some 20) (trim v (r_phone raw)) = false
  \/ isLength v (Some 1) (Some 100) (trim v (r_pickupLocation raw)) = false ->
  createBooking v rt clk file raw = (file, Rejected ValidationFailed).
Proof.
  intros malformed. apply validated_createBooking_validates_first.
  destruct (validationPasses v raw) eqn:passes; [|done].
  apply validationPasses_fields in passes. destruct_and!. destruct_or!; congruence.
Qed.

(** The booking handler keeps [0 <= available <= quantity]. *)
Lemma validated_createBooking_keeps_invariant file raw :
  inventoryOk file -> inventoryOk (createBooking v rt clk file raw).1.
Proof.
  intros ok. unfold createBooking.
  destruct (validationPasses v raw); [|done]. cbn [negb].
  destruct (findCar _ file) as [[i car]|] eqn:found; [|done].
  destruct (Z.leb_spec (available car) 0); [done|].
  destruct (priceRental _ _ _); [|done].
  cbn. apply carOk_replaced; [done|].
  pose proof (carOk_found _ _ _ _ ok found) as bounds.
  pose proof (minusOne_bounds (available car)).
  unfold carOk, Js.Math_max in *. destruct car. cbn in *. lia.
Qed.

(** The update on whole numbers: it refuses a negative one, and an
    [available] above the [quantity], and stores any other pair as given in
    the car found, writing to its two counts only. *)
Lemma validated_updateAvailability_effect idParam a q file :
  inventoryOk file ->
  inventoryOk (updateAvailability rt idParam (Some a) (Some q) file).1
  /\ bookings (updateAvailability rt idParam (Some a) (Some q) file).1 = bookings file
  /\ length (cars (updateAvailability rt idParam (Some a) (Some q) file).1)
     = length (cars file)
  /\ (a < 0 \/ q < 0 \/ q < a ->
        updateAvailability rt idParam (Some a) (Some q) file
        = (file, Rejected ValidationFailed))
  /\ (0 <= a <= q ->
        match findCar (Js.parseInt rt idParam) file with
        | None =>
            updateAvailability rt idParam (Some a) (Some q) file
            = (file, Rejected CarNotFound)
        | Some (i, car) =>
            exists car',
              (updateAvailability rt idParam (Some a) (Some q) file).2 = Ok car'
              /\ cars (updateAvailability rt idParam (Some a) (Some q) file).1 !! i
                 = Some car'
              /\ available car' = a /\ quantity car' = q
              /\ id car' = id car /\ name car' = name car /\ model car' = model car
              /\ carTrim car' = carTrim car /\ price car' = price car
              /\ year car' = year car /\ seats car' = seats car
              /\ transmission car' = transmission car /\ fuel car' = fuel car
              /\ mileage car' = mileage car /\ features car' = features car
              /\ color car' = color car /\ images car' = images car
              /\ (forall j, j <> i ->
                    cars (updateAvailability rt idParam (Some a) (Some q) file).1 !! j
                    = cars file !! j)
        end)
  /\ (forall other,
        updateAvailability rt idParam None other file = (file, Rejected ValidationFailed)
        /\ updateAvailability rt idParam other None file
           = (file, Rejected ValidationFailed)).
Proof.
  intros ok. unfold updateAvailability.
  destruct (Z.ltb_spec a 0); [by split_and!; [..|lia|intros [|]]|].
  destruct (Z.ltb_spec q 0); [by split_and!; [..|lia|intros [|]]|].
  destruct (Z.ltb_spec q a); [by split_and!; [..|lia|intros [|]]|]. cbn [orb].
  destruct (findCar _ file) as [[i car]|] eqn:found;
    [|by split_and!; [..|lia| |intros [|]]].
  apply findCar_lookup in found as [at_i _]. cbn [fst snd cars bookings].
  split_and!.
  - apply carOk_replaced; [done|]. unfold carOk. destruct car. cbn. lia.
  - done.
  - apply length_insert.
  - lia.
  - intros _. exists (setQuantity q (setAvailable a car)).
    split_and!; try by destruct car.
    + apply list_lookup_insert_eq. eauto using lookup_lt_Some.
    + intros j other. by apply list_lookup_insert_ne.
  - by intros [|].
Qed.

(** On doubles that hold whole numbers the route is [updateAvailability]
    on these numbers: the tests on the doubles are the tests on the
    numbers. *)
Lemma putAvailability_of_whole_numbers idParam a q za zq file :
  Js.toZ a = Some za -> Js.toZ q = Some zq ->
  putAvailability rt idParam (Some a) (Some q) file
  = Some (updateAvailability rt idParam (Some za) (Some zq) file).
Proof.
  intros whole_a whole_q. unfold putAvailability, updateAvailability.
  rewrite (ltb_zero_of_whole a za whole_a), (ltb_zero_of_whole q zq whole_q).
  destruct (Z.ltb_spec za 0); [done|]. destruct (Z.ltb_spec zq 0); [done|]. cbn [orb].
  rewrite (ltb_of_whole q a zq za) by done.
  destruct (zq <? za); [done|].
  destruct (findCar _ file) as [[i car]|]; [|done].
  by rewrite whole_a, whole_q.
Qed.

(** X7.  The availability update of [src/script.js], for every body.  A
    field that is no number, a negative number, and an [available] above
    the [quantity] are refused with 400, whatever the numbers (fractions
    and infinities as well), and the document is left as it is.  Sent whole
    numbers with [0 <= available <= quantity], it stores them as given in
    the car found, writing to its two counts only; with no car of that id
    the document is left as it is.  Whenever the numbers are whole,
    [0 <= available <= quantity] is kept in every car, and no car and no
    booking is added or removed. *)
Theorem validated_putAvailability_checks_then_stores idParam sentAvailable sentQuantity
    file :
  inventoryOk file ->
  (forall file' answer,
      putAvailability rt idParam sentAvailable sentQuantity file = Some (file', answer) ->
      inventoryOk file' /\ bookings file' = bookings file
      /\ length (cars file') = length (cars file))
  /\ (sentAvailable = None \/ sentQuantity = None ->
        putAvailability rt idParam sentAvailable sentQuantity file
        = Some (file, Rejected ValidationFailed))
  /\ (forall a q,
        sentAvailable = Some a -> sentQuantity = Some q ->
        PrimFloat.ltb a 0 = true \/ PrimFloat.ltb q 0 = true \/ PrimFloat.ltb q a = true ->
        putAvailability rt idParam sentAvailable sentQuantity file
        = Some (file, Rejected ValidationFailed))
  /\ (forall a q za zq,
        sentAvailable = Some a -> sentQuantity = Some q ->
        Js.toZ a = Some za -> Js.toZ q = Some zq ->
        (za < 0 \/ zq < 0 \/ zq < za ->
           putAvailability rt idParam sentAvailable sentQuantity file
           = Some (file, Rejected ValidationFailed))
        /\ (0 <= za <= zq ->
              match findCar (Js.parseInt rt idParam) file with
              | None =>
                  putAvailability rt idParam sentAvailable sentQuantity file
                  = Some (file, Rejected CarNotFound)
              | Some (i, car) =>
                  exists file' car',
                    putAvailability rt idParam sentAvailable sentQuantity file
                    = Some (file', Ok car')
                    /\ cars file' !! i = Some car'
                    /\ available car' = za /\ quantity car' = zq
                    /\ id car' = id car /\ name car' = name car /\ model car' = model car
                    /\ carTrim car' = carTrim car /\ price car' = price car
                    /\ year car' = year car /\ seats car' = seats car
                    /\ transmission car' = transmission car /\ fuel car' = fuel car
                    /\ mileage car' = mileage car /\ features car' = features car
                    /\ color car' = color car /\ images car' = images car
                    /\ (forall j, j <> i -> cars file' !! j = cars file !! j)
              end)).
Proof.
  intros ok. split_and!.
  - intros file' answer.
    destruct sentAvailable as [a|], sentQuantity as [q|];
      try by (unfold putAvailability; intros [= <- _]).
    destruct (Js.toZ a) as [za|] eqn:whole_a, (Js.toZ q) as [zq|] eqn:whole_q.
    + rewrite (putAvailability_of_whole_numbers idParam a q za zq file whole_a whole_q).
      intros followed%(inj Some).
      destruct (validated_updateAvailability_effect idParam za zq file ok)
        as (kept & same_bookings & same_length & _).
      by rewrite followed in kept, same_bookings, same_length.
    + unfold putAvailability. destruct (_ || _); [by intros [= <- _]|].
      destruct (PrimFloat.ltb q a); [by intros [= <- _]|].
      destruct (findCar _ file) as [[i car]|]; [|by intros [= <- _]].
      by rewrite whole_a, whole_q.
    + unfold putAvailability. destruct (_ || _); [by intros [= <- _]|].
      destruct (PrimFloat.ltb q a); [by intros [= <- _]|].
      destruct (findCar _ file) as [[i car]|]; [|by intros [= <- _]].
      by rewrite whole_a.
    + unfold putAvailability. destruct (_ || _); [by intros [= <- _]|].
      destruct (PrimFloat.ltb q a); [by intros [= <- _]|].
      destruct (findCar _ file) as [[i car]|]; [|by intros [= <- _]].
      by rewrite whole_a.
  - unfold putAvailability. by intros [->| ->]; [|destruct sentAvailable].
  - intros a q -> -> refused. unfold putAvailability.
    destruct (PrimFloat.ltb a 0); [done|]. destruct (PrimFloat.ltb q 0); [done|].
    cbn [orb]. destruct (PrimFloat.ltb q a); [done|]. by destruct refused as [|[|]].
  - intros a q za zq -> -> whole_a whole_q.
    rewrite (putAvailability_of_whole_numbers idParam a q za zq file whole_a whole_q).
    destruct (validated_updateAvailability_effect idParam za zq file ok)
      as (_ & _ & _ & refused & stored & _).
    split.
    + intros negative. by rewrite (refused negative).
    + intros bounded. specialize (stored bounded).
      destruct (findCar _ file) as [[i car]|]; [|by rewrite stored].
      destruct stored as (car' & answered & rest).
      exists (updateAvailability rt idParam (Some za) (Some zq) file).1, car'.
      split; [|exact rest].
      rewrite <- answered. by destruct (updateAvailability _ _ _ _ _).
Qed.

End Validated.

(** The request of markup through the server of [src/script.js]: the
    names and the additional information reach the handler escaped by the
    validation chains, and the invoice has no tag of the customer's in it. *)
Lemma validated_markup_request_is_escaped :
  exists file b,
    ValidatedServer.createBooking NodeSample.validators NodeSample.runtime
      (NodeSample.clock 1716200000000) initialInventory Examples.markupRequest
    = (file, Ok b)
    /\ firstName b = "&lt;script&gt;alert(1)&lt;&#x2F;script&gt;"
    /\ lastName b = "&lt;b&gt;Lovelace&lt;&#x2F;b&gt;"
    /\ Js.includes (ValidatedServer.generateInvoiceHTML NodeSample.runtime b) "<script" = false
    /\ Js.includes (ValidatedServer.generateInvoiceHTML NodeSample.runtime b) "<b>" = false
    /\ Js.includes (ValidatedServer.generateInvoiceHTML NodeSample.runtime b) "<img" = false.
Proof.
  eexists _, _. split; [vm_compute; reflexivity|].
  repeat apply conj; vm_compute; reflexivity.
Qed.

(** ** The lemmas above at the seed inventory *)

Lemma invoice_shows_the_snapshot_of_a_created_booking_witness :
  (forall d s t tt,
      PaymentServer.generateInvoiceHTML NodeSample.runtime
        (setSnapshot d s t tt Examples.rav4Booking)
      = PaymentServer.generateInvoiceHTML NodeSample.runtime Examples.rav4Booking)
  /\ PaymentServer.generateInvoiceHTML NodeSample.runtime Examples.rav4Booking
     = Js.template (PaymentServer.invoicePieces NodeSample.runtime Examples.rav4Booking)
  /\ PaymentServer.invoicePieces NodeSample.runtime Examples.rav4Booking !! 11%nat
     = Some (Js.numberToString NodeSample.runtime (days Examples.rav4Booking))
  /\ PaymentServer.invoicePieces NodeSample.runtime Examples.rav4Booking !! 25%nat
     = Some (Js.numberToString NodeSample.runtime (days Examples.rav4Booking))
  /\ PaymentServer.invoicePieces NodeSample.runtime Examples.rav4Booking !! 27%nat
     = Some (Js.toFixed2 NodeSample.runtime (subtotal Examples.rav4Booking))
  /\ PaymentServer.invoicePieces NodeSample.runtime Examples.rav4Booking !! 29%nat
     = Some (Js.toFixed2 NodeSample.runtime (tax Examples.rav4Booking))
  /\ PaymentServer.invoicePieces NodeSample.runtime Examples.rav4Booking !! 31%nat
     = Some (Js.toFixed2 NodeSample.runtime (total Examples.rav4Booking)).
Proof.
  apply (invoice_shows_the_snapshot_of_a_created_booking NodeSample.runtime
           NodeSample.stripeAbsent (NodeSample.clock 1716200000000) initialInventory
           Examples.rav4Request Examples.rav4Booking).
  vm_compute. reflexivity.
Defined.

Lemma createBooking_keeps_invariant_witness :
  inventoryOk
    (PaymentServer.saved
       (PaymentServer.createBooking NodeSample.runtime NodeSample.stripeAbsent
          (NodeSample.clock 1716200000000) initialInventory Examples.rav4Request)).
Proof.
  apply createBooking_keeps_invariant. repeat constructor; cbn; lia.
Defined.


Lemma attachImages_changes_images_only_witness :
  inventoryOk
    (PaymentServer.attachImages NodeSample.runtime "2"
       ["2-images-1716200000000-1.png"] initialInventory).1
  /\ bookings
       (PaymentServer.attachImages NodeSample.runtime "2"
          ["2-images-1716200000000-1.png"] initialInventory).1
     = bookings initialInventory
  /\ length
       (cars (PaymentServer.attachImages NodeSample.runtime "2"
                ["2-images-1716200000000-1.png"] initialInventory).1)
     = length (cars initialInventory)
  /\ match findCar (Js.parseInt NodeSample.runtime "2") initialInventory with
     | None =>
         PaymentServer.attachImages NodeSample.runtime "2"
           ["2-images-1716200000000-1.png"] initialInventory
         = (initialInventory, Rejected CarNotFound)
     | Some (i, car) =>
         if bool_decide (["2-images-1716200000000-1.png"] = [])
         then
           PaymentServer.attachImages NodeSample.runtime "2"
             ["2-images-1716200000000-1.png"] initialInventory
           = (initialInventory, Rejected NoImagesUploaded)
         else
           exists car',
             (PaymentServer.attachImages NodeSample.runtime "2"
                ["2-images-1716200000000-1.png"] initialInventory).2 = Ok car'
             /\ cars (PaymentServer.attachImages NodeSample.runtime "2"
                       ["2-images-1716200000000-1.png"] initialInventory).1 !! i
                = Some car'
             /\ images car' = (images car ++ ["2-images-1716200000000-1.png"])%list
             /\ available car' = available car /\ quantity car' = quantity car
             /\ id car' = id car /\ name car' = name car /\ model car' = model car
             /\ carTrim car' = carTrim car /\ price car' = price car
             /\ year car' = year car /\ seats car' = seats car
             /\ transmission car' = transmission car /\ fuel car' = fuel car
             /\ mileage car' = mileage car /\ features car' = features car
             /\ color car' = color car
             /\ (forall j, j <> i ->
                   cars (PaymentServer.attachImages NodeSample.runtime "2"
                           ["2-images-1716200000000-1.png"] initialInventory).1 !! j
                   = cars initialInventory !! j)
     end.
Proof.
  apply attachImages_changes_images_only. repeat constructor; cbn; lia.
Defined.

Lemma createBooking_last_unit_witness :
  PaymentServer.createBooking NodeSample.runtime NodeSample.stripeAbsent
    (NodeSample.clock 1716200000002)
    (PaymentServer.saved
       (PaymentServer.createBooking NodeSample.runtime NodeSample.stripeAbsent
          (NodeSample.clock 1716200000001) initialInventory
          (Examples.camryRequest "Ann" "pi_1")))
    (Examples.camryRequest "Bob" "pi_2")
  = {| PaymentServer.saved :=
         PaymentServer.saved
           (PaymentServer.createBooking NodeSample.runtime NodeSample.stripeAbsent
              (NodeSample.clock 1716200000001) initialInventory
              (Examples.camryRequest "Ann" "pi_1"));
       PaymentServer.answer := Rejected CarUnavailable;
       PaymentServer.queried := [] |}.
Proof.
  apply (createBooking_last_unit NodeSample.runtime NodeSample.stripeAbsent
           (NodeSample.clock 1716200000001) initialInventory
           (Examples.camryRequest "Ann" "pi_1") Examples.annBooking 0%nat camry);
    reflexivity.
Defined.

Lemma validated_createBooking_rejects_malformed_witness :
  ValidatedServer.createBooking NodeSample.validators NodeSample.runtime
    (NodeSample.clock 1716200000000) initialInventory Examples.blankRequest
  = (initialInventory, Rejected ValidationFailed).
Proof.
  apply validated_createBooking_rejects_malformed. left. reflexivity.
Defined.

Lemma escapeHtml_no_markup_witness :
  ("&"%char : ascii) <> "<"%char /\ ("&"%char : ascii) <> ">"%char
  /\ ("&"%char : ascii) <> "034"%char /\ ("&"%char : ascii) <> "'"%char.
Proof.
  apply (escapeHtml_no_markup "<b>"). cbn. left. reflexivity.
Defined.

Lemma validated_putAvailability_checks_then_stores_witness :
  inventoryOk initialInventory
  /\ exists file' car',
       ValidatedServer.putAvailability NodeSample.runtime "2" (Some 2%float)
         (Some 4%float) initialInventory
       = Some (file', Ok car')
       /\ cars file' !! 1%nat = Some car'
       /\ available car' = 2 /\ quantity car' = 4
       /\ price car' = price rav4 /\ images car' = images rav4
       /\ cars file' !! 0%nat = Some camry
       /\ inventoryOk file'.
Proof.
  assert (inventoryOk initialInventory) as ok by (repeat constructor; cbn; lia).
  split; [exact ok|].
  destruct (validated_putAvailability_checks_then_stores NodeSample.runtime "2"
              (Some 2%float) (Some 4%float) initialInventory ok)
    as (kept & _ & _ & stored).
  destruct (stored 2%float 4%float 2 4 eq_refl eq_refl eq_refl eq_refl) as (_ & given).
  assert (0 <= 2 <= 4) as bounded by lia. specialize (given bounded).
  change (findCar (Js.parseInt NodeSample.runtime "2") initialInventory)
    with (Some (1%nat, rav4)) in given.
  destruct given as (file' & car' & answered & at_i & given_a & given_q & _ & _ & _ & _
                     & same_price & _ & _ & _ & _ & _ & _ & _ & same_images & others).
  exists file', car'. split_and!; try done.
  - by rewrite (others 0%nat).
  - by apply (kept file' (Ok car')).
Defined.

(** ** More of the server of [src/unnamed/part_000] *)

Section Catalog.

Lemma laterCar_refl c : laterCar c c.
Proof. by repeat split. Qed.

Lemma laterCar_trans c1 c2 c3 : laterCar c1 c2 -> laterCar c2 c3 -> laterCar c1 c3.
Proof.
  unfold laterCar. intros H12 H23. destruct_and!.
  repeat split; try congruence. by etrans.
Qed.

Lemma laterCars_refl (l : list Car) : Forall2 laterCar l l.
Proof. induction l; constructor; auto using laterCar_refl. Qed.

Lemma laterCars_trans (l1 l2 l3 : list Car) :
  Forall2 laterCar l1 l2 -> Forall2 laterCar l2 l3 -> Forall2 laterCar l1 l3.
Proof.
  intros H12. revert l3. induction H12; intros l3 H23; inversion H23; subst;
    constructor; eauto using laterCar_trans.
Qed.

Lemma laterCars_replaced (l : list Car) i car car' :
  l !! i = Some car -> laterCar car car' -> Forall2 laterCar l (<[i := car']> l).
Proof.
  revert i. induction l as [|c l IH]; intros [|i] at_i later; try done.
  - injection at_i as ->. constructor; auto using laterCars_refl.
  - constructor; auto using laterCar_refl.
Qed.

Lemma laterCar_setAvailable v car : laterCar car (setAvailable v car).
Proof. by destruct car. Qed.

Lemma laterCar_setQuantity v car : laterCar car (setQuantity v car).
Proof. by destruct car. Qed.

Lemma laterCar_setImages more car : laterCar car (setImages (images car ++ more) car).
Proof. destruct car. repeat split. cbn. by apply prefix_app_r. Qed.

End Catalog.

Section Routes.

Import PaymentServer.

Context (rt : Js.Runtime) (gw : Gateway).

Lemma serve_later f r :
  Forall2 laterCar (cars f) (cars (serve rt gw f r))
  /\ bookings f `prefix_of` bookings (serve rt gw f r).
Proof.
  destruct r as [| |idParam files| |req clk| |idParam u]; cbn [serve];
    try (split; [apply laterCars_refl|done]).
  - unfold attachImages.
    destruct (findCar _ f) as [[i car]|] eqn:found; [|split; [apply laterCars_refl|done]].
    destruct files as [|x files]; [split; [apply laterCars_refl|done]|].
    cbn. split; [|done].
    apply findCar_lookup in found as [at_i _].
    eapply laterCars_replaced; [done|]. apply laterCar_setImages.
  - destruct (answer (createBooking rt gw clk f req)) as [b|e] eqn:result.
    + apply createBooking_Ok in result as (p & status & prepared & committed).
      apply bookingPrepare_Ok in prepared as (found & _ & _ & held & _).
      unfold bookingCommit in committed. rewrite held in committed.
      injection committed as -> _. cbn. split; [|by apply prefix_app_r].
      apply findCar_lookup in found as [at_i _].
      eapply laterCars_replaced; [done|]. apply laterCar_setAvailable.
    + assert (saved (createBooking rt gw clk f req) = f) as ->.
      { revert result. unfold createBooking.
        destruct (bookingPrepare _ _ _ _); [|done].
        destruct (referenceToVerify _ _); [|done].
        by destruct (bookingSettle _ _ _) as [[]|]. }
      split; [apply laterCars_refl|done].
  - unfold updateAvailability.
    destruct (findCar _ f) as [[i car]|] eqn:found; [|split; [apply laterCars_refl|done]].
    cbn. split; [|done].
    apply findCar_lookup in found as [at_i _].
    eapply laterCars_replaced; [done|].
    unfold applyAvailability.
    destruct (u_available u), (u_quantity u);
      eauto using laterCar_trans, laterCar_setAvailable, laterCar_setQuantity, laterCar_refl.
Qed.

(** X8.  Whatever requests the server of [src/unnamed/part_000] is sent,
    one after the other, it keeps the cars it has: none is added, removed or
    moved, none changes its id, texts or price, the images of a car are only
    added to, and the bookings recorded stay, in their order, before the new
    ones. *)
Theorem serveAll_keeps_catalog f rs :
  Forall2 laterCar (cars f) (cars (serveAll rt gw f rs))
  /\ bookings f `prefix_of` bookings (serveAll rt gw f rs).
Proof.
  unfold serveAll. revert f. induction rs as [|r rs IH]; intros f; cbn [foldl].
  - split; [apply laterCars_refl|done].
  - destruct (serve_later f r) as [step_cars step_bookings].
    destruct (IH (serve rt gw f r)) as [rest_cars rest_bookings].
    split; [by eapply laterCars_trans|by etrans].
Qed.

Lemma serve_keeps_invariant f r :
  inventoryOk f -> saneRequest rt r -> inventoryOk (serve rt gw f r).
Proof.
  intros ok sane.
  destruct r as [| |idParam files| |req clk| |idParam u]; cbn [serve]; try done.
  - unfold attachImages.
    destruct (findCar _ f) as [[i car]|] eqn:found; [|done].
    destruct files as [|x files]; [done|].
    cbn. apply carOk_replaced; [done|].
    pose proof (carOk_found _ _ _ _ ok found). by destruct car.
  - destruct (answer (createBooking rt gw clk f req)) as [b|e] eqn:result.
    + apply createBooking_Ok in result as (p & status & prepared & committed).
      apply bookingPrepare_Ok in prepared as (found & free & _ & held & _).
      unfold bookingCommit in committed. rewrite held in committed.
      injection committed as -> _.
      apply carOk_replaced; [done|].
      pose proof (carOk_found _ _ _ _ ok found) as [_ bounded].
      pose proof (minusOne_bounds _ free).
      unfold carOk. destruct (heldCar p). cbn in *. lia.
    + revert result. unfold createBooking.
      destruct (bookingPrepare _ _ _ _); [|done].
      destruct (referenceToVerify _ _); [|done].
      by destruct (bookingSettle _ _ _) as [[]|].
  - unfold updateAvailability. destruct sane as [_ sane].
    destruct (findCar _ f) as [[i car]|] eqn:found; [|done].
    cbn. apply carOk_replaced; [done|].
    apply applyAvailability_clamps; eauto using carOk_found.
Qed.

(** X9.  Served one after the other, the requests to the server of
    [src/unnamed/part_000] keep [0 <= available <= quantity] in every car,
    as long as every availability update among them sends values that
    [parseInt] reads as whole numbers, and no negative quantity. *)
Theorem serveAll_keeps_invariant f rs :
  inventoryOk f -> Forall (saneRequest rt) rs -> inventoryOk (serveAll rt gw f rs).
Proof.
  unfold serveAll. intros ok sane. revert f ok.
  induction sane as [|r rs sane_r _ IH]; intros f ok; cbn [foldl]; [done|].
  apply IH. by apply serve_keeps_invariant.
Qed.

End Routes.

(** ** Invariants under interleaving *)

Section Interleaving.

Import PaymentServer.

Context (rt : Js.Runtime) (gw : Gateway).

Lemma bookingCommit_ok p status isoDate :
  inventoryOk (heldInventory p) ->
  cars (heldInventory p) !! heldIndex p = Some (heldCar p) ->
  0 < available (heldCar p) ->
  inventoryOk (bookingCommit p status isoDate).1.
Proof.
  intros ok at_i free. unfold bookingCommit. cbn.
  apply carOk_replaced; [done|].
  unfold inventoryOk in ok. rewrite Forall_lookup in ok.
  pose proof (ok _ _ at_i) as [_ bounded].
  pose proof (minusOne_bounds _ free).
  unfold carOk. destruct (heldCar p). cbn in *. lia.
Qed.

Lemma bookingPrepare_taskOk now f req p ref clk :
  inventoryOk f -> bookingPrepare rt now f req = Ok p -> taskOk (Awaiting p ref clk).
Proof.
  intros ok. unfold bookingPrepare.
  destruct (findCar _ f) as [[i car]|] eqn:found; [|done].
  destruct (Z.leb_spec (available car) 0); [done|].
  destruct (PrimFloat.leb _ _); [done|].
  intros [= <-]. cbn. apply findCar_lookup in found as [at_i _]. done.
Qed.

Lemma stepTask_ok f t :
  inventoryOk f -> taskOk t ->
  inventoryOk (stepTask rt gw f t).1 /\ taskOk (stepTask rt gw f t).2.
Proof.
  intros ok held. destruct t as [req clk|p ref clk|r]; cbn [stepTask].
  - destruct (bookingPrepare rt (dateNow clk) f req) as [p|e] eqn:prepared; [|done].
    destruct (referenceToVerify gw req) as [ref|].
    + split; [done|]. by eapply bookingPrepare_taskOk.
    + destruct (bookingPrepare_taskOk _ _ _ _ "pending" clk ok prepared)
        as (ok_p & at_i & free).
      pose proof (bookingCommit_ok p "pending" (isoNow clk) ok_p at_i free) as committed.
      by destruct (bookingCommit p "pending" (isoNow clk)).
  - unfold bookingSettle. destruct (retrieve gw ref) as [status|]; [|done].
    destruct (String.eqb status "succeeded"); [|done].
    destruct held as (ok_p & at_i & free).
    pose proof (bookingCommit_ok p status (isoNow clk) ok_p at_i free) as committed.
    by destruct (bookingCommit p status (isoNow clk)).
  - done.
Qed.

Lemma turn_ok s k : serverOk s -> serverOk (turn rt gw s k).
Proof.
  intros [ok held]. unfold turn.
  destruct (tasks s !! k) as [t|] eqn:at_k; [|done].
  assert (taskOk t) as held_t by (rewrite Forall_lookup in held; eauto).
  destruct (stepTask_ok (file s) t ok held_t) as [ok' held'].
  destruct (stepTask rt gw (file s) t) as [f' t']. split; cbn in *; [done|].
  by apply Forall_insert.
Qed.

Lemma run_ok schedule s : serverOk s -> serverOk (run rt gw schedule s).
Proof.
  unfold run. revert s. induction schedule as [|k schedule IH]; intros s ok; cbn [foldl];
    [done|]. apply IH. by apply turn_ok.
Qed.

(** X10.  However the turns of booking requests in flight are interleaved,
    every content the inventory file takes keeps
    [0 <= available <= quantity] in every car: requests that overtake each
    other lose bookings, but never take [available] below zero. *)
Theorem run_keeps_invariant f (arrivals : list (BookingRequest * Clock)) schedule :
  inventoryOk f ->
  inventoryOk
    (file (run rt gw schedule
             {| file := f; tasks := (fun a => Arrived a.1 a.2) <$> arrivals |})).
Proof.
  intros ok. apply run_ok. split; [done|]. cbn.
  apply Forall_fmap, Forall_true. done.
Qed.

End Interleaving.

(** ** The catalogue after a booking *)

Section Listing.

Import PaymentServer.

Context (rt : Js.Runtime) (gw : Gateway) (clk : Clock).

(** X11.  After a booking of a car with at most 2^53 units available, made
    from a document that satisfies [0 <= available <= quantity], the list
    of cars shows that car with [available] one lower, and as "unavailable"
    if the unit was its last and as "limited" otherwise, never as
    "available"; its quantity, its price label and its image are as
    before. *)
Theorem createBooking_listing f req b i car :
  inventoryOk f ->
  answer (createBooking rt gw clk f req) = Ok b ->
  findCar (Js.parseInt rt (r_carId req)) f = Some (i, car) ->
  available car <= 2 ^ 53 ->
  exists shown,
    listCars (saved (createBooking rt gw clk f req)) !! i = Some shown
    /\ available (s_car shown) = available car - 1
    /\ quantity (s_car shown) = quantity car
    /\ id (s_car shown) = id car /\ name (s_car shown) = name car
    /\ s_price shown = priceLabel car
    /\ s_availability shown = (if available car =? 1 then "unavailable" else "limited")
    /\ s_image shown = s_image (summaryOf car).
Proof.
  intros ok created found safe.
  apply createBooking_Ok in created as (p & status & prepared & committed).
  apply bookingPrepare_Ok in prepared as (found' & free & _ & held & _).
  rewrite found in found'. injection found' as Hi Hcar.
  unfold bookingCommit in committed. rewrite held, <- Hi, <- Hcar in committed.
  injection committed as -> _. rewrite <- Hcar in free.
  pose proof (carOk_found _ _ _ _ ok found) as [_ bounded].
  apply findCar_lookup in found as [at_i _].
  exists (summaryOf (setAvailable (Js.minusOne (available car)) car)).
  rewrite minusOne_exact by lia.
  split_and!; try by destruct car.
  - unfold listCars. cbn [cars]. rewrite list_lookup_fmap.
    by rewrite list_lookup_insert_eq by eauto using lookup_lt_Some.
  - unfold summaryOf, availabilityOf. cbn [s_availability].
    destruct car as [? ? ? ? ? ? ? ? ? ? ? ? q a ?]. cbn in *.
    destruct (Z.eqb_spec a 1) as [->|more]; [done|].
    destruct (Z.ltb_spec 0 (a - 1)); [|lia].
    by destruct (Z.ltb_spec (a - 1) q); [|lia].
Qed.

(** X25.  From 2^54 units on, a booking takes no unit from the count: the
    request is answered with a booking, which is recorded, and the car is
    left with the [available] it had ([x - 1] is [x] for such a double).
    The availability update lets any client set such counts. *)
Theorem createBooking_of_a_large_count f req b i car :
  answer (createBooking rt gw clk f req) = Ok b ->
  findCar (Js.parseInt rt (r_carId req)) f = Some (i, car) ->
  2 ^ 54 <= available car ->
  cars (saved (createBooking rt gw clk f req)) = cars f
  /\ bookings (saved (createBooking rt gw clk f req)) = (bookings f ++ [b])%list.
Proof.
  intros created found large.
  apply createBooking_Ok in created as (p & status & prepared & committed).
  apply bookingPrepare_Ok in prepared as (found' & free & _ & held & _).
  rewrite found in found'. injection found' as Hi Hcar.
  unfold bookingCommit in committed. rewrite held, <- Hi, <- Hcar in committed.
  injection committed as -> ->. cbn [cars bookings]. split; [|done].
  apply findCar_lookup in found as [at_i _].
  assert (Js.minusOne (available car) = available car) as ->.
  { unfold Js.minusOne. change (2 ^ 53) with 9007199254740992.
    change (2 ^ 54) with 18014398509481984 in *.
    rewrite (proj2 (Z.leb_gt _ _)), andb_false_r by lia.
    by rewrite (proj2 (Z.leb_le _ _)) by lia. }
  apply list_insert_id. rewrite at_i. by destruct car.
Qed.

End Listing.

(** ** Amounts to the cent *)

Section Cents.

Import PaymentServer.

Lemma centExactFrom_covers n k j :
  centExactFrom n k = true -> k <= j < k + Z.of_nat n -> centExact j = true.
Proof.
  revert k. induction n as [|n IH]; intros k; cbn [centExactFrom]; [lia|].
  intros [here later]%andb_true_iff range.
  destruct (decide (j = k)) as [->|]; [done|].
  apply (IH (k + 1)); [done|lia].
Qed.

Lemma centExact_to_10000 : centExactFrom (Z.to_nat 10000) 1 = true.
Proof. vm_compute. reflexivity. Qed.

Lemma toFixed2_cents rt x n :
  Js.hundredths x = Some n -> 0 <= n < 10 ^ 23 -> PrimFloat.ltb x 0 = false ->
  Js.toFixed2 rt x = Js.cents n.
Proof.
  intros exact range positive. unfold Js.toFixed2, Js.cents.
  rewrite exact, positive, Z.abs_eq by lia.
  destruct (Z.ltb_spec n (10 ^ 23)); [done|lia].
Qed.

(** X12.  For a rental whose subtotal is a whole number of dollars from 1 to
    10000, the amounts come out to the cent: Stripe is asked for 108 cents
    per dollar of subtotal, and the invoice prints the subtotal, the tax (8
    cents per dollar) and the total (108 cents per dollar), so that the
    printed subtotal and tax add up to the printed total, which is the
    amount charged. *)
Theorem amounts_to_the_cent rt pickup returnD rate k :
  1 <= k <= 10000 ->
  p_subtotal (priceRental pickup returnD rate) = Js.ofZ k ->
  Js.toZ (amountInCents (priceRental pickup returnD rate)) = Some (108 * k)
  /\ Js.toFixed2 rt (p_subtotal (priceRental pickup returnD rate)) = Js.cents (100 * k)
  /\ Js.toFixed2 rt (p_tax (priceRental pickup returnD rate)) = Js.cents (8 * k)
  /\ Js.toFixed2 rt (p_total (priceRental pickup returnD rate)) = Js.cents (108 * k).
Proof.
  intros range whole.
  pose proof (centExactFrom_covers _ 1 k centExact_to_10000) as exact.
  rewrite Z2Nat.id in exact by lia. specialize (exact ltac:(lia)).
  unfold amountInCents. unfold priceRental in *. cbn [p_subtotal p_tax p_total] in *.
  rewrite whole. unfold centExact in exact.
  rewrite !andb_true_iff, !bool_decide_eq_true, !negb_true_iff in exact.
  destruct exact as ((((((charged & sub) & tax) & total) & ?) & ?) & ?).
  assert (10 ^ 23 = 100000000000000000000000) as big by reflexivity.
  split_and!; [done|apply toFixed2_cents; [done|lia|done]..].
Qed.

End Cents.

(** ** More of the server of [src/script.js] *)

Section Ids.

Lemma foldl_max_le (l : list Z) a : a <= foldl Z.max a l.
Proof. revert a. induction l as [|x l IH]; intros a; cbn; [lia|]. specialize (IH (Z.max a x)). lia. Qed.

Lemma foldl_max_ge (l : list Z) a x : x ∈ l -> x <= foldl Z.max a l.
Proof.
  revert a. induction l as [|y l IH]; intros a; [by intros ?%elem_of_nil|].
  intros [->|later]%elem_of_cons; cbn.
  - pose proof (foldl_max_le l (Z.max a y)). lia.
  - by apply IH.
Qed.

(** The id given to a new car is above every id in the list. *)
Lemma nextId_above (l : list Car) c : c ∈ l -> id c < ValidatedServer.nextId l.
Proof.
  unfold ValidatedServer.nextId. destruct l as [|d rest]; [by intros ?%elem_of_nil|].
  intros [->|later]%elem_of_cons.
  - pose proof (foldl_max_le (id <$> rest) (id d)). lia.
  - pose proof (foldl_max_ge (id <$> rest) (id d) (id c)
                  (list_elem_of_fmap_2 id rest c later)). lia.
Qed.

Lemma uniqueIds_replaced (inv : Inventory) i car car' other :
  uniqueIds inv -> cars inv !! i = Some car -> id car' = id car ->
  uniqueIds {| cars := <[i := car']> (cars inv); bookings := other |}.
Proof.
  unfold uniqueIds. cbn [cars]. intros unique at_i same.
  assert (id <$> <[i := car']> (cars inv) = id <$> cars inv) as unchanged.
  { rewrite list_fmap_insert. apply list_insert_id.
    by rewrite list_lookup_fmap, at_i, same. }
  by rewrite unchanged.
Qed.

Lemma uniqueIds_added (inv : Inventory) car other :
  uniqueIds inv -> id car = ValidatedServer.nextId (cars inv) ->
  uniqueIds {| cars := (cars inv ++ [car])%list; bookings := other |}.
Proof.
  unfold uniqueIds. cbn [cars]. intros unique fresh.
  rewrite fmap_app. apply NoDup_app. split_and!; [done| |apply NoDup_singleton].
  intros x [c [-> member]]%list_elem_of_fmap same%list_elem_of_singleton.
  apply nextId_above in member. cbn in same. lia.
Qed.

Lemma uniqueIds_deleted (inv : Inventory) i other :
  uniqueIds inv -> uniqueIds {| cars := delete i (cars inv); bookings := other |}.
Proof.
  unfold uniqueIds. cbn [cars]. intros unique.
  assert (id <$> delete i (cars inv) `sublist_of` id <$> cars inv) as part
    by apply fmap_sublist, sublist_delete.
  exact (sublist_NoDup _ _ unique part).
Qed.

(** With ids all different, a car that is deleted is found no more. *)
Lemma findCar_deleted (inv : Inventory) key i car other :
  uniqueIds inv -> findCar key inv = Some (i, car) ->
  findCar key {| cars := delete i (cars inv); bookings := other |} = None.
Proof.
  unfold uniqueIds, findCar. cbn [cars]. intros unique found.
  apply list_find_Some in found as (at_i & is_key & _).
  apply list_find_None, Forall_forall. intros c member same.
  apply list_elem_of_lookup in member as [j at_j].
  assert (id c = id car) as same_id by congruence.
  destruct (decide (j < i)%nat).
  - rewrite list_lookup_delete_lt in at_j by done.
    apply (NoDup_lookup _ j i (id car)) in unique; [lia| |].
    + by rewrite list_lookup_fmap, at_j, <- same_id.
    + by rewrite list_lookup_fmap, at_i.
  - rewrite list_lookup_delete_ge in at_j by lia.
    apply (NoDup_lookup _ (S j) i (id car)) in unique; [lia| |].
    + by rewrite list_lookup_fmap, at_j, <- same_id.
    + by rewrite list_lookup_fmap, at_i.
Qed.

End Ids.

(** ** The routes of [src/script.js], one request after the other *)

Section Booked.

Lemma bookedCar_refl c : ValidatedServer.bookedCar c c.
Proof. split; [by destruct c|lia]. Qed.

Lemma bookedCar_trans c1 c2 c3 :
  ValidatedServer.bookedCar c1 c2 -> ValidatedServer.bookedCar c2 c3 ->
  ValidatedServer.bookedCar c1 c3.
Proof.
  intros [same12 less12] [same23 less23]. split; [|lia].
  rewrite same23 at 1. by rewrite same12.
Qed.

Lemma bookedCars_refl (l : list Car) : Forall2 ValidatedServer.bookedCar l l.
Proof. induction l; constructor; auto using bookedCar_refl. Qed.

Lemma bookedCars_trans (l1 l2 l3 : list Car) :
  Forall2 ValidatedServer.bookedCar l1 l2 -> Forall2 ValidatedServer.bookedCar l2 l3 ->
  Forall2 ValidatedServer.bookedCar l1 l3.
Proof.
  intros H12. revert l3. induction H12; intros l3 H23; inversion H23; subst;
    constructor; eauto using bookedCar_trans.
Qed.

Lemma bookedCars_replaced (l : list Car) i car car' :
  l !! i = Some car -> ValidatedServer.bookedCar car car' ->
  Forall2 ValidatedServer.bookedCar l (<[i := car']> l).
Proof.
  revert i. induction l as [|c l IH]; intros [|i] at_i booked; try done.
  - injection at_i as ->. constructor; auto using bookedCars_refl.
  - constructor; auto using bookedCar_refl.
Qed.

End Booked.

Section Site.

Import ValidatedServer.

Context (v : Validators) (rt : Js.Runtime) (passwordOk : string -> bool).

(** What the booking handler leaves in the file: the file as it was, or one
    unit less of the car it found and one more booking. *)
Lemma validated_createBooking_saved clk file raw :
  (createBooking v rt clk file raw).1 = file
  \/ exists i car b,
       findCar (Js.parseInt rt (r_carId raw)) file = Some (i, car)
       /\ 0 < available car
       /\ (createBooking v rt clk file raw).1
          = {| cars := <[i := setAvailable (Js.minusOne (available car)) car]> (cars file);
               bookings := (bookings file ++ [b])%list |}.
Proof.
  unfold createBooking.
  destruct (validationPasses v raw); [|by left]. cbn [negb].
  change (r_carId (sanitize v raw)) with (r_carId raw).
  destruct (findCar _ file) as [[i car]|] eqn:found; [|by left].
  destruct (Z.leb_spec (available car) 0); [by left|].
  destruct (priceRental _ _ _) as [quote|]; [|by left].
  right. eexists i, car, _. split_and!; [done..|].
  pose proof (minusOne_bounds (available car)).
  cbn. unfold Js.Math_max. by rewrite Z.max_r by lia.
Qed.

(** The file behind the gate is the file as it was or as the handler left
    it. *)
Lemma guarded_cases (P : Inventory -> Prop) sid s after :
  P (inventory s) -> P after -> P (inventory (guarded sid s after)).
Proof. intros. unfold guarded. by destruct (authenticateAdmin sid s). Qed.



Lemma serve_uniqueIds s r :
  uniqueIds (inventory s) -> uniqueIds (inventory (serve v rt passwordOk s r)).
Proof.
  intros unique.
  destruct r as [sid u p|sid|sid idParam files|sid b|sid idParam b|sid idParam
                 |sid idParam a q|raw clk|]; cbn [serve]; try done.
  - by destruct (login v passwordOk u p).
  - apply guarded_cases; [done|]. unfold attachImages.
    destruct (_ && _); [done|].
    destruct (findCar _ _) as [[i car]|] eqn:found; [|done].
    apply findCar_lookup in found as [at_i _].
    by eapply uniqueIds_replaced.
  - apply guarded_cases; [done|]. unfold addCar.
    destruct (addCarPasses v b); [|done]. by apply uniqueIds_added.
  - apply guarded_cases; [done|]. unfold updateCar.
    destruct (updateCarPasses v b); [|done].
    destruct (findCar _ _) as [[i car]|] eqn:found; [|done].
    apply findCar_lookup in found as [at_i _].
    by eapply uniqueIds_replaced.
  - apply guarded_cases; [done|]. unfold deleteCar.
    destruct (findCar _ _) as [[i car]|]; [|done].
    by apply uniqueIds_deleted.
  - apply guarded_cases; [done|]. unfold updateAvailability.
    destruct a as [a|], q as [q|]; try done.
    destruct (_ || _); [done|]. destruct (q <? a); [done|].
    destruct (findCar _ _) as [[i car]|] eqn:found; [|done].
    apply findCar_lookup in found as [at_i _].
    by eapply uniqueIds_replaced.
  - cbn [inventory].
    destruct (validated_createBooking_saved clk (inventory s) raw)
      as [->|(i & car & b & found & _ & ->)]; [done|].
    apply findCar_lookup in found as [at_i _].
    by eapply uniqueIds_replaced.
Qed.

(** X13.  Whatever requests the server of [src/script.js] is sent, one
    after the other, by admins or others, the ids of the cars stay all
    different: a new car gets an id above every id in the file, and no
    handler changes the id of a car. *)
Theorem site_keeps_ids_unique s rs :
  uniqueIds (inventory s) -> uniqueIds (inventory (serveAll v rt passwordOk s rs)).
Proof.
  unfold serveAll. revert s. induction rs as [|r rs IH]; intros s unique; cbn [foldl];
    [done|]. by apply IH, serve_uniqueIds.
Qed.



(** X15.  [POST /api/cars] has no check of [available] against
    [quantity]: a body that passes the chains and whose [available] reads,
    with [parseInt], above its [quantity] is stored with these two
    numbers, and the file no longer satisfies
    [0 <= available <= quantity]. *)
Theorem addCar_available_above_quantity b file a q :
  addCarPasses v b = true ->
  intOf (c_available b) = Some a -> intOf (c_quantity b) = Some q -> q < a ->
  exists car,
    addCar v b file
    = ({| cars := (cars file ++ [car])%list; bookings := bookings file |}, Ok car)
    /\ available car = a /\ quantity car = q
    /\ ~ inventoryOk (addCar v b file).1.
Proof.
  intros passes given_a given_q above. unfold addCar. rewrite passes. cbn [negb].
  eexists. split; [reflexivity|]. cbn -[intOf]. rewrite given_a, given_q. cbn.
  split_and!; [done..|].
  unfold inventoryOk. cbn -[intOf]. rewrite Forall_app, Forall_singleton.
  unfold carOk. cbn. lia.
Qed.

Lemma serve_gate s r :
  admins s = [] -> noLogin v passwordOk r ->
  admins (serve v rt passwordOk s r) = []
  /\ Forall2 bookedCar (cars (inventory s)) (cars (inventory (serve v rt passwordOk s r))).
Proof.
  intros nobody quiet.
  assert (forall sid after, guarded sid s after = s) as shut.
  { intros sid after. unfold guarded, authenticateAdmin. by rewrite nobody. }
  destruct r as [sid u p|sid|sid idParam files|sid b|sid idParam b|sid idParam
                 |sid idParam a q|raw clk|]; cbn [serve]; rewrite ?shut;
    try (split; [done|apply bookedCars_refl]).
  - cbn in quiet. destruct (login v passwordOk u p); try done;
      (split; [done|apply bookedCars_refl]).
  - cbn. rewrite nobody. split; [done|apply bookedCars_refl].
  - cbn [admins inventory]. split; [done|].
    destruct (validated_createBooking_saved clk (inventory s) raw)
      as [->|(i & car & b & found & free & ->)]; [apply bookedCars_refl|].
    apply findCar_lookup in found as [at_i _]. cbn [cars].
    eapply bookedCars_replaced; [done|].
    pose proof (minusOne_bounds _ free).
    split; [by destruct car|cbn; lia].
Qed.

(** X16.  As long as nobody has logged in, the routes behind
    [authenticateAdmin] change nothing, whatever they are sent: after any
    requests without a successful login there is still no admin session,
    no car has been added, removed or edited, and a car differs from what
    it was only in [available], which bookings have lowered. *)
Theorem site_without_login s rs :
  admins s = [] -> Forall (noLogin v passwordOk) rs ->
  admins (serveAll v rt passwordOk s rs) = []
  /\ Forall2 bookedCar (cars (inventory s))
       (cars (inventory (serveAll v rt passwordOk s rs))).
Proof.
  unfold serveAll. intros nobody quiet. revert s nobody.
  induction quiet as [|r rs quiet_r _ IH]; intros s nobody; cbn [foldl].
  - split; [done|apply bookedCars_refl].
  - destruct (serve_gate s r nobody quiet_r) as [still step].
    destruct (IH _ still) as [nobody' rest].
    split; [done|by eapply bookedCars_trans].
Qed.

(** X17.  With ids all different, a car that is deleted is gone for the
    booking handler: the bookings made of it stay in the file, and a later
    request to book that id is answered with [CarNotFound] and leaves the
    file as it is. *)
Theorem deleteCar_then_booking clk file idParam raw :
  uniqueIds file ->
  is_Some (findCar (Js.parseInt rt idParam) file) ->
  Js.parseInt rt (r_carId raw) = Js.parseInt rt idParam ->
  validationPasses v raw = true ->
  (deleteCar rt idParam file).2 = Ok tt
  /\ bookings (deleteCar rt idParam file).1 = bookings file
  /\ createBooking v rt clk (deleteCar rt idParam file).1 raw
     = ((deleteCar rt idParam file).1, Rejected CarNotFound).
Proof.
  intros unique [[i car] found] same passes. unfold deleteCar. rewrite found.
  cbn [fst snd bookings]. split_and!; [done..|].
  unfold createBooking. rewrite passes. cbn [negb].
  change (r_carId (sanitize v raw)) with (r_carId raw). rewrite same.
  by erewrite findCar_deleted.
Qed.

(** X18.  A booking that the server of [src/script.js] accepts, of a car
    that has a whole number of units available, at most 2^53: the request
    passed the validation chains, the car had a unit available, and the
    document changes in two places only.  That car has [available] lower
    by exactly one and every other field as before, every other car is as
    it was, and the booking is added after the former ones; the booking
    carries the id, the name and the price of the car, its status is
    "pending", and its number of days was not found to be zero or less. *)
Theorem validated_createBooking_frame clk file raw after b i car :
  createBooking v rt clk file raw = (after, Ok b) ->
  findCar (Js.parseInt rt (r_carId raw)) file = Some (i, car) ->
  available car <= 2 ^ 53 ->
  validationPasses v raw = true
  /\ 0 < available car
  /\ (exists car',
        cars after !! i = Some car'
        /\ available car' = available car - 1
        /\ quantity car' = quantity car /\ price car' = price car
        /\ images car' = images car /\ id car' = id car /\ name car' = name car
        /\ model car' = model car /\ carTrim car' = carTrim car /\ year car' = year car
        /\ seats car' = seats car /\ transmission car' = transmission car
        /\ fuel car' = fuel car /\ mileage car' = mileage car
        /\ features car' = features car /\ color car' = color car)
  /\ (forall j, j <> i -> cars after !! j = cars file !! j)
  /\ length (cars after) = length (cars file)
  /\ bookings after = (bookings file ++ [b])%list
  /\ carId b = id car /\ carName b = name car /\ pricePerDay b = price car
  /\ paymentStatus b = "pending"
  /\ PrimFloat.leb (days b) 0 = false.
Proof.
  unfold createBooking. intros created found safe. revert created.
  destruct (validationPasses v raw); [|done]. cbn [negb].
  change (r_carId (sanitize v raw)) with (r_carId raw). rewrite found.
  destruct (Z.leb_spec (available car) 0) as [|free]; [done|].
  unfold priceRental.
  destruct (PrimFloat.leb _ 0) eqn:positive; [done|].
  intros [= <- <-]. cbn [cars bookings].
  pose proof (minusOne_bounds _ free) as bounds.
  rewrite minusOne_exact in * by lia.
  unfold Js.Math_max. rewrite Z.max_r by lia.
  apply findCar_lookup in found as [at_i is_key].
  split_and!; try done.
  - exists (setAvailable (available car - 1) car).
    split_and!; try by destruct car.
    apply list_lookup_insert_eq. eauto using lookup_lt_Some.
  - intros j other. by apply list_lookup_insert_ne.
  - apply length_insert.
  - cbn. by rewrite <- is_key.
Qed.

End Site.

(** ** The payment intent and the booking *)

Section Intent.

Import PaymentServer.

Context (rt : Js.Runtime) (gw : Gateway) (clk : Clock).

(** X19.  The amount that [POST /api/create-payment-intent] asks of Stripe
    for a car and two dates is the total, in cents, of the booking that
    [POST /api/bookings] then records for the same car and dates. *)
Theorem intent_matches_booking f req b :
  configured gw = true ->
  answer (createBooking rt gw clk f req) = Ok b ->
  createPaymentIntent rt gw (r_carId req) (r_pickupDate req) (r_returnDate req) f
  = IntentFor (Js.Math_round (PrimFloat.mul (total b) 100)).
Proof.
  intros key created.
  apply createBooking_Ok in created as (p & status & prepared & committed).
  injection committed as _ ->.
  revert prepared. unfold bookingPrepare, createPaymentIntent.
  destruct (findCar _ f) as [[i car]|]; [|done].
  destruct (available car <=? 0); [done|].
  destruct (PrimFloat.leb _ _); [done|].
  intros [= <-]. by rewrite key.
Qed.

(** X20.  The payment intent is created without the checks of the booking:
    for a request that [POST /api/bookings] refuses because the car has no
    unit left, because the return date is not after the pickup date or
    because of the payment, a server with the Stripe key still asks Stripe
    for an amount. *)
Theorem intent_for_a_refused_booking f req e :
  configured gw = true ->
  answer (createBooking rt gw clk f req) = Rejected e -> e <> CarNotFound ->
  exists amount,
    createPaymentIntent rt gw (r_carId req) (r_pickupDate req) (r_returnDate req) f
    = IntentFor amount.
Proof.
  intros key refused other. revert refused.
  unfold createBooking, bookingPrepare, createPaymentIntent.
  destruct (findCar _ f) as [[i car]|]; [|cbn; congruence].
  rewrite key. eauto.
Qed.

End Intent.

(** ** The slideshow and the gallery of the page *)

Section Slides.

Import Client.

Lemma rem_range a n : 0 <= a -> 0 < n -> 0 <= Z.rem a n < n.
Proof.
  intros. rewrite Z.rem_mod_nonneg by lia. apply Z.mod_pos_bound. lia.
Qed.

Lemma rem_next n c : 0 < n -> 0 <= c < n ->
  Z.rem (c + 1) n = if c + 1 =? n then 0 else c + 1.
Proof.
  intros. rewrite Z.rem_mod_nonneg by lia.
  destruct (Z.eqb_spec (c + 1) n) as [->|]; [apply Z_mod_same_full|].
  apply Z.mod_small. lia.
Qed.

Lemma rem_prev n c : 0 < n -> 0 <= c < n ->
  Z.rem (c - 1 + n) n = if c =? 0 then n - 1 else c - 1.
Proof.
  intros. rewrite Z.rem_mod_nonneg by lia.
  destruct (Z.eqb_spec c 0) as [->|].
  { replace (0 - 1 + n) with (n - 1) by lia. apply Z.mod_small. lia. }
  replace (c - 1 + n) with (c - 1 + 1 * n) by lia.
  rewrite Z_mod_plus_full. apply Z.mod_small. lia.
Qed.

(** X21.  With cars on the page, the slide shown is always one of them:
    [nextSlide] and [prevSlide] lead into the range of the list from any
    index that is not negative, and [goToSlide] leaves it only for an index
    of the list. *)
Theorem slideshow_stays_in_range length index currentSlide :
  0 < length -> 0 <= currentSlide ->
  0 <= nextSlide length currentSlide < length
  /\ 0 <= prevSlide length currentSlide < length
  /\ (currentSlide < length -> 0 <= goToSlide length index currentSlide < length).
Proof.
  intros some from. unfold nextSlide, prevSlide, goToSlide.
  destruct (Z.eqb_spec length 0); [lia|].
  split_and!; [apply rem_range; lia..|].
  intros below.
  destruct (Z.ltb_spec index 0); [cbn; lia|].
  destruct (Z.leb_spec length index); cbn; lia.
Qed.

(** X22.  [prevSlide] undoes [nextSlide] and [nextSlide] undoes
    [prevSlide]: the slideshow goes round the list, from the last car to
    the first and back. *)
Theorem prevSlide_nextSlide length currentSlide :
  0 <= currentSlide < length ->
  prevSlide length (nextSlide length currentSlide) = currentSlide
  /\ nextSlide length (prevSlide length currentSlide) = currentSlide.
Proof.
  intros range. unfold nextSlide, prevSlide.
  destruct (Z.eqb_spec length 0); [lia|].
  rewrite (rem_next length currentSlide), (rem_prev length currentSlide) by lia.
  split.
  - destruct (Z.eqb_spec (currentSlide + 1) length).
    + rewrite rem_prev by lia. cbn. lia.
    + rewrite rem_prev by lia.
      destruct (Z.eqb_spec (currentSlide + 1) 0); lia.
  - destruct (Z.eqb_spec currentSlide 0).
    + rewrite rem_next by lia.
      destruct (Z.eqb_spec (length - 1 + 1) length); lia.
    + rewrite rem_next by lia.
      destruct (Z.eqb_spec (currentSlide - 1 + 1) length); lia.
Qed.

(** X23.  In the gallery of a car, whose list of images is never empty,
    [nextGalleryImage] and [prevGalleryImage] always pass the range check of
    [changeGalleryImage]: they move to the image after and the image before,
    round the end of the list, and undo each other. *)
Theorem gallery_goes_round length currentGalleryImage :
  0 <= currentGalleryImage < length ->
  nextGalleryImage length currentGalleryImage
  = (if currentGalleryImage + 1 =? length then 0 else currentGalleryImage + 1)
  /\ prevGalleryImage length currentGalleryImage
     = (if currentGalleryImage =? 0 then length - 1 else currentGalleryImage - 1)
  /\ prevGalleryImage length (nextGalleryImage length currentGalleryImage)
     = currentGalleryImage
  /\ nextGalleryImage length (prevGalleryImage length currentGalleryImage)
     = currentGalleryImage.
Proof.
  intros range.
  assert (forall c, 0 <= c < length ->
            nextGalleryImage length c = if c + 1 =? length then 0 else c + 1) as next.
  { intros c ?. unfold nextGalleryImage, changeGalleryImage.
    rewrite rem_next by lia.
    destruct (Z.eqb_spec (c + 1) length).
    - destruct (Z.ltb_spec 0 0); [lia|]. by destruct (Z.leb_spec length 0); [lia|].
    - destruct (Z.ltb_spec (c + 1) 0); [lia|].
      by destruct (Z.leb_spec length (c + 1)); [lia|]. }
  assert (forall c, 0 <= c < length ->
            prevGalleryImage length c = if c =? 0 then length - 1 else c - 1) as prev.
  { intros c ?. unfold prevGalleryImage, changeGalleryImage.
    rewrite rem_prev by lia.
    destruct (Z.eqb_spec c 0).
    - destruct (Z.ltb_spec (length - 1) 0); [lia|].
      by destruct (Z.leb_spec length (length - 1)); [lia|].
    - destruct (Z.ltb_spec (c - 1) 0); [lia|].
      by destruct (Z.leb_spec length (c - 1)); [lia|]. }
  split_and!; [by apply next|by apply prev| |].
  - rewrite (next currentGalleryImage) by lia.
    destruct (Z.eqb_spec (currentGalleryImage + 1) length).
    + rewrite prev by lia. cbn. lia.
    + rewrite prev by lia. destruct (Z.eqb_spec (currentGalleryImage + 1) 0); lia.
  - rewrite (prev currentGalleryImage) by lia.
    destruct (Z.eqb_spec currentGalleryImage 0).
    + rewrite next by lia. destruct (Z.eqb_spec (length - 1 + 1) length); lia.
    + rewrite next by lia.
      destruct (Z.eqb_spec (currentGalleryImage - 1 + 1) length); lia.
Qed.

End Slides.

(** ** The later lemmas at the seed inventory *)

Lemma seed_inventoryOk : inventoryOk initialInventory.
Proof. repeat constructor; cbn; lia. Qed.

Lemma seed_uniqueIds : uniqueIds initialInventory.
Proof.
  unfold uniqueIds. cbn. repeat constructor; rewrite ?elem_of_cons, ?elem_of_nil; intuition lia.
Qed.

Lemma serveAll_keeps_invariant_witness :
  inventoryOk
    (PaymentServer.serveAll NodeSample.runtime NodeSample.stripeAbsent initialInventory
       Examples.dayOfRequests).
Proof.
  apply serveAll_keeps_invariant; [exact seed_inventoryOk|].
  repeat apply Forall_cons_2; try exact I; [|apply Forall_nil_2].
  split.
  - by exists {| PaymentServer.sent_available := Some "5";
                PaymentServer.sent_quantity := Some "2" |}.
  - cbn. intros q [= <-]. lia.
Defined.

Lemma run_keeps_invariant_witness :
  inventoryOk
    (PaymentServer.file
       (PaymentServer.run NodeSample.runtime NodeSample.stripePaid [0; 1; 0; 1]%nat
          {| PaymentServer.file := initialInventory;
             PaymentServer.tasks :=
               (fun a => PaymentServer.Arrived a.1 a.2) <$> Examples.lastUnitArrivals |})).
Proof. apply run_keeps_invariant. exact seed_inventoryOk. Defined.

Lemma createBooking_listing_witness :
  exists shown,
    PaymentServer.listCars
      (PaymentServer.saved
         (PaymentServer.createBooking NodeSample.runtime NodeSample.stripeAbsent
            (NodeSample.clock 1716200000000) initialInventory Examples.rav4Request))
    !! 1%nat = Some shown
    /\ available (PaymentServer.s_car shown) = available rav4 - 1
    /\ quantity (PaymentServer.s_car shown) = quantity rav4
    /\ id (PaymentServer.s_car shown) = id rav4
    /\ name (PaymentServer.s_car shown) = name rav4
    /\ PaymentServer.s_price shown = PaymentServer.priceLabel rav4
    /\ PaymentServer.s_availability shown
       = (if available rav4 =? 1 then "unavailable" else "limited")
    /\ PaymentServer.s_image shown = PaymentServer.s_image (PaymentServer.summaryOf rav4).
Proof.
  apply (createBooking_listing NodeSample.runtime NodeSample.stripeAbsent
           (NodeSample.clock 1716200000000) initialInventory Examples.rav4Request
           Examples.rav4Booking); [exact seed_inventoryOk|reflexivity|reflexivity|].
  vm_compute. discriminate.
Defined.

Lemma createBooking_of_a_large_count_witness :
  cars (PaymentServer.saved
          (PaymentServer.createBooking NodeSample.runtime NodeSample.stripeAbsent
             (NodeSample.clock 1716200000000) Examples.overstocked Examples.rav4Request))
  = cars Examples.overstocked
  /\ bookings (PaymentServer.saved
                 (PaymentServer.createBooking NodeSample.runtime NodeSample.stripeAbsent
                    (NodeSample.clock 1716200000000) Examples.overstocked
                    Examples.rav4Request))
     = (bookings Examples.overstocked ++ [Examples.rav4Booking])%list.
Proof.
  apply (createBooking_of_a_large_count NodeSample.runtime NodeSample.stripeAbsent
           (NodeSample.clock 1716200000000) Examples.overstocked Examples.rav4Request
           Examples.rav4Booking 1%nat
           (setAvailable 100000000000000000000 (setQuantity 100000000000000000000 rav4)));
    [reflexivity|reflexivity|].
  vm_compute. discriminate.
Defined.

Lemma amounts_to_the_cent_witness :
  Js.toZ
    (PaymentServer.amountInCents
       (PaymentServer.priceRental (NodeSample.newDate "2024-06-01")
          (NodeSample.newDate "2024-06-04") 70))
  = Some (108 * 210)
  /\ Js.toFixed2 NodeSample.runtime
       (PaymentServer.p_subtotal
          (PaymentServer.priceRental (NodeSample.newDate "2024-06-01")
             (NodeSample.newDate "2024-06-04") 70))
     = Js.cents (100 * 210)
  /\ Js.toFixed2 NodeSample.runtime
       (PaymentServer.p_tax
          (PaymentServer.priceRental (NodeSample.newDate "2024-06-01")
             (NodeSample.newDate "2024-06-04") 70))
     = Js.cents (8 * 210)
  /\ Js.toFixed2 NodeSample.runtime
       (PaymentServer.p_total
          (PaymentServer.priceRental (NodeSample.newDate "2024-06-01")
             (NodeSample.newDate "2024-06-04") 70))
     = Js.cents (108 * 210).
Proof.
  apply (amounts_to_the_cent NodeSample.runtime); [lia|]. vm_compute. reflexivity.
Defined.

Lemma site_keeps_ids_unique_witness :
  uniqueIds
    (ValidatedServer.inventory
       (ValidatedServer.serveAll NodeSample.validators NodeSample.runtime
          NodeSample.passwordOk Examples.seedSite Examples.adminRequests)).
Proof. apply site_keeps_ids_unique. exact seed_uniqueIds. Defined.


Lemma addCar_available_above_quantity_witness :
  exists car,
    ValidatedServer.addCar NodeSample.validators (Examples.carBody "Honda Civic" 55 2 5)
      initialInventory
    = ({| cars := (cars initialInventory ++ [car])%list;
          bookings := bookings initialInventory |}, Ok car)
    /\ available car = 5 /\ quantity car = 2
    /\ ~ inventoryOk
           (ValidatedServer.addCar NodeSample.validators
              (Examples.carBody "Honda Civic" 55 2 5) initialInventory).1.
Proof.
  apply addCar_available_above_quantity; [vm_compute; reflexivity|reflexivity..|lia].
Defined.

Lemma site_without_login_witness :
  ValidatedServer.admins
    (ValidatedServer.serveAll NodeSample.validators NodeSample.runtime
       NodeSample.passwordOk Examples.seedSite Examples.intruderRequests) = []
  /\ Forall2 ValidatedServer.bookedCar
       (cars (ValidatedServer.inventory Examples.seedSite))
       (cars (ValidatedServer.inventory
                (ValidatedServer.serveAll NodeSample.validators NodeSample.runtime
                   NodeSample.passwordOk Examples.seedSite Examples.intruderRequests))).
Proof.
  apply site_without_login; [reflexivity|].
  repeat constructor. vm_compute. discriminate.
Defined.

Lemma deleteCar_then_booking_witness :
  (ValidatedServer.deleteCar NodeSample.runtime "2" initialInventory).2 = Ok tt
  /\ bookings (ValidatedServer.deleteCar NodeSample.runtime "2" initialInventory).1
     = bookings initialInventory
  /\ ValidatedServer.createBooking NodeSample.validators NodeSample.runtime
       (NodeSample.clock 1716200000000)
       (ValidatedServer.deleteCar NodeSample.runtime "2" initialInventory).1
       Examples.rav4Request
     = ((ValidatedServer.deleteCar NodeSample.runtime "2" initialInventory).1,
        Rejected CarNotFound).
Proof.
  apply deleteCar_then_booking.
  - exact seed_uniqueIds.
  - exists (1%nat, rav4). vm_compute. reflexivity.
  - reflexivity.
  - vm_compute. reflexivity.
Defined.

Lemma validated_createBooking_frame_witness :
  ValidatedServer.validationPasses NodeSample.validators Examples.rav4Request = true
  /\ 0 < available rav4
  /\ (exists car',
        cars {| cars := [camry; setAvailable 2 rav4]; bookings := [Examples.rav4Booking] |}
        !! 1%nat = Some car'
        /\ available car' = available rav4 - 1
        /\ quantity car' = quantity rav4 /\ price car' = price rav4
        /\ images car' = images rav4 /\ id car' = id rav4 /\ name car' = name rav4
        /\ model car' = model rav4 /\ carTrim car' = carTrim rav4 /\ year car' = year rav4
        /\ seats car' = seats rav4 /\ transmission car' = transmission rav4
        /\ fuel car' = fuel rav4 /\ mileage car' = mileage rav4
        /\ features car' = features rav4 /\ color car' = color rav4)
  /\ (forall j, j <> 1%nat ->
        cars {| cars := [camry; setAvailable 2 rav4]; bookings := [Examples.rav4Booking] |}
        !! j = cars initialInventory !! j)
  /\ length (cars {| cars := [camry; setAvailable 2 rav4];
                     bookings := [Examples.rav4Booking] |})
     = length (cars initialInventory)
  /\ bookings {| cars := [camry; setAvailable 2 rav4]; bookings := [Examples.rav4Booking] |}
     = (bookings initialInventory ++ [Examples.rav4Booking])%list
  /\ carId Examples.rav4Booking = id rav4
  /\ carName Examples.rav4Booking = name rav4
  /\ pricePerDay Examples.rav4Booking = price rav4
  /\ paymentStatus Examples.rav4Booking = "pending"
  /\ PrimFloat.leb (days Examples.rav4Booking) 0 = false.
Proof.
  apply (validated_createBooking_frame NodeSample.validators NodeSample.runtime
           (NodeSample.clock 1716200000000) initialInventory Examples.rav4Request);
    [vm_compute; reflexivity|reflexivity|].
  vm_compute. discriminate.
Defined.

Lemma intent_matches_booking_witness :
  PaymentServer.createPaymentIntent NodeSample.runtime NodeSample.stripePaid
    (r_carId Examples.rav4Request) (r_pickupDate Examples.rav4Request)
    (r_returnDate Examples.rav4Request) initialInventory
  = PaymentServer.IntentFor (Js.Math_round (PrimFloat.mul (total Examples.rav4Booking) 100)).
Proof.
  apply (intent_matches_booking NodeSample.runtime NodeSample.stripePaid
           (NodeSample.clock 1716200000000)); [reflexivity|].
  vm_compute. reflexivity.
Defined.

Lemma intent_for_a_refused_booking_witness :
  exists amount,
    PaymentServer.createPaymentIntent NodeSample.runtime NodeSample.stripePaid
      (r_carId Examples.rav4Request) (r_pickupDate Examples.rav4Request)
      (r_returnDate Examples.rav4Request) Examples.soldOut
    = PaymentServer.IntentFor amount.
Proof.
  apply (intent_for_a_refused_booking NodeSample.runtime NodeSample.stripePaid
           (NodeSample.clock 1716200000000) Examples.soldOut Examples.rav4Request
           CarUnavailable); [reflexivity|vm_compute; reflexivity|discriminate].
Defined.

Lemma slideshow_stays_in_range_witness :
  0 <= Client.nextSlide 2 1 < 2
  /\ 0 <= Client.prevSlide 2 1 < 2
  /\ (1 < 2 -> 0 <= Client.goToSlide 2 5 1 < 2).
Proof. apply slideshow_stays_in_range; lia. Defined.

Lemma prevSlide_nextSlide_witness :
  Client.prevSlide 2 (Client.nextSlide 2 1) = 1
  /\ Client.nextSlide 2 (Client.prevSlide 2 1) = 1.
Proof. apply prevSlide_nextSlide. lia. Defined.

Lemma gallery_goes_round_witness :
  Client.nextGalleryImage 3 2 = (if 2 + 1 =? 3 then 0 else 2 + 1)
  /\ Client.prevGalleryImage 3 2 = (if 2 =? 0 then 3 - 1 else 2 - 1)
  /\ Client.prevGalleryImage 3 (Client.nextGalleryImage 3 2) = 2
  /\ Client.nextGalleryImage 3 (Client.prevGalleryImage 3 2) = 2.
Proof. apply gallery_goes_round. lia. Defined.
